(** * Shadow Legends (Videojuego.py)

    A shallow embedding of the game's entity model ([Personaje], [Jugador],
    [Enemigo], [Objeto]), of the turn-based combat resolver ([CombateState]),
    of the exploration encounter trigger ([JugandoState.update]), and of the
    timer, the missions and the menu screens around them, followed by the
    properties stated about them.

    Conventions of the embedding:
    - Python [int] is [Z]; [//] is [Z.div] (floor), [max]/[min] are
      [Z.max]/[Z.min].
    - The floats of the movement code (positions, the flash and wander
      timers, the tick length [dt]) are IEEE 754 binary64 numbers with
      Python's round-to-nearest arithmetic ([Float], over the Standard
      Library's [SpecFloat]); where Python mixes them with ints the value
      is a [Num].  The seconds of the combat timer and the random draws of
      the attacks are kept as rationals ([Q]), without rounding.
    - [str] is a [string] of UTF-8 bytes; substring search on valid UTF-8
      agrees with substring search on code points.
    - Methods mutate [self]; here they take the object and return the new one.
      Text written with [print] is returned as a list of lines.
    - [Enemigo] objects are shared between the roster and
      [Game.enemigo_actual], so they live in a store indexed by reference.
    - Drawing, sprites, fonts, camera and particles carry no game logic and
      are left out. *)

From stdpp Require Import list strings relations gmap.
From Stdlib Require Import ZArith QArith String Ascii Lia DecimalString.
From Stdlib Require Floats.SpecFloat.

Local Open Scope string_scope.
Local Open Scope list_scope.
Local Open Scope Z_scope.

(** ** Python and pygame primitives used by the game *)

Module Py.

(** [str(n)] of an int, as used by f-strings. *)
Definition str (n : Z) : string := NilZero.string_of_int (Z.to_int n).

(** The value of [float(n)] where it is only compared: a rational. *)
Definition float (n : Z) : Q := inject_Z n.

(** Comparisons of the seconds of the timer and of the random draws of the
    attacks, by value. *)
Definition ge (a b : Q) : bool := Qle_bool b a.
Definition lt (a b : Q) : bool := negb (Qle_bool b a).

(** [sub in s] on strings. *)
Fixpoint contains (sub s : string) : bool :=
  String.prefix sub s ||
  match s with
  | EmptyString => false
  | String _ s' => contains sub s'
  end.

(** [l.remove(x)]: drops the first element equal to [x].  The game only
    removes elements it has just read from the same list, so the
    [ValueError] of an absent element never arises. *)
Fixpoint remove {A} `{EqDecision A} (x : A) (l : list A) : list A :=
  match l with
  | [] => []
  | y :: l' => if decide (x = y) then l' else y :: remove x l'
  end.

(** Truth value of an attribute that is [None] or a non-empty value. *)
Definition truthy {A} (o : option A) : bool :=
  match o with
  | Some _ => true
  | None => false
  end.

(** [str.lower] is a builtin driven by the Unicode tables; the model takes
    it as an interface. *)
Class Str := { lower : string -> string }.

(** An executable instance for UTF-8 text whose letters are ASCII or
    Latin-1 (U+00C0..U+00DE without U+00D7), where [str.lower] adds 32 to
    the code point, that is to the last byte of the encoding. *)
Definition lower_byte (previo : option ascii) (c : ascii) : ascii :=
  let n := N_of_ascii c in
  match previo with
  | Some p =>
      if (N_of_ascii p =? 195)%N then
        if ((128 <=? n) && (n <=? 158) && negb (n =? 151))%N
        then ascii_of_N (n + 32) else c
      else if ((65 <=? n) && (n <=? 90))%N then ascii_of_N (n + 32) else c
  | None => if ((65 <=? n) && (n <=? 90))%N then ascii_of_N (n + 32) else c
  end.

Fixpoint lower_desde (previo : option ascii) (s : string) : string :=
  match s with
  | EmptyString => EmptyString
  | String c s' => String (lower_byte previo c) (lower_desde (Some c) s')
  end.

Definition lower_latin1 : Str := {| lower := lower_desde None |}.

End Py.

(** ** Python floats

    A [float] is a binary64 number; every operation returns the float
    nearest to the exact result, ties going to the even mantissa. *)

Module Float.

Definition t : Type := SpecFloat.spec_float.

Definition prec : Z := 53.
Definition emax : Z := 1024.

(** The float nearest to an integer (an infinity beyond the range). *)
Definition of_Z (n : Z) : t :=
  SpecFloat.binary_normalize prec emax n 0 false.

(** [float(n)] of an int, also where an int meets a float in arithmetic:
    [None] is the [OverflowError] of an int beyond the range. *)
Definition of_int (n : Z) : option t :=
  match of_Z n with
  | SpecFloat.S754_infinity _ => None
  | f => Some f
  end.

Definition add (a b : t) : t := SpecFloat.SFadd prec emax a b.
Definition sub (a b : t) : t := SpecFloat.SFsub prec emax a b.
Definition mul (a b : t) : t := SpecFloat.SFmul prec emax a b.
Definition div (a b : t) : t := SpecFloat.SFdiv prec emax a b.

(** The literal written [n/d] in decimal (0.707 is [decimal 707 1000]),
    for [n] and [d] below 2^53: the quotient of two exact floats is the
    float nearest to the number written. *)
Definition decimal (n d : Z) : t := div (of_Z n) (of_Z d).

(** Comparisons; every comparison with a nan is false. *)
Definition lt (a b : t) : bool := SpecFloat.SFltb a b.
Definition le (a b : t) : bool := SpecFloat.SFleb a b.
Definition eqb (a b : t) : bool := SpecFloat.SFeqb a b.

(** [int(f)]: truncation toward zero; [None] is the [ValueError] of a nan
    or the [OverflowError] of an infinity. *)
Definition to_int (f : t) : option Z :=
  match f with
  | SpecFloat.S754_zero _ => Some 0
  | SpecFloat.S754_finite s m e =>
      let n := if 0 <=? e then Z.pos m * 2 ^ e else Z.pos m / 2 ^ (- e) in
      Some (if s then - n else n)
  | SpecFloat.S754_infinity _ | SpecFloat.S754_nan => None
  end.

End Float.

(** ** Python numbers: an int or a float

    Arithmetic on two ints is exact; as soon as a float takes part the int
    is converted and the result is a float. *)

Module Num.

Inductive t :=
| Int (n : Z)
| Flt (f : Float.t).

Definition to_float (a : t) : option Float.t :=
  match a with
  | Int n => Float.of_int n
  | Flt f => Some f
  end.

Definition add (a b : t) : option t :=
  match a, b with
  | Int m, Int n => Some (Int (m + n))
  | _, _ => x ← to_float a; y ← to_float b; Some (Flt (Float.add x y))
  end.

Definition sub (a b : t) : option t :=
  match a, b with
  | Int m, Int n => Some (Int (m - n))
  | _, _ => x ← to_float a; y ← to_float b; Some (Flt (Float.sub x y))
  end.

Definition mul (a b : t) : option t :=
  match a, b with
  | Int m, Int n => Some (Int (m * n))
  | _, _ => x ← to_float a; y ← to_float b; Some (Flt (Float.mul x y))
  end.

(** [a > 0], [a <= 0] and [a != 0] against the int 0. *)
Definition gt_0 (a : t) : bool :=
  match a with
  | Int n => 0 <? n
  | Flt f => Float.lt (Float.of_Z 0) f
  end.

Definition le_0 (a : t) : bool :=
  match a with
  | Int n => n <=? 0
  | Flt f => Float.le f (Float.of_Z 0)
  end.

Definition ne_0 (a : t) : bool :=
  match a with
  | Int n => negb (n =? 0)
  | Flt f => negb (Float.eqb f (Float.of_Z 0))
  end.

End Num.

Module Rect.

(** [pygame.Rect]: integer position and size. *)
Record t := mk { x : Z; y : Z; width : Z; height : Z }.

(** [Rect.colliderect]: overlap of two boxes; boxes that only touch at an
    edge, and boxes of zero size, do not collide. *)
Definition colliderect (a b : t) : bool :=
  if (width a =? 0) || (height a =? 0) || (width b =? 0) || (height b =? 0)
  then false
  else
    (Z.min (x a) (x a + width a) <? Z.max (x b) (x b + width b)) &&
    (Z.min (y a) (y a + height a) <? Z.max (y b) (y b + height b)) &&
    (Z.max (x a) (x a + width a) >? Z.min (x b) (x b + width b)) &&
    (Z.max (y a) (y a + height a) >? Z.min (y b) (y b + height b)).

(** [Rect.collidepoint]. *)
Definition collidepoint (r : t) (pos : Z * Z) : bool :=
  (x r <=? fst pos) && (fst pos <? x r + width r) &&
  (y r <=? snd pos) && (snd pos <? y r + height r).

Definition con_xy (nx ny : Z) (r : t) : t :=
  {| x := nx; y := ny; width := width r; height := height r |}.

(** pygame keeps the coordinates of a box as C ints: assigning a value
    beyond them to [rect.x] or [rect.y] raises [TypeError]. *)
Definition asignable (n : Z) : bool := (- 2 ^ 31 <=? n) && (n <? 2 ^ 31).

End Rect.

Module Config.
Definition SCREEN_WIDTH : Z := 1280.
Definition SCREEN_HEIGHT : Z := 720.
Definition PLAYER_SPEED : Z := 300.
Definition BUTTON_HEIGHT : Z := 50.
End Config.

(** ** Timer *)

Module Timer.

Record t := mk { duration : Q; start_time : Z; active : bool }.

Definition init (d : Q) : t :=
  {| duration := d; start_time := 0; active := false |}.

(** [start]: [ahora] is the value of [pygame.time.get_ticks()]. *)
Definition start (ahora : Z) (tm : t) : t :=
  {| duration := duration tm; start_time := ahora; active := true |}.

(** [update]: returns whether the timer has just finished. *)
Definition update (ahora : Z) (tm : t) : bool * t :=
  if negb (active tm) then (false, tm)
  else
    let elapsed := (inject_Z (ahora - start_time tm) / 1000)%Q in
    if Py.ge elapsed (duration tm)
    then (true, {| duration := duration tm; start_time := start_time tm;
                   active := false |})
    else (false, tm).

(** [get_progress]: the share of the duration that has run, 1 for an
    inactive timer; [None] is the [ZeroDivisionError] of a zero duration.
    [min(v, 1.0)] answers 1.0 only when it is smaller than [v]. *)
Definition get_progress (ahora : Z) (tm : t) : option Q :=
  if negb (active tm) then Some 1%Q
  else
    let elapsed := (inject_Z (ahora - start_time tm) / 1000)%Q in
    if Qeq_bool (duration tm) 0 then None
    else
      let v := (elapsed / duration tm)%Q in
      Some (if Py.lt 1 v then 1%Q else v).

End Timer.

(** ** Personaje: the base class of player and enemies *)

Module Personaje.

(** The attributes of the game model; [sprite] and [animation_timer] only
    serve the drawing code and are left out. *)
Record t := mk {
  nombre : string;
  hp : Z;
  hp_max : Z;
  atk : Z;
  defensa : Z;
  nivel : Z;
  experiencia : Z;
  x : Float.t;
  y : Float.t;
  rect : Rect.t;
  vivo : bool;
  velocidad : Z;
  hit_flash_timer : Num.t
}.

(** The game builds its entities at screen and map coordinates (between
    100 and 1500), where [float(x)] is exact and the box is within
    pygame's range. *)
Definition init (nombre0 : string) (hp0 atk0 defensa0 x0 y0 : Z) : t :=
  {| nombre := nombre0; hp := hp0; hp_max := hp0; atk := atk0;
     defensa := defensa0; nivel := 1; experiencia := 0;
     x := Float.of_Z x0; y := Float.of_Z y0; rect := Rect.mk x0 y0 50 50;
     vivo := true; velocidad := Config.PLAYER_SPEED;
     hit_flash_timer := Num.Int 0 |}.

Definition con_hp (v : Z) (p : t) : t :=
  {| nombre := nombre p; hp := v; hp_max := hp_max p; atk := atk p;
     defensa := defensa p; nivel := nivel p; experiencia := experiencia p;
     x := x p; y := y p; rect := rect p; vivo := vivo p;
     velocidad := velocidad p; hit_flash_timer := hit_flash_timer p |}.

Definition con_vivo (v : bool) (p : t) : t :=
  {| nombre := nombre p; hp := hp p; hp_max := hp_max p; atk := atk p;
     defensa := defensa p; nivel := nivel p; experiencia := experiencia p;
     x := x p; y := y p; rect := rect p; vivo := v;
     velocidad := velocidad p; hit_flash_timer := hit_flash_timer p |}.

Definition con_hit_flash_timer (v : Num.t) (p : t) : t :=
  {| nombre := nombre p; hp := hp p; hp_max := hp_max p; atk := atk p;
     defensa := defensa p; nivel := nivel p; experiencia := experiencia p;
     x := x p; y := y p; rect := rect p; vivo := vivo p;
     velocidad := velocidad p; hit_flash_timer := v |}.

Definition con_experiencia (v : Z) (p : t) : t :=
  {| nombre := nombre p; hp := hp p; hp_max := hp_max p; atk := atk p;
     defensa := defensa p; nivel := nivel p; experiencia := v;
     x := x p; y := y p; rect := rect p; vivo := vivo p;
     velocidad := velocidad p; hit_flash_timer := hit_flash_timer p |}.

Definition con_posicion (nx ny : Float.t) (p : t) : t :=
  {| nombre := nombre p; hp := hp p; hp_max := hp_max p; atk := atk p;
     defensa := defensa p; nivel := nivel p; experiencia := experiencia p;
     x := nx; y := ny; rect := rect p; vivo := vivo p;
     velocidad := velocidad p; hit_flash_timer := hit_flash_timer p |}.

Definition con_rect (r : Rect.t) (p : t) : t :=
  {| nombre := nombre p; hp := hp p; hp_max := hp_max p; atk := atk p;
     defensa := defensa p; nivel := nivel p; experiencia := experiencia p;
     x := x p; y := y p; rect := r; vivo := vivo p;
     velocidad := velocidad p; hit_flash_timer := hit_flash_timer p |}.

(** [morir]: prints the defeat line. *)
Definition morir (p : t) : list string :=
  [nombre p +:+ " ha sido derrotado!"].

(** [recibir_dano]: returns the realized damage, the entity afterwards and
    the lines printed. *)
Definition recibir_dano (dano : Z) (p : t) : Z * t * list string :=
  let dano_real := Z.max 1 (dano - defensa p / 2) in
  let p1 := con_hp (Z.max 0 (hp p - dano_real)) p in
  let p2 := con_hit_flash_timer (Num.Flt (Float.decimal 2 10)) p1 in
  if (hp p2 =? 0) && vivo p2
  then (dano_real, con_vivo false p2, morir (con_vivo false p2))
  else (dano_real, p2, []).

Definition curarse (cantidad : Z) (p : t) : t :=
  con_hp (Z.min (hp_max p) (hp p + cantidad)) p.

(** [update]: fades the hit flash and moves the box to the position.
    [None] is an exception: of [int()] on a position that is no finite
    number, of the box for a coordinate beyond its range, or of the
    conversion of an int timer beyond the float range. *)
Definition update (dt : Float.t) (p : t) : option t :=
  p1 ← (if Num.gt_0 (hit_flash_timer p)
        then tm ← Num.sub (hit_flash_timer p) (Num.Flt dt);
             Some (con_hit_flash_timer tm p)
        else Some p);
  rx ← Float.to_int (x p1);
  if negb (Rect.asignable rx) then None
  else
    ry ← Float.to_int (y p1);
    if negb (Rect.asignable ry) then None
    else Some (con_rect (Rect.con_xy rx ry (rect p1)) p1).

End Personaje.

(** ** Objeto: inventory items *)

Module Objeto.

Record t := mk {
  nombre : string;
  descripcion : string;
  tipo : string;
  valor : Z;
  modificador : Z
}.

#[global] Instance eq_dec : EqDecision t.
Proof. solve_decision. Defined.

Section Usar.
Context `{Py.Str}.

(** [usar]: returns the boolean result and the character afterwards. *)
Definition usar (o : t) (personaje : Personaje.t) : bool * Personaje.t :=
  if String.eqb (tipo o) "consumible" then
    if Py.contains "vida" (Py.lower (nombre o))
       || Py.contains "poción" (Py.lower (nombre o))
    then (true, Personaje.curarse (modificador o) personaje)
    else (false, personaje)
  else (false, personaje).

End Usar.

End Objeto.

(** ** Jugador *)

Module Jugador.

(** [misiones] is never read or written after construction and is left
    out, as is the sprite. *)
Record t := mk {
  base : Personaje.t;
  clase : string;
  oro : Z;
  inventario : list Objeto.t
}.

(** [CLASES]: hp, atk and defensa of each class. *)
Definition CLASES : list (string * (Z * Z * Z)) :=
  [ ("Guerrero", (120, 15, 10));
    ("Mago", (80, 20, 5));
    ("Arquero", (100, 18, 7)) ].

Fixpoint buscar_clase (c : string) (l : list (string * (Z * Z * Z)))
  : option (Z * Z * Z) :=
  match l with
  | [] => None
  | (k, v) :: l' => if String.eqb c k then Some v else buscar_clase c l'
  end.

(** [__init__]: [None] is the [KeyError] of an unknown class. *)
Definition init (nombre0 clase0 : string) (x0 y0 : Z) : option t :=
  match buscar_clase clase0 CLASES with
  | Some (hp0, atk0, defensa0) =>
      Some {| base := Personaje.init nombre0 hp0 atk0 defensa0 x0 y0;
              clase := clase0; oro := 100; inventario := [] |}
  | None => None
  end.

Definition con_base (b : Personaje.t) (j : t) : t :=
  {| base := b; clase := clase j; oro := oro j; inventario := inventario j |}.

Definition con_oro (v : Z) (j : t) : t :=
  {| base := base j; clase := clase j; oro := v; inventario := inventario j |}.

Definition con_inventario (v : list Objeto.t) (j : t) : t :=
  {| base := base j; clase := clase j; oro := oro j; inventario := v |}.

(** [atacar]: [azar] is the value drawn by [random.random()]. *)
Definition atacar (azar : Q) (j : t) (objetivo : Personaje.t)
  : Z * Personaje.t * list string :=
  let dano := Personaje.atk (base j) in
  let dano := if Py.lt azar (1 # 10) then dano * 2 else dano in
  Personaje.recibir_dano dano objetivo.

Definition subir_nivel (j : t) : t :=
  let b := base j in
  con_base
    {| Personaje.nombre := Personaje.nombre b;
       Personaje.hp := Personaje.hp_max b + 10;
       Personaje.hp_max := Personaje.hp_max b + 10;
       Personaje.atk := Personaje.atk b + 2;
       Personaje.defensa := Personaje.defensa b + 1;
       Personaje.nivel := Personaje.nivel b + 1;
       Personaje.experiencia := Personaje.experiencia b;
       Personaje.x := Personaje.x b; Personaje.y := Personaje.y b;
       Personaje.rect := Personaje.rect b; Personaje.vivo := Personaje.vivo b;
       Personaje.velocidad := Personaje.velocidad b;
       Personaje.hit_flash_timer := Personaje.hit_flash_timer b |} j.

(** [mover]: [dx] and [dy] are ints, or floats on a diagonal; the
    product with the int [velocidad] meets the float [dt] last.  [None] is
    the [OverflowError] of an int beyond the float range. *)
Definition mover (dx dy : Num.t) (dt : Float.t) (j : t) : option t :=
  let b := base j in
  ax ← Num.mul dx (Num.Int (Personaje.velocidad b));
  ax ← Num.mul ax (Num.Flt dt);
  ax ← Num.to_float ax;
  let nx := Float.add (Personaje.x b) ax in
  ay ← Num.mul dy (Num.Int (Personaje.velocidad b));
  ay ← Num.mul ay (Num.Flt dt);
  ay ← Num.to_float ay;
  let ny := Float.add (Personaje.y b) ay in
  Some (con_base (Personaje.con_posicion nx ny b) j).

(** [update] is inherited from [Personaje]. *)
Definition update (dt : Float.t) (j : t) : option t :=
  b ← Personaje.update dt (base j);
  Some (con_base b j).

End Jugador.

(** ** Enemigo *)

Module Enemigo.

(** [recompensa] is a dict built with exactly the keys "oro" and
    "experiencia". *)
Record Recompensa := { oro : Z; experiencia : Z }.

Record t := mk {
  base : Personaje.t;
  tipo : string;
  recompensa : Recompensa;
  patron_ataque : string;
  wander_timer : Num.t;
  wander_direction : Num.t * Num.t
}.

Definition init (nombre0 : string) (hp0 atk0 defensa0 : Z) (tipo0 : string)
    (recompensa0 : Recompensa) (x0 y0 : Z) : t :=
  {| base := Personaje.init nombre0 hp0 atk0 defensa0 x0 y0;
     tipo := tipo0; recompensa := recompensa0; patron_ataque := "simple";
     wander_timer := Num.Int 0;
     wander_direction := (Num.Int 0, Num.Int 0) |}.

Definition con_base (b : Personaje.t) (e : t) : t :=
  {| base := b; tipo := tipo e; recompensa := recompensa e;
     patron_ataque := patron_ataque e; wander_timer := wander_timer e;
     wander_direction := wander_direction e |}.

Definition con_wander (tm : Num.t) (d : Num.t * Num.t) (e : t) : t :=
  {| base := base e; tipo := tipo e; recompensa := recompensa e;
     patron_ataque := patron_ataque e; wander_timer := tm;
     wander_direction := d |}.

Definition atacar (azar : Q) (e : t) (objetivo : Personaje.t)
  : Z * Personaje.t * list string :=
  let dano := Personaje.atk (base e) in
  let dano := if Py.lt azar (1 # 10) then dano * 2 else dano in
  Personaje.recibir_dano dano objetivo.

(** Enemies do not level up. *)
Definition subir_nivel (e : t) : t := e.

(** The values a wander re-roll draws: [random.uniform(1, 3)] and the
    direction [(cos angle, sin angle)] of a uniform angle. *)
Record Azar := { uniform_1_3 : Float.t; direccion : Float.t * Float.t }.

(** [update]: the inherited update, then, for a live enemy, the wander
    timer, a new direction when it has run out, and the move.  [None] is
    an exception of the inherited update or the [OverflowError] of an int
    beyond the float range. *)
Definition update (dt : Float.t) (az : Azar) (e : t) : option t :=
  b1 ← Personaje.update dt (base e);
  let e1 := con_base b1 e in
  if negb (Personaje.vivo (base e1)) then Some e1
  else
    tm ← Num.sub (wander_timer e1) (Num.Flt dt);
    let e2 := if Num.le_0 tm
              then con_wander (Num.Flt (uniform_1_3 az))
                              (Num.Flt (fst (direccion az)),
                               Num.Flt (snd (direccion az))) e1
              else con_wander tm (wander_direction e1) e1 in
    let speed := Num.Int 50 in
    let b := base e2 in
    ax ← Num.mul (fst (wander_direction e2)) speed;
    ax ← Num.mul ax (Num.Flt dt);
    ax ← Num.to_float ax;
    let nx := Float.add (Personaje.x b) ax in
    ay ← Num.mul (snd (wander_direction e2)) speed;
    ay ← Num.mul ay (Num.Flt dt);
    ay ← Num.to_float ay;
    let ny := Float.add (Personaje.y b) ay in
    Some (con_base (Personaje.con_posicion nx ny b) e2).

Definition soltar_recompensa (e : t) (jugador : Jugador.t) : Jugador.t :=
  let j1 :=
    Jugador.con_base
      (Personaje.con_experiencia
         (Personaje.experiencia (Jugador.base jugador)
          + experiencia (recompensa e))
         (Jugador.base jugador)) jugador in
  Jugador.con_oro (Jugador.oro j1 + oro (recompensa e)) j1.

End Enemigo.

(** ** Input events, buttons and the environment *)

(** [pygame] events: a mouse press with its button number, or any other
    event. *)
Inductive Event :=
| MOUSEBUTTONDOWN (button : Z)
| OTRO_EVENTO.

(** A [str] that is edited character by character: the list of its
    characters, each one as the bytes that encode it. *)
Module Texto.

Definition t : Type := list string.

(** The text as a [str] of the rest of the model. *)
Definition str (s : t) : string := fold_right String.append "" s.

End Texto.

(** The keys the game reads; [K_OTRA] is any other key. *)
Inductive Tecla :=
| K_w | K_UP | K_s | K_DOWN | K_a | K_LEFT | K_d | K_RIGHT
| K_ESCAPE | K_i | K_BACKSPACE | K_RETURN | K_OTRA.

(** An event as the keyboard handlers read it: a key pressed, with the
    text it types ([event.unicode]), a key released, or an event that is
    neither. *)
Inductive Evento :=
| KEYDOWN (key : Tecla) (unicode : Texto.t)
| KEYUP (key : Tecla)
| NO_TECLA (e : Event).

Module Button.

Record t := mk { rect : Rect.t; text : string; is_hovered : bool }.

Definition init (x y w h : Z) (txt : string) : t :=
  {| rect := Rect.mk x y w h; text := txt; is_hovered := false |}.

Definition update (mouse_pos : Z * Z) (b : t) : t :=
  {| rect := rect b; text := text b;
     is_hovered := Rect.collidepoint (rect b) mouse_pos |}.

Definition is_clicked (event : Event) (b : t) : bool :=
  match event with
  | MOUSEBUTTONDOWN button => if button =? 1 then is_hovered b else false
  | OTRO_EVENTO => false
  end.

End Button.

(** [button.is_clicked(event)] on any event: a key is never a click. *)
Definition is_clicked (event : Evento) (b : Button.t) : bool :=
  match event with
  | NO_TECLA e => Button.is_clicked e b
  | _ => false
  end.

(** What a handler reads from outside the game objects while it runs. *)
Record Entorno := {
  (** successive values of [pygame.time.get_ticks()] within the handler *)
  get_ticks : nat -> Z;
  (** the value of [random.random()] (a handler draws at most one) *)
  random_random : Q;
  (** [pygame.mouse.get_pos()] *)
  mouse_get_pos : Z * Z;
  (** the wander draws of the enemy at a reference *)
  wander : nat -> Enemigo.Azar;
  (** for the i-th generated enemy: the index drawn by [random.choice] and
      the two [random.randint(100, 1500)] *)
  generar : nat -> nat * Z * Z
}.

(** ** Game: the object that owns the states, the player and the enemies *)

Inductive GameState :=
| MENU_PRINCIPAL | CREACION_PERSONAJE | JUGANDO | COMBATE
| INVENTARIO | PAUSA | GAME_OVER | VICTORIA.

Inductive Resultado := victoria | derrota.

Module Game.

(** Attributes of the [JugandoState] object: the roster holds references
    into the store of [Enemigo] objects. *)
Record Keys := { up : bool; down : bool; left : bool; right : bool }.

Record JugandoState := { enemigos : list nat; keys : Keys }.

(** Attributes of the [CombateState] object. *)
Record CombateState := {
  turno_jugador : bool;
  animando : bool;
  animation_timer : Timer.t;
  mensaje : string;
  resultado : option Resultado;
  attack_button : Button.t;
  item_button : Button.t
}.

(** [jugando] and [combate] are [None] until the state is first entered
    (its attributes do not exist yet); [objetos] is the store of the
    [Enemigo] objects, a reference being an index into it; [salida] is
    the text printed so far. *)
Record t := mk {
  current_state : option GameState;
  jugador : option Jugador.t;
  enemigo_actual : option nat;
  objetos : list Enemigo.t;
  jugando : option JugandoState;
  combate : option CombateState;
  salida : list string
}.

Definition con_current_state (v : option GameState) (g : t) : t :=
  {| current_state := v; jugador := jugador g;
     enemigo_actual := enemigo_actual g; objetos := objetos g;
     jugando := jugando g; combate := combate g; salida := salida g |}.

Definition con_jugador (v : option Jugador.t) (g : t) : t :=
  {| current_state := current_state g; jugador := v;
     enemigo_actual := enemigo_actual g; objetos := objetos g;
     jugando := jugando g; combate := combate g; salida := salida g |}.

Definition con_enemigo_actual (v : option nat) (g : t) : t :=
  {| current_state := current_state g; jugador := jugador g;
     enemigo_actual := v; objetos := objetos g;
     jugando := jugando g; combate := combate g; salida := salida g |}.

Definition con_objetos (v : list Enemigo.t) (g : t) : t :=
  {| current_state := current_state g; jugador := jugador g;
     enemigo_actual := enemigo_actual g; objetos := v;
     jugando := jugando g; combate := combate g; salida := salida g |}.

Definition con_jugando (v : option JugandoState) (g : t) : t :=
  {| current_state := current_state g; jugador := jugador g;
     enemigo_actual := enemigo_actual g; objetos := objetos g;
     jugando := v; combate := combate g; salida := salida g |}.

Definition con_combate (v : option CombateState) (g : t) : t :=
  {| current_state := current_state g; jugador := jugador g;
     enemigo_actual := enemigo_actual g; objetos := objetos g;
     jugando := jugando g; combate := v; salida := salida g |}.

(** [print]: appends lines to the output. *)
Definition imprimir (lineas : list string) (g : t) : t :=
  {| current_state := current_state g; jugador := jugador g;
     enemigo_actual := enemigo_actual g; objetos := objetos g;
     jugando := jugando g; combate := combate g;
     salida := salida g ++ lineas |}.

(** *** [JugandoState.enter] and [_generar_enemigos] *)

Definition enemigos_data
  : list (string * Z * Z * Z * string * Enemigo.Recompensa) :=
  [ ("Lobo Salvaje", 40, 10, 2, "bestia",
     {| Enemigo.oro := 20; Enemigo.experiencia := 50 |});
    ("Bandido", 60, 15, 5, "humano",
     {| Enemigo.oro := 40; Enemigo.experiencia := 80 |}) ].

(** One turn of the generation loop: a new [Enemigo] object is allocated
    at the end of the store and its reference appended to the roster. *)
Definition generar_uno (env : Entorno) (i : nat)
    (acc : list Enemigo.t * list nat) : list Enemigo.t * list nat :=
  let '(idx, x0, y0) := generar env i in
  match enemigos_data !! (idx mod 2)%nat with
  | Some (nombre0, hp0, atk0, defensa0, tipo0, recompensa0) =>
      let e := Enemigo.init nombre0 hp0 atk0 defensa0 tipo0 recompensa0
                            x0 y0 in
      (fst acc ++ [e], snd acc ++ [List.length (fst acc)])
  | None => acc
  end.

Definition _generar_enemigos (env : Entorno)
    (acc : list Enemigo.t * list nat) : list Enemigo.t * list nat :=
  fold_left (fun a i => generar_uno env i a) (seq 0 5) acc.

Definition JugandoState_enter (env : Entorno) (g : t) : t :=
  let g1 :=
    match jugando g with
    | Some _ => g
    | None =>
        let '(objs, refs) := _generar_enemigos env (objetos g, []) in
        con_jugando
          (Some {| enemigos := refs;
                   keys := {| up := false; down := false;
                              left := false; right := false |} |})
          (con_objetos objs g)
    end in
  match jugando g1 with
  | Some self =>
      con_jugando
        (Some {| enemigos := enemigos self;
                 keys := {| up := false; down := false;
                            left := false; right := false |} |}) g1
  | None => g1
  end.

(** *** [CombateState.enter] and [CombateState.exit] *)

Definition CombateState_enter (g : t) : t :=
  let button_width := 200 in
  let button_height := 50 in
  let spacing := 20 in
  let start_x := Config.SCREEN_WIDTH / 2 - button_width - spacing in
  let start_y := Config.SCREEN_HEIGHT - 150 in
  con_combate
    (Some {| turno_jugador := true;
             animando := false;
             animation_timer := Timer.init (5 # 10);
             mensaje := "";
             resultado := None;
             attack_button :=
               Button.init start_x start_y button_width button_height
                           "Atacar";
             item_button :=
               Button.init (start_x + button_width + spacing) start_y
                           button_width button_height "Usar Objeto" |}) g.

Definition CombateState_exit (g : t) : t := con_enemigo_actual None g.

(** *** Dispatch of [enter] and [exit], and [change_state]

    The states other than exploration and combat only build menu widgets
    when entered; every [exit] but combat's is [pass]. *)
Definition enter (env : Entorno) (s : GameState) (g : t) : t :=
  match s with
  | JUGANDO => JugandoState_enter env g
  | COMBATE => CombateState_enter g
  | _ => g
  end.

Definition exit (s : GameState) (g : t) : t :=
  match s with
  | COMBATE => CombateState_exit g
  | _ => g
  end.

(** [change_state]: [self.states] has an entry for every state but
    [VICTORIA], whose lookup raises [KeyError] ([None]). *)
Definition change_state (env : Entorno) (new_state : GameState) (g : t)
  : option t :=
  let g1 := match current_state g with
            | Some s => exit s g
            | None => g
            end in
  match new_state with
  | VICTORIA => None
  | _ => Some (enter env new_state (con_current_state (Some new_state) g1))
  end.

End Game.

(** ** JugandoState.update: exploration and the encounter trigger *)

Module JugandoState.

(** [self.enemigos.remove(enemigo)] *)
Definition quitar (r : nat) (g : Game.t) : Game.t :=
  match Game.jugando g with
  | Some self =>
      Game.con_jugando
        (Some {| Game.enemigos := Py.remove r (Game.enemigos self);
                 Game.keys := Game.keys self |}) g
  | None => g
  end.

(** The loop [for enemigo in self.enemigos[:]] over the copy [copia] of
    the roster.  [None] is the failure of reading through a missing
    object, or an exception of an enemy's update. *)
Fixpoint bucle (env : Entorno) (dt : Float.t) (copia : list nat)
    (g : Game.t) : option Game.t :=
  match copia with
  | [] => Some g
  | r :: resto =>
      enemigo ← Game.objetos g !! r;
      if negb (Personaje.vivo (Enemigo.base enemigo)) then
        bucle env dt resto (quitar r g)
      else
        enemigo ← Enemigo.update dt (wander env r) enemigo;
        let g := Game.con_objetos (<[r := enemigo]> (Game.objetos g)) g in
        jugador ← Game.jugador g;
        if Rect.colliderect (Personaje.rect (Jugador.base jugador))
                            (Personaje.rect (Enemigo.base enemigo))
        then Game.change_state env COMBATE
               (Game.con_enemigo_actual (Some r) g)
        else bucle env dt resto g
  end.

(** [update]: the direction read from the keys is a pair of ints, scaled
    to floats on a diagonal; then the player moves, and the roster is
    scanned.  The camera and the particles that follow only serve the
    drawing. *)
Definition update (env : Entorno) (dt : Float.t) (g : Game.t)
  : option Game.t :=
  match Game.jugador g with
  | None => Some g
  | Some jugador =>
      self ← Game.jugando g;
      let k := Game.keys self in
      let dx := Num.Int 0 in
      let dy := Num.Int 0 in
      let dy := if Game.up k then Num.Int (-1) else dy in
      let dy := if Game.down k then Num.Int 1 else dy in
      let dx := if Game.left k then Num.Int (-1) else dx in
      let dx := if Game.right k then Num.Int 1 else dx in
      d ← (if Num.ne_0 dx && Num.ne_0 dy
           then dx ← Num.mul dx (Num.Flt (Float.decimal 707 1000));
                dy ← Num.mul dy (Num.Flt (Float.decimal 707 1000));
                Some (dx, dy)
           else Some (dx, dy));
      jugador ← Jugador.mover (fst d) (snd d) dt jugador;
      jugador ← Jugador.update dt jugador;
      bucle env dt (Game.enemigos self) (Game.con_jugador (Some jugador) g)
  end.

(** [self.keys[...] = v]: [None] when the state was never entered. *)
Definition con_keys (f : Game.Keys -> Game.Keys) (g : Game.t)
  : option Game.t :=
  self ← Game.jugando g;
  Some (Game.con_jugando
          (Some {| Game.enemigos := Game.enemigos self;
                   Game.keys := f (Game.keys self) |}) g).

Definition con_up (v : bool) (k : Game.Keys) : Game.Keys :=
  {| Game.up := v; Game.down := Game.down k; Game.left := Game.left k;
     Game.right := Game.right k |}.

Definition con_down (v : bool) (k : Game.Keys) : Game.Keys :=
  {| Game.up := Game.up k; Game.down := v; Game.left := Game.left k;
     Game.right := Game.right k |}.

Definition con_left (v : bool) (k : Game.Keys) : Game.Keys :=
  {| Game.up := Game.up k; Game.down := Game.down k; Game.left := v;
     Game.right := Game.right k |}.

Definition con_right (v : bool) (k : Game.Keys) : Game.Keys :=
  {| Game.up := Game.up k; Game.down := Game.down k; Game.left := Game.left k;
     Game.right := v |}.

Definition handle_event (env : Entorno) (event : Evento) (g : Game.t)
  : option Game.t :=
  match event with
  | KEYDOWN key _ =>
      match key with
      | K_w | K_UP => con_keys (con_up true) g
      | K_s | K_DOWN => con_keys (con_down true) g
      | K_a | K_LEFT => con_keys (con_left true) g
      | K_d | K_RIGHT => con_keys (con_right true) g
      | K_ESCAPE => Game.change_state env PAUSA g
      | K_i => Game.change_state env INVENTARIO g
      | K_BACKSPACE | K_RETURN | K_OTRA => Some g
      end
  | KEYUP key =>
      match key with
      | K_w | K_UP => con_keys (con_up false) g
      | K_s | K_DOWN => con_keys (con_down false) g
      | K_a | K_LEFT => con_keys (con_left false) g
      | K_d | K_RIGHT => con_keys (con_right false) g
      | K_ESCAPE | K_i | K_BACKSPACE | K_RETURN | K_OTRA => Some g
      end
  | NO_TECLA _ => Some g
  end.

End JugandoState.

(** ** CombateState: the turn-based combat resolver *)

Module CombateState.

Definition con_turno_jugador (v : bool) (s : Game.CombateState)
  : Game.CombateState :=
  {| Game.turno_jugador := v; Game.animando := Game.animando s;
     Game.animation_timer := Game.animation_timer s;
     Game.mensaje := Game.mensaje s; Game.resultado := Game.resultado s;
     Game.attack_button := Game.attack_button s;
     Game.item_button := Game.item_button s |}.

Definition con_animando (v : bool) (s : Game.CombateState)
  : Game.CombateState :=
  {| Game.turno_jugador := Game.turno_jugador s; Game.animando := v;
     Game.animation_timer := Game.animation_timer s;
     Game.mensaje := Game.mensaje s; Game.resultado := Game.resultado s;
     Game.attack_button := Game.attack_button s;
     Game.item_button := Game.item_button s |}.

Definition con_animation_timer (v : Timer.t) (s : Game.CombateState)
  : Game.CombateState :=
  {| Game.turno_jugador := Game.turno_jugador s;
     Game.animando := Game.animando s; Game.animation_timer := v;
     Game.mensaje := Game.mensaje s; Game.resultado := Game.resultado s;
     Game.attack_button := Game.attack_button s;
     Game.item_button := Game.item_button s |}.

Definition con_mensaje (v : string) (s : Game.CombateState)
  : Game.CombateState :=
  {| Game.turno_jugador := Game.turno_jugador s;
     Game.animando := Game.animando s;
     Game.animation_timer := Game.animation_timer s;
     Game.mensaje := v; Game.resultado := Game.resultado s;
     Game.attack_button := Game.attack_button s;
     Game.item_button := Game.item_button s |}.

Definition con_resultado (v : option Resultado) (s : Game.CombateState)
  : Game.CombateState :=
  {| Game.turno_jugador := Game.turno_jugador s;
     Game.animando := Game.animando s;
     Game.animation_timer := Game.animation_timer s;
     Game.mensaje := Game.mensaje s; Game.resultado := v;
     Game.attack_button := Game.attack_button s;
     Game.item_button := Game.item_button s |}.

Definition con_botones (a i : Button.t) (s : Game.CombateState)
  : Game.CombateState :=
  {| Game.turno_jugador := Game.turno_jugador s;
     Game.animando := Game.animando s;
     Game.animation_timer := Game.animation_timer s;
     Game.mensaje := Game.mensaje s; Game.resultado := Game.resultado s;
     Game.attack_button := a; Game.item_button := i |}.

(** [_turno_enemigo]: called from [update] after the timer has read the
    clock once, so [Timer.start] sees its second value. *)
Definition _turno_enemigo (env : Entorno) (g : Game.t) : option Game.t :=
  self ← Game.combate g;
  r ← Game.enemigo_actual g;
  enemigo ← Game.objetos g !! r;
  jugador ← Game.jugador g;
  let '(dano, b, lineas) :=
    Enemigo.atacar (random_random env) enemigo (Jugador.base jugador) in
  let g := Game.imprimir lineas
             (Game.con_jugador (Some (Jugador.con_base b jugador)) g) in
  let self :=
    con_mensaje (Personaje.nombre (Enemigo.base enemigo)
                 +:+ " ataca causando " +:+ Py.str dano +:+ " de daño!")
                self in
  let self := con_animando true self in
  let self := con_animation_timer
                (Timer.start (get_ticks env 1) (Game.animation_timer self))
                self in
  Some (Game.con_combate (Some self) g).

Definition update (env : Entorno) (dt : Q) (g : Game.t) : option Game.t :=
  self ← Game.combate g;
  if Game.animando self then
    let '(terminado, tm) :=
      Timer.update (get_ticks env 0) (Game.animation_timer self) in
    let self := con_animation_timer tm self in
    if terminado then
      let self := con_animando false self in
      jugador ← Game.jugador g;
      if negb (Personaje.vivo (Jugador.base jugador)) then
        Some (Game.con_combate (Some (con_resultado (Some derrota) self)) g)
      else
        r ← Game.enemigo_actual g;
        enemigo ← Game.objetos g !! r;
        if negb (Personaje.vivo (Enemigo.base enemigo)) then
          let self := con_resultado (Some victoria) self in
          let jugador := Enemigo.soltar_recompensa enemigo jugador in
          let jugador :=
            if Personaje.experiencia (Jugador.base jugador)
               >=? Personaje.nivel (Jugador.base jugador) * 100
            then
              let subido := Jugador.subir_nivel jugador in
              Jugador.con_base
                (Personaje.con_experiencia 0 (Jugador.base subido)) subido
            else jugador in
          Some (Game.con_combate (Some self)
                  (Game.con_jugador (Some jugador) g))
        else if Game.turno_jugador self
                && Personaje.vivo (Enemigo.base enemigo) then
          _turno_enemigo env
            (Game.con_combate (Some (con_turno_jugador false self)) g)
        else
          Some (Game.con_combate (Some (con_turno_jugador true self)) g)
    else Some (Game.con_combate (Some self) g)
  else if Game.turno_jugador self && negb (Py.truthy (Game.resultado self))
  then
    let mouse_pos := mouse_get_pos env in
    Some (Game.con_combate
            (Some (con_botones
                     (Button.update mouse_pos (Game.attack_button self))
                     (Button.update mouse_pos (Game.item_button self))
                     self)) g)
  else Some g.

(** The loop [for obj in inventario: if obj.tipo == "consumible": ...;
    break]: the object the loop body runs on, if any. *)
Fixpoint primer_consumible (inventario : list Objeto.t) : option Objeto.t :=
  match inventario with
  | [] => None
  | obj :: resto =>
      if String.eqb (Objeto.tipo obj) "consumible" then Some obj
      else primer_consumible resto
  end.

Section Eventos.
Context `{Py.Str}.

Definition handle_event (env : Entorno) (event : Event) (g : Game.t)
  : option Game.t :=
  self ← Game.combate g;
  match Game.resultado self with
  | Some res =>
      match event with
      | MOUSEBUTTONDOWN _ =>
          match res with
          | victoria => Game.change_state env JUGANDO g
          | derrota => Game.change_state env GAME_OVER g
          end
      | OTRO_EVENTO => Some g
      end
  | None =>
      if negb (Game.turno_jugador self) || Game.animando self then Some g
      else if Button.is_clicked event (Game.attack_button self) then
        jugador ← Game.jugador g;
        r ← Game.enemigo_actual g;
        enemigo ← Game.objetos g !! r;
        let '(dano, b, lineas) :=
          Jugador.atacar (random_random env) jugador
                         (Enemigo.base enemigo) in
        let g := Game.imprimir lineas
                   (Game.con_objetos
                      (<[r := Enemigo.con_base b enemigo]> (Game.objetos g))
                      g) in
        let critico :=
          if Py.ge (Py.float dano)
                   (Py.float (Personaje.atk (Jugador.base jugador))
                    * (15 # 10))%Q
          then " (¡CRÍTICO!)" else "" in
        let self :=
          con_mensaje ("¡Atacas causando " +:+ Py.str dano +:+ " de daño"
                       +:+ critico +:+ "!") self in
        let self := con_animando true self in
        let self := con_animation_timer
                      (Timer.start (get_ticks env 0)
                                   (Game.animation_timer self)) self in
        Some (Game.con_combate (Some self) g)
      else if Button.is_clicked event (Game.item_button self) then
        jugador ← Game.jugador g;
        match Jugador.inventario jugador with
        | _ :: _ =>
            match primer_consumible (Jugador.inventario jugador) with
            | Some obj =>
                let '(_, b) := Objeto.usar obj (Jugador.base jugador) in
                let jugador := Jugador.con_base b jugador in
                let jugador :=
                  Jugador.con_inventario
                    (Py.remove obj (Jugador.inventario jugador)) jugador in
                let self :=
                  con_mensaje ("Usas " +:+ Objeto.nombre obj +:+ ". HP +"
                               +:+ Py.str (Objeto.modificador obj)) self in
                let self := con_animando true self in
                let self := con_animation_timer
                              (Timer.start (get_ticks env 0)
                                 (Game.animation_timer self)) self in
                Some (Game.con_combate (Some self)
                        (Game.con_jugador (Some jugador) g))
            | None => Some g
            end
        | [] =>
            Some (Game.con_combate
                    (Some (con_mensaje "¡No tienes objetos!" self)) g)
        end
      else Some g
  end.

End Eventos.

End CombateState.

(** ** Lifecycles and the entity invariant *)

(** A call made on an entity during its lifetime. *)
Inductive Llamada :=
| Recibir_dano (dano : Z)
| Curarse (cantidad : Z).

(** One call: the entity afterwards and the lines printed. *)
Definition llamar (l : Llamada) (p : Personaje.t)
  : Personaje.t * list string :=
  match l with
  | Recibir_dano d =>
      ((Personaje.recibir_dano d p).1.2, (Personaje.recibir_dano d p).2)
  | Curarse c => (Personaje.curarse c p, [])
  end.

(** A sequence of calls, with everything printed along the way. *)
Fixpoint ejecutar (ls : list Llamada) (p : Personaje.t)
  : Personaje.t * list string :=
  match ls with
  | [] => (p, [])
  | l :: ls' =>
      ((ejecutar ls' (llamar l p).1).1,
       (llamar l p).2 ++ (ejecutar ls' (llamar l p).1).2)
  end.

(** A call that heals by a non-negative amount, if it heals. *)
Definition cura_no_negativa (l : Llamada) : Prop :=
  match l with
  | Recibir_dano _ => True
  | Curarse c => 0 <= c
  end.

(** The entity invariant of the data model. *)
Definition invariante (p : Personaje.t) : Prop :=
  0 <= Personaje.hp p <= Personaje.hp_max p /\
  Personaje.vivo p = (0 <? Personaje.hp p).

(** A string holds a marker when the marker occurs in it as a substring. *)
Definition subcadena (sub s : string) : Prop :=
  exists a b, s = a +:+ sub +:+ b.

(** ** Sample entities *)

Definition lobo_salvaje (x y : Z) : Enemigo.t :=
  Enemigo.init "Lobo Salvaje" 40 10 2 "bestia"
    {| Enemigo.oro := 20; Enemigo.experiencia := 50 |} x y.

Definition guerrero : Jugador.t :=
  {| Jugador.base := Personaje.init "Ana" 120 15 10 640 360;
     Jugador.clase := "Guerrero"; Jugador.oro := 100;
     Jugador.inventario := [] |}.

(** A wolf killed by a blow of 100, and a Guerrero killed by one of 500. *)
Definition lobo_muerto : Personaje.t :=
  (Personaje.recibir_dano 100 (Enemigo.base (lobo_salvaje 100 100))).1.2.

Definition guerrero_muerto : Jugador.t :=
  Jugador.con_base
    (Personaje.recibir_dano 500 (Jugador.base guerrero)).1.2 guerrero.

(** ** Sample games *)

Definition entorno (ticks : Z) (azar : Q) (raton : Z * Z) : Entorno :=
  {| get_ticks := fun n => ticks + Z.of_nat n;
     random_random := azar;
     mouse_get_pos := raton;
     wander := fun _ => {| Enemigo.uniform_1_3 := Float.of_Z 2;
                           Enemigo.direccion :=
                             (Float.of_Z 1, Float.of_Z 0) |};
     generar := fun i => (i, 200 + 100 * Z.of_nat i, 300) |}.

(** The game as [change_state(COMBATE)] leaves it when the player meets
    the only enemy of the roster. *)
Definition en_combate (j : Jugador.t) (e : Enemigo.t) : Game.t :=
  Game.CombateState_enter
    {| Game.current_state := Some COMBATE;
       Game.jugador := Some j;
       Game.enemigo_actual := Some 0%nat;
       Game.objetos := [e];
       Game.jugando :=
         Some {| Game.enemigos := [0%nat];
                 Game.keys := {| Game.up := false; Game.down := false;
                                 Game.left := false; Game.right := false |} |};
       Game.combate := None;
       Game.salida := [] |}.

(** The same combat while the animation delay started at tick [inicio] runs,
    after the turn of the player ([turno = true]) or of the enemy. *)
Definition animando_desde (inicio : Z) (turno : bool) (g : Game.t) : Game.t :=
  match Game.combate g with
  | Some self =>
      Game.con_combate
        (Some (CombateState.con_turno_jugador turno
                 (CombateState.con_animando true
                    (CombateState.con_animation_timer
                       (Timer.start inicio (Game.animation_timer self))
                       self)))) g
  | None => g
  end.

(** The same combat with the mouse resting on the item button, as [update]
    records it. *)
Definition raton_en_objeto : Z * Z := (700, 590).

Definition espada : Objeto.t :=
  {| Objeto.nombre := "Espada"; Objeto.descripcion := "Hoja corta";
     Objeto.tipo := "arma"; Objeto.valor := 80; Objeto.modificador := 5 |}.

Definition pocion : Objeto.t :=
  {| Objeto.nombre := "Poción de Vida"; Objeto.descripcion := "Restaura 20 HP";
     Objeto.tipo := "consumible"; Objeto.valor := 50;
     Objeto.modificador := 20 |}.

Definition antidoto : Objeto.t :=
  {| Objeto.nombre := "Antídoto"; Objeto.descripcion := "Cura el veneno";
     Objeto.tipo := "consumible"; Objeto.valor := 30;
     Objeto.modificador := 15 |}.

Definition con_experiencia_100 (j : Jugador.t) : Jugador.t :=
  Jugador.con_base (Personaje.con_experiencia 100 (Jugador.base j)) j.

Definition herido (dano : Z) (j : Jugador.t) : Jugador.t :=
  Jugador.con_base (Personaje.recibir_dano dano (Jugador.base j)).1.2 j.

(** A won fight at the end of its delay: the level-1 Guerrero holds 100
    experience and the wolf lies dead. *)
Definition combate_ganado : Game.t :=
  animando_desde 1000 true
    (en_combate (con_experiencia_100 guerrero)
                (Enemigo.con_base lobo_muerto (lobo_salvaje 100 100))).

(** A combat state in which both fighters are dead when the delay ends. *)
Definition combate_ambos_muertos : Game.t :=
  animando_desde 1000 true
    (en_combate guerrero_muerto
                (Enemigo.con_base lobo_muerto (lobo_salvaje 100 100))).

(** A fight going on, at the end of the delay that follows the player's
    turn. *)
Definition combate_en_curso : Game.t :=
  animando_desde 1000 true (en_combate guerrero (lobo_salvaje 100 100)).

(** The combat with the mouse resting at [pos], as [update] records it on
    the buttons. *)
Definition raton_sobre (pos : Z * Z) (g : Game.t) : Game.t :=
  match Game.combate g with
  | Some self =>
      Game.con_combate
        (Some (CombateState.con_botones
                 (Button.update pos (Game.attack_button self))
                 (Button.update pos (Game.item_button self)) self)) g
  | None => g
  end.

(** The player's turn with the mouse on the item button and, in turn: a
    sword as only belonging; nothing at all; a sword, an antidote and a
    potion in the hands of a Guerrero wounded by a blow of 35. *)
Definition turno_con_espada : Game.t :=
  raton_sobre raton_en_objeto
    (en_combate (Jugador.con_inventario [espada] guerrero)
                (lobo_salvaje 100 100)).

Definition turno_sin_objetos : Game.t :=
  raton_sobre raton_en_objeto (en_combate guerrero (lobo_salvaje 100 100)).

Definition turno_con_antidoto : Game.t :=
  raton_sobre raton_en_objeto
    (en_combate
       (Jugador.con_inventario [espada; antidoto; pocion] (herido 35 guerrero))
       (lobo_salvaje 100 100)).

(** ** Reading an exploration tick *)

(** The player after the movement step of the tick; [None] when the step
    raises. *)
Definition jugador_tras_mover (dt : Float.t) (k : Game.Keys) (j : Jugador.t)
  : option Jugador.t :=
  let dx := Num.Int 0 in
  let dy := Num.Int 0 in
  let dy := if Game.up k then Num.Int (-1) else dy in
  let dy := if Game.down k then Num.Int 1 else dy in
  let dx := if Game.left k then Num.Int (-1) else dx in
  let dx := if Game.right k then Num.Int 1 else dx in
  d ← (if Num.ne_0 dx && Num.ne_0 dy
       then dx ← Num.mul dx (Num.Flt (Float.decimal 707 1000));
            dy ← Num.mul dy (Num.Flt (Float.decimal 707 1000));
            Some (dx, dy)
       else Some (dx, dy));
  j1 ← Jugador.mover (fst d) (snd d) dt j;
  Jugador.update dt j1.

(** Whether the reference [q] holds a live enemy in the store [objs]. *)
Definition vivo_en (objs : list Enemigo.t) (q : nat) : bool :=
  match objs !! q with
  | Some e => Personaje.vivo (Enemigo.base e)
  | None => false
  end.

(** Whether the enemy [e] at [q] is alive and, after its update of this
    tick, its box overlaps the box of the player [j]. *)
Definition solapa (env : Entorno) (dt : Float.t) (j : Jugador.t) (q : nat)
    (e : Enemigo.t) : bool :=
  Personaje.vivo (Enemigo.base e)
  && match Enemigo.update dt (wander env q) e with
     | Some e' => Rect.colliderect (Personaje.rect (Jugador.base j))
                                   (Personaje.rect (Enemigo.base e'))
     | None => false
     end.

(** Whether the scan goes past the enemy [e] at [q]: it is dead, or its
    update of this tick does not raise and leaves its box clear of the box
    of the player [j]. *)
Definition pasa (env : Entorno) (dt : Float.t) (j : Jugador.t) (q : nat)
    (e : Enemigo.t) : bool :=
  negb (Personaje.vivo (Enemigo.base e))
  || match Enemigo.update dt (wander env q) e with
     | Some e' => negb (Rect.colliderect (Personaje.rect (Jugador.base j))
                                         (Personaje.rect (Enemigo.base e')))
     | None => false
     end.

(** The enemy [e] at [q] after a tick whose loop reached the references
    [vistos]: updated if it was reached alive, untouched otherwise. *)
Definition avanzar (env : Entorno) (dt : Float.t) (vistos : list nat)
    (q : nat) (e : Enemigo.t) : Enemigo.t :=
  if bool_decide (q ∈ vistos) && Personaje.vivo (Enemigo.base e)
  then default e (Enemigo.update dt (wander env q) e)
  else e.

(** Two enemies keep the same combat attributes. *)
Definition mismo_combatiente (a b : Enemigo.t) : Prop :=
  Personaje.nombre (Enemigo.base a) = Personaje.nombre (Enemigo.base b) /\
  Personaje.hp (Enemigo.base a) = Personaje.hp (Enemigo.base b) /\
  Personaje.hp_max (Enemigo.base a) = Personaje.hp_max (Enemigo.base b) /\
  Personaje.atk (Enemigo.base a) = Personaje.atk (Enemigo.base b) /\
  Personaje.defensa (Enemigo.base a) = Personaje.defensa (Enemigo.base b) /\
  Personaje.vivo (Enemigo.base a) = Personaje.vivo (Enemigo.base b) /\
  Enemigo.tipo a = Enemigo.tipo b /\
  Enemigo.recompensa a = Enemigo.recompensa b.

Definition bandido (x y : Z) : Enemigo.t :=
  Enemigo.init "Bandido" 60 15 5 "humano"
    {| Enemigo.oro := 40; Enemigo.experiencia := 80 |} x y.

(** Exploration with the player [j] standing still and the enemies [objs]
    as roster, in order. *)
Definition explorando (j : Jugador.t) (objs : list Enemigo.t) : Game.t :=
  {| Game.current_state := Some JUGANDO;
     Game.jugador := Some j;
     Game.enemigo_actual := None;
     Game.objetos := objs;
     Game.jugando :=
       Some {| Game.enemigos := seq 0 (List.length objs);
               Game.keys := {| Game.up := false; Game.down := false;
                               Game.left := false; Game.right := false |} |};
     Game.combate := None;
     Game.salida := [] |}.

(** The player at (640, 360), a wolf far away and a bandit whose box
    overlaps the player's. *)
Definition dos_enemigos : Game.t :=
  explorando guerrero [lobo_salvaje 100 100; bandido 660 380].

(** ** Combat as it is played *)

(** One turn of the main loop while combat is the current state: an event
    handled or a tick. *)
Inductive paso_combate `{Py.Str} (g : Game.t) : Game.t -> Prop :=
| paso_evento (env : Entorno) (event : Event) (g' : Game.t) :
    Game.current_state g = Some COMBATE ->
    CombateState.handle_event env event g = Some g' ->
    paso_combate g g'
| paso_tick (env : Entorno) (dt : Q) (g' : Game.t) :
    Game.current_state g = Some COMBATE ->
    CombateState.update env dt g = Some g' ->
    paso_combate g g'.

(** What the phases of a combat say about who is alive: both fighters while
    the player chooses; the player during the delay after the player's
    turn; the enemy during the delay after its own; the winner once there
    is a result. *)
Definition fase_coherente (self : Game.CombateState) (j : Jugador.t)
    (e : Enemigo.t) : Prop :=
  match Game.resultado self, Game.animando self, Game.turno_jugador self with
  | None, false, t =>
      t = true /\ Personaje.vivo (Jugador.base j) = true /\
      Personaje.vivo (Enemigo.base e) = true
  | None, true, true => Personaje.vivo (Jugador.base j) = true
  | None, true, false => Personaje.vivo (Enemigo.base e) = true
  | Some victoria, a, _ => a = false /\ Personaje.vivo (Jugador.base j) = true
  | Some derrota, a, _ => a = false /\ Personaje.vivo (Enemigo.base e) = true
  end.

Definition combate_coherente (g : Game.t) : Prop :=
  Game.current_state g = Some COMBATE ->
  exists self j r e,
    Game.combate g = Some self /\ Game.jugador g = Some j /\
    Game.enemigo_actual g = Some r /\ Game.objetos g !! r = Some e /\
    fase_coherente self j e.

(** ** Further readings of the entity model and of the game flow *)

(** A run of hits: [recibir_dano] called with each damage in turn. *)
Definition golpes (ds : list Z) (p : Personaje.t) : Personaje.t :=
  fold_left (fun q d => (Personaje.recibir_dano d q).1.2) ds p.

(** The enemy [_generar_enemigos] builds from the template that
    [random.choice] drew: the first one for an even index. *)
Definition plantilla (idx : nat) (x y : Z) : Enemigo.t :=
  if (idx mod 2 =? 0)%nat then lobo_salvaje x y else bandido x y.

(** The enemies appended to the store by the generation loop. *)
Definition generados (env : Entorno) : list Enemigo.t :=
  map (fun i => plantilla (generar env i).1.1 (generar env i).1.2
                          (generar env i).2) (seq 0 5).

(** An exploration state the main loop can tick: the player exists, the
    exploration state has been entered, and the roster holds distinct
    references to objects of the store. *)
Definition explorable (g : Game.t) : Prop :=
  Game.current_state g = Some JUGANDO /\
  exists j self,
    Game.jugador g = Some j /\ Game.jugando g = Some self /\
    NoDup (Game.enemigos self) /\
    Forall (fun q => is_Some (Game.objetos g !! q)) (Game.enemigos self).

(** Two players with the same combat attributes, gold and belongings. *)
Definition mismo_heroe (a b : Jugador.t) : Prop :=
  Personaje.nombre (Jugador.base a) = Personaje.nombre (Jugador.base b) /\
  Personaje.hp (Jugador.base a) = Personaje.hp (Jugador.base b) /\
  Personaje.hp_max (Jugador.base a) = Personaje.hp_max (Jugador.base b) /\
  Personaje.atk (Jugador.base a) = Personaje.atk (Jugador.base b) /\
  Personaje.defensa (Jugador.base a) = Personaje.defensa (Jugador.base b) /\
  Personaje.nivel (Jugador.base a) = Personaje.nivel (Jugador.base b) /\
  Personaje.experiencia (Jugador.base a)
  = Personaje.experiencia (Jugador.base b) /\
  Personaje.vivo (Jugador.base a) = Personaje.vivo (Jugador.base b) /\
  Jugador.clase a = Jugador.clase b /\
  Jugador.oro a = Jugador.oro b /\
  Jugador.inventario a = Jugador.inventario b.

(** Whether the reference [q] holds, in the store [objs], an enemy that
    overlaps the player [j] in this tick. *)
Definition solapa_en (env : Entorno) (dt : Float.t) (j : Jugador.t)
    (objs : list Enemigo.t) (q : nat) : bool :=
  match objs !! q with
  | Some e => solapa env dt j q e
  | None => false
  end.

(** ** InventarioState and PausaState: the way back to exploration *)

Module InventarioState.

Definition handle_event (env : Entorno) (event : Evento) (g : Game.t)
  : option Game.t :=
  match event with
  | KEYDOWN K_ESCAPE _ => Game.change_state env JUGANDO g
  | _ => Some g
  end.

End InventarioState.

Module PausaState.

(** The three buttons of [self.buttons], in order. *)
Record t := mk { continuar : Button.t; guardar : Button.t; menu : Button.t }.

Definition enter : t :=
  let center_x := Config.SCREEN_WIDTH / 2 in
  let button_width := 300 in
  {| continuar := Button.init (center_x - button_width / 2) 300 button_width
                              Config.BUTTON_HEIGHT "Continuar";
     guardar := Button.init (center_x - button_width / 2) 370 button_width
                            Config.BUTTON_HEIGHT "Guardar Partida";
     menu := Button.init (center_x - button_width / 2) 440 button_width
                         Config.BUTTON_HEIGHT "Menú Principal" |}.

Definition update (mouse_pos : Z * Z) (self : t) : t :=
  {| continuar := Button.update mouse_pos (continuar self);
     guardar := Button.update mouse_pos (guardar self);
     menu := Button.update mouse_pos (menu self) |}.

(** [handle_event]: the chain over the buttons, then the test for ESC on
    the game the chain left. *)
Definition handle_event (env : Entorno) (self : t) (event : Evento)
    (g : Game.t) : option Game.t :=
  g1 ← (if is_clicked event (continuar self)
        then Game.change_state env JUGANDO g
        else if is_clicked event (guardar self) then Some g
        else if is_clicked event (menu self)
             then Game.change_state env MENU_PRINCIPAL g
             else Some g);
  match event with
  | KEYDOWN K_ESCAPE _ => Game.change_state env JUGANDO g1
  | _ => Some g1
  end.

End PausaState.

(** ** Mision: quests *)

Module Mision.

(** A dict with string keys, as the list of its items in insertion order. *)
Definition Dict (A : Type) : Type := list (string * A).

(** [d.get(k)] *)
Fixpoint get {A} (k : string) (d : Dict A) : option A :=
  match d with
  | [] => None
  | (k', v) :: d' => if String.eqb k k' then Some v else get k d'
  end.

Record t := mk {
  nombre : string;
  descripcion : string;
  requisitos : Dict (Dict Z);
  recompensa : Dict Z;
  completada : bool;
  progreso : gmap string (gmap string Z)
}.

(** [{e: 0 for e in d}] *)
Definition en_cero (d : Dict Z) : gmap string Z :=
  list_to_map (map (fun kv => (kv.1, 0)) d).

Definition init (nombre0 descripcion0 : string) (requisitos0 : Dict (Dict Z))
    (recompensa0 : Dict Z) : t :=
  {| nombre := nombre0; descripcion := descripcion0;
     requisitos := requisitos0; recompensa := recompensa0;
     completada := false;
     progreso :=
       <["objetos" := en_cero (default [] (get "objetos" requisitos0))]>
         (<["enemigos" := en_cero (default [] (get "enemigos" requisitos0))]>
            ∅) |}.

Definition con_completada (v : bool) (m : t) : t :=
  {| nombre := nombre m; descripcion := descripcion m;
     requisitos := requisitos m; recompensa := recompensa m;
     completada := v; progreso := progreso m |}.

Definition con_progreso (v : gmap string (gmap string Z)) (m : t) : t :=
  {| nombre := nombre m; descripcion := descripcion m;
     requisitos := requisitos m; recompensa := recompensa m;
     completada := completada m; progreso := v |}.

(** How a call ends: normally, or by raising [KeyError]; either way with
    the mission as the call left it. *)
Inductive Salida :=
| Normal (m : t)
| KeyError (m : t).

Definition estado (s : Salida) : t :=
  match s with
  | Normal m => m
  | KeyError m => m
  end.

(** What the loops of [_verificar_completada] find. *)
Inductive Veredicto := Cumplida | Pendiente | Clave_ausente.

(** The inner loop over the items of one requirement dict: [prog] is
    [self.progreso[tipo]], absent when [tipo] is no key of the progress. *)
Fixpoint revisar_req (prog : option (gmap string Z)) (req : Dict Z)
  : Veredicto :=
  match req with
  | [] => Cumplida
  | (objetivo, cantidad) :: req' =>
      match prog with
      | None => Clave_ausente
      | Some p =>
          if default 0 (p !! objetivo) <? cantidad then Pendiente
          else revisar_req prog req'
      end
  end.

(** The outer loop over the items of [self.requisitos]. *)
Fixpoint revisar (prog : gmap string (gmap string Z)) (reqs : Dict (Dict Z))
  : Veredicto :=
  match reqs with
  | [] => Cumplida
  | (tipo, req) :: reqs' =>
      match revisar_req (prog !! tipo) req with
      | Cumplida => revisar prog reqs'
      | v => v
      end
  end.

Definition _verificar_completada (m : t) : Salida :=
  match revisar (progreso m) (requisitos m) with
  | Cumplida => Normal (con_completada true m)
  | Pendiente => Normal m
  | Clave_ausente => KeyError m
  end.

Definition actualizar_progreso (tipo objetivo : string) (m : t) : Salida :=
  match progreso m !! tipo with
  | Some p =>
      match p !! objetivo with
      | Some n =>
          _verificar_completada
            (con_progreso (<[tipo := <[objetivo := n + 1]> p]> (progreso m)) m)
      | None => Normal m
      end
  | None => Normal m
  end.

End Mision.

(** A run of progress events on a mission, going on after a [KeyError]
    as a caller that catches it would. *)
Definition registrar (eventos : list (string * string)) (m : Mision.t)
  : Mision.t :=
  fold_left
    (fun m' ev => Mision.estado (Mision.actualizar_progreso ev.1 ev.2 m'))
    eventos m.

(** The count kept for an objective, 0 when there is none. *)
Definition cuenta (m : Mision.t) (tipo objetivo : string) : Z :=
  default 0 (Mision.progreso m !! tipo ≫= fun p => p !! objetivo).

(** Whether an objective belongs to a requirement dict of the kinds the
    progress is kept for. *)
Definition es_objetivo (reqs : Mision.Dict (Mision.Dict Z))
    (tipo objetivo : string) : bool :=
  (String.eqb tipo "enemigos" || String.eqb tipo "objetos")
  && bool_decide (objetivo ∈ map fst (default [] (Mision.get tipo reqs))).

(** ** Reading the keyboard flags and the menus over exploration *)

Inductive Direccion := Arriba | Abajo | Izquierda | Derecha.

(** The direction a movement key stands for. *)
Definition direccion_de (k : Tecla) : option Direccion :=
  match k with
  | K_w | K_UP => Some Arriba
  | K_s | K_DOWN => Some Abajo
  | K_a | K_LEFT => Some Izquierda
  | K_d | K_RIGHT => Some Derecha
  | K_ESCAPE | K_i | K_BACKSPACE | K_RETURN | K_OTRA => None
  end.

(** The flag of [self.keys] kept for a direction. *)
Definition pulsada (d : Direccion) (k : Game.Keys) : bool :=
  match d with
  | Arriba => Game.up k
  | Abajo => Game.down k
  | Izquierda => Game.left k
  | Derecha => Game.right k
  end.

(** The game with every flag of [self.keys] cleared and nothing else
    touched. *)
Definition teclas_sueltas (g : Game.t) : Game.t :=
  match Game.jugando g with
  | Some self =>
      Game.con_jugando
        (Some {| Game.enemigos := Game.enemigos self;
                 Game.keys := {| Game.up := false; Game.down := false;
                                 Game.left := false; Game.right := false |} |})
        g
  | None => g
  end.

(** The events that resume the game from the pause menu: ESC, or a click
    on the first button. *)
Definition reanuda (p : PausaState.t) (event : Evento) : bool :=
  match event with
  | KEYDOWN K_ESCAPE _ => true
  | _ => is_clicked event (PausaState.continuar p)
  end.

(** The entry of the progress for an objective, if there is one. *)
Definition buscar (m : Mision.t) (tipo objetivo : string) : option Z :=
  Mision.progreso m !! tipo ≫= fun p => p !! objetivo.

(** How many of the events are about the objective. *)
Definition veces (tipo objetivo : string) (eventos : list (string * string))
  : Z :=
  Z.of_nat (List.length (filter (fun ev => ev = (tipo, objetivo)) eventos)).

(** A mission that asks for three wolves and one potion. *)
Definition caza_de_lobos : Mision.t :=
  Mision.init "Caza de lobos" "Mata tres lobos y consigue una poción"
    [ ("enemigos", [("Lobo Salvaje", 3)]); ("objetos", [("Poción", 1)]) ]
    [ ("oro", 100) ].

(** The state a mission can be in after some events: the requirements are
    those it was built with, the progress has the two kinds as keys and
    an entry [c t o] for every objective, and no other entry. *)
Definition en_curso (reqs : Mision.Dict (Mision.Dict Z))
    (c : string -> string -> Z) (m : Mision.t) : Prop :=
  Mision.requisitos m = reqs /\
  (forall t, is_Some (Mision.progreso m !! t)
             <-> t = "enemigos" \/ t = "objetos") /\
  forall t o, buscar m t o
              = if es_objetivo reqs t o then Some (c t o) else None.

(** ** MenuState, CreacionPersonajeState and GameOverState *)

Module MenuState.

(** The three buttons of [self.buttons], in order; the offset of the
    animated title only matters to the drawing and is left out. *)
Record t := mk { nuevo_juego : Button.t; cargar : Button.t; salir : Button.t }.

Definition enter : t :=
  let center_x := Config.SCREEN_WIDTH / 2 in
  let button_width := 300 in
  let button_x := center_x - button_width / 2 in
  {| nuevo_juego := Button.init button_x 300 button_width
                                Config.BUTTON_HEIGHT "Nuevo Juego";
     cargar := Button.init button_x 370 button_width
                           Config.BUTTON_HEIGHT "Cargar Partida";
     salir := Button.init button_x 440 button_width
                          Config.BUTTON_HEIGHT "Salir" |}.

Definition update (mouse_pos : Z * Z) (self : t) : t :=
  {| nuevo_juego := Button.update mouse_pos (nuevo_juego self);
     cargar := Button.update mouse_pos (cargar self);
     salir := Button.update mouse_pos (salir self) |}.

(** [handle_event]: the game and the value [self.game.running] is left
    with. *)
Definition handle_event (env : Entorno) (self : t) (event : Evento)
    (g : Game.t) : option (Game.t * bool) :=
  if is_clicked event (nuevo_juego self) then
    g' ← Game.change_state env CREACION_PERSONAJE g;
    Some (g', true)
  else if is_clicked event (cargar self) then Some (g, true)
  else if is_clicked event (salir self) then Some (g, false)
  else Some (g, true).

End MenuState.

Module CreacionPersonajeState.

Record t := mk {
  nombre : Texto.t;
  clase_seleccionada : option string;
  input_active : bool;
  class_buttons : list Button.t;
  confirm_button : Button.t
}.

Definition enter : t :=
  let center_x := Config.SCREEN_WIDTH / 2 in
  let button_width := 250 in
  let start_y := 300 in
  let spacing := 80 in
  {| nombre := [];
     clase_seleccionada := None;
     input_active := true;
     class_buttons :=
       imap (fun i clase =>
               Button.init (center_x - button_width / 2)
                           (start_y + Z.of_nat i * spacing) button_width
                           Config.BUTTON_HEIGHT clase)
            (map fst Jugador.CLASES);
     confirm_button :=
       Button.init (center_x - 150) (Config.SCREEN_HEIGHT - 100) 300
                   Config.BUTTON_HEIGHT "Confirmar" |}.

Definition update (mouse_pos : Z * Z) (self : t) : t :=
  {| nombre := nombre self;
     clase_seleccionada := clase_seleccionada self;
     input_active := input_active self;
     class_buttons := map (Button.update mouse_pos) (class_buttons self);
     confirm_button := Button.update mouse_pos (confirm_button self) |}.

Definition con_nombre (v : Texto.t) (self : t) : t :=
  {| nombre := v; clase_seleccionada := clase_seleccionada self;
     input_active := input_active self;
     class_buttons := class_buttons self;
     confirm_button := confirm_button self |}.

Definition con_clase_seleccionada (v : option string) (self : t) : t :=
  {| nombre := nombre self; clase_seleccionada := v;
     input_active := input_active self;
     class_buttons := class_buttons self;
     confirm_button := confirm_button self |}.

Definition con_input_active (v : bool) (self : t) : t :=
  {| nombre := nombre self; clase_seleccionada := clase_seleccionada self;
     input_active := v;
     class_buttons := class_buttons self;
     confirm_button := confirm_button self |}.

(** The loop over [enumerate(self.class_buttons)] from index [i] on:
    [None] is the [IndexError] of a button beyond the classes. *)
Fixpoint seleccionar (event : Evento) (i : nat) (botones : list Button.t)
    (sel : option string) : option (option string) :=
  match botones with
  | [] => Some sel
  | b :: botones' =>
      if is_clicked event b then
        clase ← map fst Jugador.CLASES !! i;
        seleccionar event (S i) botones' (Some clase)
      else seleccionar event (S i) botones' sel
  end.

(** Truth value of [self.nombre and self.clase_seleccionada]. *)
Definition completo (self : t) : bool :=
  match nombre self, clase_seleccionada self with
  | _ :: _, Some clase => negb (String.eqb clase "")
  | _, _ => false
  end.

Section Eventos.
(** [str.isprintable] is a builtin driven by the Unicode tables; the
    model takes it as given. *)
Variable isprintable : Texto.t -> bool.

(** The text input at the head of [handle_event]. *)
Definition escribir (event : Evento) (self : t) : t :=
  match event with
  | KEYDOWN key unicode =>
      if input_active self then
        match key with
        | K_BACKSPACE => con_nombre (removelast (nombre self)) self
        | K_RETURN => con_input_active false self
        | _ =>
            if (List.length (nombre self) <? 15)%nat && isprintable unicode
            then con_nombre (nombre self ++ unicode) self
            else self
        end
      else self
  | _ => self
  end.

(** [handle_event]: the screen and the game afterwards; [None] is an
    [IndexError] of the selection or the [KeyError] of a class that is
    none of [Jugador.CLASES]. *)
Definition handle_event (env : Entorno) (event : Evento) (self : t)
    (g : Game.t) : option (t * Game.t) :=
  let self1 := escribir event self in
  sel ← seleccionar event 0 (class_buttons self1) (clase_seleccionada self1);
  let self2 := con_clase_seleccionada sel self1 in
  if is_clicked event (confirm_button self2) then
    if completo self2 then
      j ← Jugador.init (Texto.str (nombre self2))
                       (default "" (clase_seleccionada self2))
                       (Config.SCREEN_WIDTH / 2) (Config.SCREEN_HEIGHT / 2);
      let j :=
        fold_left
          (fun j' _ =>
             Jugador.con_inventario
               (Jugador.inventario j'
                ++ [Objeto.mk "Poción de Vida" "Restaura 20 HP" "consumible"
                              50 20]) j')
          (seq 0 2) j in
      g' ← Game.change_state env JUGANDO (Game.con_jugador (Some j) g);
      Some (self2, g')
    else Some (self2, g)
  else Some (self2, g).

(** The events of a stay on the screen, handled in order. *)
Fixpoint atender (env : Entorno) (eventos : list Evento) (self : t)
    (g : Game.t) : option (t * Game.t) :=
  match eventos with
  | [] => Some (self, g)
  | event :: eventos' =>
      '(self', g') ← handle_event env event self g;
      atender env eventos' self' g'
  end.

End Eventos.

End CreacionPersonajeState.

Module GameOverState.

(** [self.button] is the whole state. *)
Definition enter : Button.t :=
  Button.init (Config.SCREEN_WIDTH / 2 - 150) 400 300 Config.BUTTON_HEIGHT
              "Menú Principal".

Definition update (mouse_pos : Z * Z) (self : Button.t) : Button.t :=
  Button.update mouse_pos self.

Definition handle_event (env : Entorno) (self : Button.t) (event : Evento)
    (g : Game.t) : option Game.t :=
  if is_clicked event self then Game.change_state env MENU_PRINCIPAL g
  else Some g.

End GameOverState.

(** The text a key event types. *)
Definition texto_de (event : Evento) : Texto.t :=
  match event with
  | KEYDOWN _ unicode => unicode
  | _ => []
  end.

(** An executable reading of [str.isprintable] for ASCII text: every
    character is one byte from the space to the tilde. *)
Definition isprintable_ascii (s : Texto.t) : bool :=
  forallb
    (fun c =>
       match c with
       | String a EmptyString =>
           ((32 <=? N_of_ascii a) && (N_of_ascii a <=? 126))%N
       | _ => false
       end) s.

(** The player the creation screen builds for a name and a class with the
    given hp, attack and defence: at the centre of the screen, with the
    two starting potions. *)
Definition recien_creado (nombre : Texto.t) (clase : string)
    (stats : Z * Z * Z) : Jugador.t :=
  {| Jugador.base :=
       Personaje.init (Texto.str nombre) stats.1.1 stats.1.2 stats.2
                      640 360;
     Jugador.clase := clase;
     Jugador.oro := 100;
     Jugador.inventario := [pocion; pocion] |}.

(** A left click, as the handlers of the menus receive it. *)
Definition clic : Evento := NO_TECLA (MOUSEBUTTONDOWN 1).

(** The creation screen with the name Ana typed, the class Mago chosen
    and the mouse over the Confirmar button. *)
Definition ana_la_maga : CreacionPersonajeState.t :=
  CreacionPersonajeState.update (640, 645)
    (CreacionPersonajeState.con_clase_seleccionada (Some "Mago")
       (CreacionPersonajeState.con_nombre ["A"; "n"; "a"]
          CreacionPersonajeState.enter)).

(** The game on the creation screen before any game was played. *)
Definition en_creacion : Game.t :=
  {| Game.current_state := Some CREACION_PERSONAJE;
     Game.jugador := None;
     Game.enemigo_actual := None;
     Game.objetos := [];
     Game.jugando := None;
     Game.combate := None;
     Game.salida := [] |}.

(** The game on the game-over screen after the warrior fell exploring
    among a wolf and a bandit. *)
Definition tras_la_derrota : Game.t :=
  Game.con_current_state (Some GAME_OVER)
    (Game.con_jugador (Some guerrero_muerto) dos_enemigos).

(** One tick of 16 ms. *)
Definition un_tick : Float.t := Float.decimal 16 1000.

(** The wolf at (100, 100) killed by a blow of 100. *)
Definition lobo_caido : Enemigo.t :=
  Enemigo.con_base lobo_muerto (lobo_salvaje 100 100).

(** The player at (640, 360) with a bandit whose box overlaps the
    player's first in the roster, and the dead wolf after it. *)
Definition bandido_y_lobo_caido : Game.t :=
  explorando guerrero [bandido 660 380; lobo_caido].

(** A tick whose position updates do not raise: the player's move and box
    update return, and so does the update of every live enemy of the
    roster. *)
Definition sin_excepcion (env : Entorno) (dt : Float.t) (g : Game.t)
  : Prop :=
  forall j self,
    Game.jugador g = Some j -> Game.jugando g = Some self ->
    is_Some (jugador_tras_mover dt (Game.keys self) j) /\
    Forall (fun q => forall e,
                Game.objetos g !! q = Some e ->
                Personaje.vivo (Enemigo.base e) = true ->
                is_Some (Enemigo.update dt (wander env q) e))
           (Game.enemigos self).

(** [n] exploration ticks of length [dt] in a row. *)
Fixpoint ticks (n : nat) (env : Entorno) (dt : Float.t) (g : Game.t)
  : option Game.t :=
  match n with
  | O => Some g
  | S n' => g' ← JugandoState.update env dt g; ticks n' env dt g'
  end.

(** The player alone at (640, 360), holding the key to the right. *)
Definition hacia_la_derecha : Game.t :=
  {| Game.current_state := Some JUGANDO;
     Game.jugador := Some guerrero;
     Game.enemigo_actual := None;
     Game.objetos := [];
     Game.jugando :=
       Some {| Game.enemigos := [];
               Game.keys := {| Game.up := false; Game.down := false;
                               Game.left := false; Game.right := true |} |};
     Game.combate := None;
     Game.salida := [] |}.

(** * Properties *)

(** ** Strings *)

Lemma append_cons (c : ascii) (s b : string) :
  String c s +:+ b = String c (s +:+ b).
Proof. reflexivity. Qed.

Lemma append_nil (b : string) : "" +:+ b = b.
Proof. reflexivity. Qed.

Lemma prefix_true_iff (sub s : string) :
  String.prefix sub s = true <-> exists b, s = sub +:+ b.
Proof.
  revert s. induction sub as [|c sub IH]; intros s.
  - split; [intros _; exists s; reflexivity|intros _; destruct s; reflexivity].
  - destruct s as [|d s]; cbn [String.prefix].
    + split; [discriminate | intros [b Hb]; discriminate].
    + destruct (ascii_dec c d) as [->|Hne].
      * rewrite IH. split; intros [b Hb]; exists b.
        -- rewrite append_cons, Hb. reflexivity.
        -- rewrite append_cons in Hb. injection Hb as Hb. exact Hb.
      * split; [discriminate|].
        intros [b Hb]. rewrite append_cons in Hb. congruence.
Qed.

Lemma contains_true_iff (sub s : string) :
  Py.contains sub s = true <-> subcadena sub s.
Proof.
  unfold subcadena. induction s as [|d s IH].
  - cbn [Py.contains]. rewrite orb_false_r, prefix_true_iff. split.
    + intros [b Hb]. exists "", b. exact Hb.
    + intros [a [b Hb]]. destruct a as [|d' a].
      * exists b. exact Hb.
      * rewrite append_cons in Hb. discriminate.
  - cbn [Py.contains]. rewrite orb_true_iff, prefix_true_iff, IH. split.
    + intros [[b Hb]|[a [b Hb]]].
      * exists "", b. exact Hb.
      * exists (String d a), b. rewrite append_cons, Hb. reflexivity.
    + intros [a [b Hb]]. destruct a as [|d' a].
      * left. exists b. exact Hb.
      * right. exists a, b. rewrite append_cons in Hb. congruence.
Qed.

(** ** Damage, healing and death *)

Lemma recibir_dano_casos (d : Z) (p : Personaje.t) :
  let dano_real := Z.max 1 (d - Personaje.defensa p / 2) in
  let hp' := Z.max 0 (Personaje.hp p - dano_real) in
  let p2 := Personaje.con_hit_flash_timer (Num.Flt (Float.decimal 2 10))
              (Personaje.con_hp hp' p) in
  Personaje.recibir_dano d p
  = if (hp' =? 0) && Personaje.vivo p
    then (dano_real, Personaje.con_vivo false p2, Personaje.morir p)
    else (dano_real, p2, []).
Proof. reflexivity. Qed.

Lemma recibir_dano_realizado (d : Z) (p : Personaje.t) :
  (Personaje.recibir_dano d p).1.1 = Z.max 1 (d - Personaje.defensa p / 2).
Proof.
  rewrite recibir_dano_casos. cbv zeta. destruct (_ && _); reflexivity.
Qed.

Lemma recibir_dano_hp (d : Z) (p : Personaje.t) :
  Personaje.hp (Personaje.recibir_dano d p).1.2
  = Z.max 0 (Personaje.hp p - Z.max 1 (d - Personaje.defensa p / 2)).
Proof.
  rewrite recibir_dano_casos. cbv zeta. destruct (_ && _); reflexivity.
Qed.

Lemma recibir_dano_vivo (d : Z) (p : Personaje.t) :
  Personaje.vivo (Personaje.recibir_dano d p).1.2
  = Personaje.vivo p
    && negb (Personaje.hp (Personaje.recibir_dano d p).1.2 =? 0).
Proof.
  rewrite recibir_dano_hp, recibir_dano_casos. cbv zeta.
  destruct (Z.max 0 _ =? 0), (Personaje.vivo p) eqn:V; cbn; rewrite ?V;
    reflexivity.
Qed.

Lemma recibir_dano_salida (d : Z) (p : Personaje.t) :
  (Personaje.recibir_dano d p).2
  = if Personaje.vivo p
       && (Personaje.hp (Personaje.recibir_dano d p).1.2 =? 0)
    then Personaje.morir p else [].
Proof.
  rewrite recibir_dano_hp, recibir_dano_casos. cbv zeta.
  destruct (Z.max 0 _ =? 0), (Personaje.vivo p) eqn:V; cbn; rewrite ?V;
    reflexivity.
Qed.

Lemma recibir_dano_otros (d : Z) (p : Personaje.t) :
  let p' := (Personaje.recibir_dano d p).1.2 in
  Personaje.nombre p' = Personaje.nombre p /\
  Personaje.hp_max p' = Personaje.hp_max p /\
  Personaje.atk p' = Personaje.atk p /\
  Personaje.defensa p' = Personaje.defensa p /\
  Personaje.nivel p' = Personaje.nivel p /\
  Personaje.experiencia p' = Personaje.experiencia p.
Proof.
  rewrite recibir_dano_casos. cbv zeta.
  destruct (_ && _); cbn; repeat split; reflexivity.
Qed.

(** C1. For every entity and every raw damage [d], [recibir_dano] returns
    [max(1, d - defensa // 2)], where [//] rounds down, and leaves
    [hp = max(0, hp_before - realized)]. *)
Theorem recibir_dano_formula (p : Personaje.t) (d : Z) :
  let f := Personaje.defensa p in
  let realizado := (Personaje.recibir_dano d p).1.1 in
  2 * (f / 2) <= f < 2 * (f / 2) + 2 /\
  realizado = Z.max 1 (d - f / 2) /\
  Personaje.hp (Personaje.recibir_dano d p).1.2
  = Z.max 0 (Personaje.hp p - realizado).
Proof.
  cbv zeta. rewrite recibir_dano_realizado, recibir_dano_hp.
  split; [|split; reflexivity].
  pose proof (Z.div_mod (Personaje.defensa p) 2 ltac:(lia)).
  pose proof (Z.mod_pos_bound (Personaje.defensa p) 2 ltac:(lia)). lia.
Qed.

(** C2. An attack takes the attacker's [atk], doubles it when the critical
    draw fires (a draw below 0.1), then hands it to [recibir_dano], which
    subtracts [defensa // 2] and floors at 1.  A Guerrero (atk 15) hitting
    a wolf of defense 2 and hp 40 deals 14 and leaves hp 26 without a
    critical (29 and hp 11 with one). *)
Theorem atacar_orden :
  (forall (azar : Q) (j : Jugador.t) (objetivo : Personaje.t),
      let dano := if Py.lt azar (1 # 10)
                  then Personaje.atk (Jugador.base j) * 2
                  else Personaje.atk (Jugador.base j) in
      Jugador.atacar azar j objetivo = Personaje.recibir_dano dano objetivo /\
      (Jugador.atacar azar j objetivo).1.1
      = Z.max 1 (dano - Personaje.defensa objetivo / 2)) /\
  (forall (azar : Q) (e : Enemigo.t) (objetivo : Personaje.t),
      let dano := if Py.lt azar (1 # 10)
                  then Personaje.atk (Enemigo.base e) * 2
                  else Personaje.atk (Enemigo.base e) in
      Enemigo.atacar azar e objetivo = Personaje.recibir_dano dano objetivo /\
      (Enemigo.atacar azar e objetivo).1.1
      = Z.max 1 (dano - Personaje.defensa objetivo / 2)) /\
  (forall (azar : Q) (nombre : string) (x y ex ey : Z),
      exists guerrero,
        Jugador.init nombre "Guerrero" x y = Some guerrero /\
        let lobo :=
          Enemigo.init "Lobo Salvaje" 40 10 2 "bestia"
            {| Enemigo.oro := 20; Enemigo.experiencia := 50 |} ex ey in
        let r := Jugador.atacar azar guerrero (Enemigo.base lobo) in
        if Py.lt azar (1 # 10)
        then r.1.1 = 29 /\ Personaje.hp r.1.2 = 11
        else r.1.1 = 14 /\ Personaje.hp r.1.2 = 26).
Proof.
  split; [|split].
  - intros azar j objetivo dano. split; [reflexivity|].
    unfold Jugador.atacar. fold dano. apply recibir_dano_realizado.
  - intros azar e objetivo dano. split; [reflexivity|].
    unfold Enemigo.atacar. fold dano. apply recibir_dano_realizado.
  - intros azar nombre x y ex ey. eexists. split; [reflexivity|].
    cbv zeta. unfold Jugador.atacar.
    rewrite recibir_dano_realizado, recibir_dano_hp.
    destruct (Py.lt azar (1 # 10)); split; reflexivity.
Qed.

Lemma llamar_vivo (l : Llamada) (p : Personaje.t) :
  Personaje.vivo (llamar l p).1 = true -> Personaje.vivo p = true.
Proof.
  destruct l as [d|c]; cbn [llamar fst].
  - rewrite recibir_dano_vivo. intros H. apply andb_true_iff in H. tauto.
  - intros H. exact H.
Qed.

Lemma llamar_nombre (l : Llamada) (p : Personaje.t) :
  Personaje.nombre (llamar l p).1 = Personaje.nombre p.
Proof.
  destruct l as [d|c]; cbn [llamar fst]; [|reflexivity].
  apply (recibir_dano_otros d p).
Qed.

Lemma llamar_salida (l : Llamada) (p : Personaje.t) :
  (llamar l p).2
  = if Personaje.vivo p && negb (Personaje.vivo (llamar l p).1)
    then Personaje.morir p else [].
Proof.
  destruct l as [d|c]; cbn [llamar fst snd].
  - rewrite recibir_dano_salida, recibir_dano_vivo.
    destruct (Personaje.vivo p), (_ =? 0); reflexivity.
  - cbn. destruct (Personaje.vivo p); reflexivity.
Qed.

Lemma ejecutar_app (antes despues : list Llamada) (p : Personaje.t) :
  ejecutar (antes ++ despues) p
  = ((ejecutar despues (ejecutar antes p).1).1,
     (ejecutar antes p).2 ++ (ejecutar despues (ejecutar antes p).1).2).
Proof.
  revert p. induction antes as [|l antes IH]; intros p.
  - cbn. destruct (ejecutar despues p); reflexivity.
  - cbn [app ejecutar fst snd]. rewrite IH. cbn [fst snd].
    rewrite app_assoc. reflexivity.
Qed.

Lemma ejecutar_muerto (ls : list Llamada) (p : Personaje.t) :
  Personaje.vivo p = false ->
  Personaje.vivo (ejecutar ls p).1 = false /\ (ejecutar ls p).2 = [].
Proof.
  revert p. induction ls as [|l ls IH]; intros p Hp;
    [split; assumption || reflexivity|].
  cbn [ejecutar fst snd].
  assert (H1 : Personaje.vivo (llamar l p).1 = false).
  { destruct (Personaje.vivo (llamar l p).1) eqn:E; [|reflexivity].
    apply llamar_vivo in E. congruence. }
  destruct (IH _ H1) as [IHv IHs]. split; [exact IHv|].
  rewrite IHs, llamar_salida, Hp. reflexivity.
Qed.

Lemma ejecutar_salida (ls : list Llamada) (p : Personaje.t) :
  (ejecutar ls p).2
  = if Personaje.vivo p && negb (Personaje.vivo (ejecutar ls p).1)
    then Personaje.morir p else [].
Proof.
  revert p. induction ls as [|l ls IH]; intros p.
  - cbn. destruct (Personaje.vivo p); reflexivity.
  - cbn [ejecutar fst snd]. rewrite llamar_salida.
    destruct (Personaje.vivo p) eqn:Hp.
    + destruct (Personaje.vivo (llamar l p).1) eqn:H1.
      * rewrite IH, H1. unfold Personaje.morir. rewrite llamar_nombre.
        reflexivity.
      * destruct (ejecutar_muerto ls _ H1) as [Hv Hs]. rewrite Hv, Hs.
        reflexivity.
    + assert (H1 : Personaje.vivo (llamar l p).1 = false).
      { destruct (Personaje.vivo (llamar l p).1) eqn:E; [|reflexivity].
        apply llamar_vivo in E. congruence. }
      destruct (ejecutar_muerto ls _ H1) as [Hv Hs]. rewrite Hs.
      reflexivity.
Qed.

Lemma curarse_campos (c : Z) (p : Personaje.t) :
  Personaje.hp (Personaje.curarse c p)
  = Z.min (Personaje.hp_max p) (Personaje.hp p + c) /\
  Personaje.hp_max (Personaje.curarse c p) = Personaje.hp_max p /\
  Personaje.vivo (Personaje.curarse c p) = Personaje.vivo p.
Proof. repeat split; reflexivity. Qed.

(** A call with a non-negative amount, if it is a [curarse]. *)
Lemma llamar_invariante (l : Llamada) (p : Personaje.t) :
  invariante p -> Personaje.vivo p = true -> cura_no_negativa l ->
  invariante (llamar l p).1.
Proof.
  intros [Hr Hv] Hvivo Hl. unfold invariante.
  destruct l as [d|c]; cbn [llamar fst].
  - rewrite recibir_dano_vivo, recibir_dano_hp.
    destruct (recibir_dano_otros d p) as (_ & -> & _). rewrite Hv.
    split; [lia|].
    destruct (0 <? Personaje.hp p) eqn:E1, (Z.max 0 _ =? 0) eqn:E2,
      (0 <? Z.max 0 _) eqn:E3; try reflexivity; cbn; lia.
  - cbn in Hl. destruct (curarse_campos c p) as (-> & -> & ->).
    rewrite Hvivo in Hv. split; [lia|]. rewrite Hvivo. symmetry.
    apply Z.ltb_lt. symmetry in Hv. apply Z.ltb_lt in Hv. lia.
Qed.

Lemma ejecutar_vivo_positivo (ls : list Llamada) (p : Personaje.t) :
  invariante p -> Forall cura_no_negativa ls ->
  Personaje.vivo (ejecutar ls p).1 = true ->
  0 < Personaje.hp (ejecutar ls p).1.
Proof.
  revert p. induction ls as [|l ls IH]; intros p Hinv Hls Hfin.
  - cbn in Hfin |- *. destruct Hinv as [_ Hv]. rewrite Hfin in Hv.
    symmetry in Hv. apply Z.ltb_lt in Hv. exact Hv.
  - apply Forall_cons in Hls as [Hl Hls]. cbn [ejecutar fst] in Hfin |- *.
    destruct (Personaje.vivo p) eqn:Hp.
    + apply IH; [apply llamar_invariante; assumption|exact Hls|exact Hfin].
    + assert (H1 : Personaje.vivo (llamar l p).1 = false).
      { destruct (Personaje.vivo (llamar l p).1) eqn:E; [|reflexivity].
        apply llamar_vivo in E. congruence. }
      destruct (ejecutar_muerto ls _ H1) as [Hd _]. congruence.
Qed.

(** A lifetime that starts alive and ends dead has one deadly blow. *)
Lemma primera_muerte (ls : list Llamada) (p : Personaje.t) :
  Personaje.vivo p = true ->
  Personaje.vivo (ejecutar ls p).1 = false ->
  exists a d b,
    ls = a ++ Recibir_dano d :: b /\
    Personaje.vivo (ejecutar a p).1 = true /\
    (ejecutar a p).2 = [] /\
    Personaje.hp (Personaje.recibir_dano d (ejecutar a p).1).1.2 = 0 /\
    Personaje.vivo (Personaje.recibir_dano d (ejecutar a p).1).1.2 = false /\
    (Personaje.recibir_dano d (ejecutar a p).1).2
    = [Personaje.nombre p +:+ " ha sido derrotado!"].
Proof.
  revert p. induction ls as [|l ls IH]; intros p Hp Hfin.
  - cbn in Hfin. congruence.
  - cbn [ejecutar fst] in Hfin.
    destruct (Personaje.vivo (llamar l p).1) eqn:H1.
    + destruct (IH _ H1 Hfin) as (a & d & b & -> & Ha & Hs & Hh & Hv & Ho).
      exists (l :: a), d, b. cbn [app ejecutar fst snd].
      split; [reflexivity|]. split; [exact Ha|].
      split; [rewrite Hs, llamar_salida, Hp, H1; reflexivity|].
      split; [exact Hh|]. split; [exact Hv|].
      rewrite Ho, llamar_nombre. reflexivity.
    + destruct l as [d|c]; cbn [llamar fst] in H1;
        [|cbn in H1; congruence].
      exists [], d, ls. cbn [app ejecutar fst snd].
      split; [reflexivity|]. split; [exact Hp|]. split; [reflexivity|].
      rewrite recibir_dano_vivo, Hp in H1. cbn [andb] in H1.
      apply negb_false_iff, Z.eqb_eq in H1.
      split; [exact H1|].
      split; [rewrite recibir_dano_vivo, H1, Hp; reflexivity|].
      rewrite recibir_dano_salida, Hp, H1. reflexivity.
Qed.

(** C3, as stated, fails on the moment of the signal: a [curarse] with a
    negative amount brings the hp of a live entity to 0 and prints nothing,
    the entity staying alive; the signal comes with the next
    [recibir_dano], which finds the hp at 0 already. *)
Lemma hp_cero_sin_senal :
  Personaje.vivo (Jugador.base guerrero) = true /\
  Personaje.hp (Jugador.base guerrero) = 120 /\
  Personaje.hp (llamar (Curarse (-120)) (Jugador.base guerrero)).1 = 0 /\
  Personaje.vivo (llamar (Curarse (-120)) (Jugador.base guerrero)).1 = true /\
  (llamar (Curarse (-120)) (Jugador.base guerrero)).2 = [] /\
  (llamar (Recibir_dano 1)
     (llamar (Curarse (-120)) (Jugador.base guerrero)).1).2
  = ["Ana ha sido derrotado!"] /\
  (ejecutar [Curarse (-120); Recibir_dano 1] (Jugador.base guerrero)).2
  = ["Ana ha sido derrotado!"].
Proof. vm_compute. repeat split; reflexivity. Qed.

(** C3, amended.  Over any sequence of [recibir_dano] and [curarse] calls:
    once the entity is dead it stays dead and prints nothing more, whatever
    is called on it; a lifetime that starts alive prints the death line
    exactly once if it ends dead and never if it ends alive.  The line is
    printed by the first [recibir_dano] that leaves hp at 0 on the entity
    still alive, which is the call that sets the alive flag to false, and
    by no other call: [curarse] prints nothing and leaves the alive flag as
    it is, whatever it does to hp.  When the lifetime starts from the
    entity invariant and heals by non-negative amounts only, hp is positive
    for as long as the entity is alive, so that the printing call is the
    first time hp reaches 0. *)
Theorem muerte_definitiva_y_unica (p : Personaje.t)
    (antes despues : list Llamada) :
  let medio := ejecutar antes p in
  let final := ejecutar (antes ++ despues) p in
  (Personaje.vivo medio.1 = false ->
     Personaje.vivo final.1 = false /\ final.2 = medio.2) /\
  final.2 = (if Personaje.vivo p && negb (Personaje.vivo final.1)
             then [Personaje.nombre p +:+ " ha sido derrotado!"] else []) /\
  (forall d,
      (llamar (Recibir_dano d) medio.1).2
      = (if Personaje.vivo medio.1
            && (Personaje.hp (llamar (Recibir_dano d) medio.1).1 =? 0)
         then [Personaje.nombre p +:+ " ha sido derrotado!"] else []) /\
      Personaje.vivo (llamar (Recibir_dano d) medio.1).1
      = Personaje.vivo medio.1
        && negb (Personaje.hp (llamar (Recibir_dano d) medio.1).1 =? 0)) /\
  (forall c,
      (llamar (Curarse c) medio.1).2 = [] /\
      Personaje.vivo (llamar (Curarse c) medio.1).1
      = Personaje.vivo medio.1) /\
  (Personaje.vivo p = true -> Personaje.vivo final.1 = false ->
   exists a d b,
     antes ++ despues = a ++ Recibir_dano d :: b /\
     Personaje.vivo (ejecutar a p).1 = true /\
     (ejecutar a p).2 = [] /\
     Personaje.hp (llamar (Recibir_dano d) (ejecutar a p).1).1 = 0 /\
     Personaje.vivo (llamar (Recibir_dano d) (ejecutar a p).1).1 = false /\
     (llamar (Recibir_dano d) (ejecutar a p).1).2
     = [Personaje.nombre p +:+ " ha sido derrotado!"] /\
     (ejecutar b (llamar (Recibir_dano d) (ejecutar a p).1).1).2 = []) /\
  (invariante p -> Forall cura_no_negativa antes ->
   Personaje.vivo medio.1 = true -> 0 < Personaje.hp medio.1).
Proof.
  cbv zeta. split; [|split; [|split; [|split; [|split]]]].
  - intros Hm. rewrite ejecutar_app. cbn [fst snd].
    destruct (ejecutar_muerto despues _ Hm) as [Hv Hs].
    rewrite Hs, app_nil_r. split; [exact Hv|reflexivity].
  - apply ejecutar_salida.
  - intros d. cbn [llamar fst snd]. split.
    + rewrite recibir_dano_salida. unfold Personaje.morir.
      assert (Hn : Personaje.nombre (ejecutar antes p).1 = Personaje.nombre p).
      { clear. revert p. induction antes as [|l ls IH]; intros p;
          [reflexivity|].
        cbn [ejecutar fst]. rewrite IH. apply llamar_nombre. }
      rewrite Hn. reflexivity.
    + apply recibir_dano_vivo.
  - intros c. split; reflexivity.
  - intros Hp Hfin.
    destruct (primera_muerte _ _ Hp Hfin)
      as (a & d & b & Hls & Ha & Hs & Hh & Hv & Ho).
    exists a, d, b. cbn [llamar fst snd].
    split; [exact Hls|]. split; [exact Ha|]. split; [exact Hs|].
    split; [exact Hh|]. split; [exact Hv|]. split; [exact Ho|].
    exact (proj2 (ejecutar_muerto b _ Hv)).
  - intros Hinv Hls Hv. apply ejecutar_vivo_positivo; assumption.
Qed.

Lemma muerte_definitiva_y_unica_testigo :
  (ejecutar ([Recibir_dano 60; Curarse 10]
             ++ [Recibir_dano 200; Recibir_dano 5; Curarse 20])
            (Jugador.base guerrero)).2
  = ["Ana ha sido derrotado!"] /\
  0 < Personaje.hp
        (ejecutar [Recibir_dano 60; Curarse 10] (Jugador.base guerrero)).1.
Proof.
  destruct (muerte_definitiva_y_unica (Jugador.base guerrero)
              [Recibir_dano 60; Curarse 10]
              [Recibir_dano 200; Recibir_dano 5; Curarse 20])
    as (_ & Hsal & _ & _ & _ & Hpos).
  split.
  - rewrite Hsal. reflexivity.
  - apply Hpos.
    + unfold invariante. cbn. split; [lia|reflexivity].
    + constructor; [exact I|]. constructor; [|constructor]. cbn. lia.
    + reflexivity.
Defined.

(** ** The entity invariant *)

(** C4, as stated, fails: healing a dead entity (the wolf above, healed by
    a potion's 20) leaves it dead with hp 20; levelling up a dead player
    leaves it dead with full hp; and a negative amount drives the hp of a
    live entity below 0. *)
Lemma invariante_no_siempre_preservado :
  (invariante lobo_muerto /\
   ~ invariante (Personaje.curarse 20 lobo_muerto)) /\
  (invariante (Jugador.base guerrero_muerto) /\
   ~ invariante (Jugador.base (Jugador.subir_nivel guerrero_muerto))) /\
  (invariante (Jugador.base guerrero) /\
   ~ invariante (Personaje.curarse (-200) (Jugador.base guerrero))).
Proof.
  unfold invariante.
  repeat split; vm_compute; try reflexivity;
    try (intros H; discriminate H);
    intros [[Ha Hb] Hc]; first [discriminate Hc | exact (Ha eq_refl)].
Qed.

(** C4, amended.  From a state satisfying [0 <= hp <= hp_max] and
    [vivo = (hp > 0)]: [recibir_dano] always preserves it; [curarse] with a
    non-negative amount and the player's [subir_nivel] preserve it when the
    entity is alive.  The enemies' [subir_nivel] changes nothing.  On any
    entity with [0 <= hp <= hp_max], alive or dead, a non-negative
    [curarse] keeps [0 <= hp <= hp_max] and the alive flag. *)
Theorem invariante_preservado (p : Personaje.t) :
  (invariante p ->
     (forall d, invariante (Personaje.recibir_dano d p).1.2) /\
     (forall c, 0 <= c -> Personaje.vivo p = true ->
                invariante (Personaje.curarse c p)) /\
     (forall j, Jugador.base j = p -> Personaje.vivo p = true ->
                invariante (Jugador.base (Jugador.subir_nivel j)))) /\
  (forall e, Enemigo.subir_nivel e = e) /\
  (forall c, 0 <= c ->
             0 <= Personaje.hp p <= Personaje.hp_max p ->
             0 <= Personaje.hp (Personaje.curarse c p)
               <= Personaje.hp_max (Personaje.curarse c p) /\
             Personaje.vivo (Personaje.curarse c p) = Personaje.vivo p).
Proof.
  split; [|split].
  - intros [Hr Hv]. unfold invariante. split; [|split].
    + intros d. rewrite recibir_dano_vivo, recibir_dano_hp.
      destruct (recibir_dano_otros d p) as (_ & -> & _). rewrite Hv.
      split; [lia|].
      destruct (0 <? Personaje.hp p) eqn:E1, (Z.max 0 _ =? 0) eqn:E2,
        (0 <? Z.max 0 _) eqn:E3; try reflexivity; cbn; lia.
    + intros c Hc Hvivo.
      destruct (curarse_campos c p) as (-> & -> & ->).
      rewrite Hvivo in Hv. split; [lia|]. rewrite Hvivo. symmetry.
      apply Z.ltb_lt. symmetry in Hv. apply Z.ltb_lt in Hv. lia.
    + intros j Hj Hvivo. subst p. cbn. split; [lia|]. rewrite Hvivo.
      symmetry. apply Z.ltb_lt. lia.
  - intros e. reflexivity.
  - intros c Hc Hr. destruct (curarse_campos c p) as (-> & -> & ->).
    split; [lia|reflexivity].
Qed.

Lemma invariante_preservado_testigo :
  invariante (Personaje.recibir_dano 25 (Jugador.base guerrero)).1.2 /\
  invariante (Personaje.curarse 20 (Jugador.base guerrero)) /\
  invariante (Jugador.base (Jugador.subir_nivel guerrero)) /\
  (0 <= Personaje.hp (Personaje.curarse 20 (Personaje.curarse 20 lobo_muerto))
     <= Personaje.hp_max
          (Personaje.curarse 20 (Personaje.curarse 20 lobo_muerto)) /\
   Personaje.vivo (Personaje.curarse 20 (Personaje.curarse 20 lobo_muerto))
   = Personaje.vivo (Personaje.curarse 20 lobo_muerto)).
Proof.
  assert (H : invariante (Jugador.base guerrero)).
  { unfold invariante. cbn. split; [lia|reflexivity]. }
  destruct (invariante_preservado (Jugador.base guerrero))
    as ((Hd & Hc & Hj) & _).
  { exact H. }
  split; [apply Hd|split; [|split]].
  - apply Hc; [lia|reflexivity].
  - apply Hj; reflexivity.
  - apply (invariante_preservado (Personaje.curarse 20 lobo_muerto));
      [lia|vm_compute; split; discriminate].
Defined.

(** ** Items *)

(** C6. [usar] returns true exactly when the item is a consumable whose
    lower-cased name contains "vida" or "poción"; it then heals the
    target by the item's modifier, and otherwise returns false and leaves
    the target as it was. *)
Theorem usar_solo_consumible_curativo `{Py.Str}
    (o : Objeto.t) (objetivo : Personaje.t) :
  let curativo :=
    subcadena "vida" (Py.lower (Objeto.nombre o)) \/
    subcadena "poción" (Py.lower (Objeto.nombre o)) in
  ((Objeto.usar o objetivo).1 = true <->
     Objeto.tipo o = "consumible" /\ curativo) /\
  ((Objeto.usar o objetivo).1 = true ->
     (Objeto.usar o objetivo).2
     = Personaje.curarse (Objeto.modificador o) objetivo /\
     Personaje.hp (Objeto.usar o objetivo).2
     = Z.min (Personaje.hp_max objetivo)
             (Personaje.hp objetivo + Objeto.modificador o)) /\
  ((Objeto.usar o objetivo).1 = false ->
     (Objeto.usar o objetivo).2 = objetivo).
Proof.
  cbv zeta. rewrite <- !contains_true_iff, <- orb_true_iff.
  unfold Objeto.usar.
  destruct (String.eqb (Objeto.tipo o) "consumible") eqn:Et.
  - apply String.eqb_eq in Et.
    destruct (Py.contains "vida" _ || Py.contains "poción" _) eqn:Ec;
      cbn [fst snd].
    + repeat split; try reflexivity; try assumption; discriminate.
    + repeat split; try reflexivity; try discriminate.
      intros [_ Hf]. discriminate Hf.
  - apply String.eqb_neq in Et. cbn [fst snd].
    repeat split; try reflexivity; try discriminate.
    intros [Hf _]. contradiction.
Qed.

(** ** The combat resolver *)

Lemma timer_update_expira (ahora : Z) (tm : Timer.t) :
  Timer.active tm = true ->
  (Timer.duration tm <= inject_Z (ahora - Timer.start_time tm) / 1000)%Q ->
  Timer.update ahora tm
  = (true, {| Timer.duration := Timer.duration tm;
              Timer.start_time := Timer.start_time tm;
              Timer.active := false |}).
Proof.
  intros Ha Hd. unfold Timer.update, Py.ge. rewrite Ha. cbn [negb].
  apply Qle_bool_iff in Hd. rewrite Hd. reflexivity.
Qed.

Lemma timer_update_espera (ahora : Z) (tm : Timer.t) :
  Timer.active tm = true ->
  (inject_Z (ahora - Timer.start_time tm) / 1000 < Timer.duration tm)%Q ->
  Timer.update ahora tm = (false, tm).
Proof.
  intros Ha Hd. unfold Timer.update, Py.ge. rewrite Ha. cbn [negb].
  destruct (Qle_bool _ _) eqn:E; [|reflexivity].
  apply Qle_bool_iff in E. apply Qlt_not_le in Hd. contradiction.
Qed.

(** C5, as stated, fails when the player is dead as well: at the end of
    the delay the dead enemy (hp 0) grants nothing, the player's gold,
    experience and level stay as they were, and the combat is lost. *)
Lemma enemigo_muerto_sin_recompensa :
  Game.enemigo_actual combate_ambos_muertos = Some 0%nat /\
  vivo_en (Game.objetos combate_ambos_muertos) 0 = false /\
  Game.jugador combate_ambos_muertos = Some guerrero_muerto /\
  Personaje.vivo (Jugador.base guerrero_muerto) = false /\
  exists g' j' self',
    CombateState.update (entorno 1600 (1 # 2) (0, 0)) 0 combate_ambos_muertos
    = Some g' /\
    Game.jugador g' = Some j' /\
    Jugador.oro j' = Jugador.oro guerrero_muerto /\
    Personaje.experiencia (Jugador.base j')
    = Personaje.experiencia (Jugador.base guerrero_muerto) /\
    Personaje.nivel (Jugador.base j') = 1 /\
    Game.combate g' = Some self' /\
    Game.resultado self' = Some derrota.
Proof.
  repeat split; try reflexivity.
  eexists _, _, _. split; [vm_compute; reflexivity|].
  repeat split; reflexivity.
Qed.

(** C5, amended.  When the delay expires on a live player and a dead enemy,
    the combat is won: the enemy's gold and experience are added to the
    player, and if the accumulated experience reaches [nivel * 100] exactly
    one level-up is applied (nivel+1, hp_max+10, hp at the new hp_max,
    atk+2, defensa+1) and the experience is reset to 0, however far the
    threshold is exceeded; otherwise the stats stay and the experience
    accumulates. *)
Theorem victoria_recompensa_y_un_nivel
    (env : Entorno) (dt : Q) (g : Game.t) (self : Game.CombateState)
    (j : Jugador.t) (r : nat) (e : Enemigo.t)
    (Hself : Game.combate g = Some self)
    (Hanim : Game.animando self = true)
    (Hact : Timer.active (Game.animation_timer self) = true)
    (Hexp : (Timer.duration (Game.animation_timer self)
             <= inject_Z (get_ticks env 0
                          - Timer.start_time (Game.animation_timer self))
                / 1000)%Q)
    (Hj : Game.jugador g = Some j)
    (Hr : Game.enemigo_actual g = Some r)
    (He : Game.objetos g !! r = Some e)
    (Hjv : Personaje.vivo (Jugador.base j) = true)
    (Hev : Personaje.vivo (Enemigo.base e) = false) :
  exists (self' : Game.CombateState) (j' : Jugador.t),
    CombateState.update env dt g
    = Some (Game.con_combate (Some self') (Game.con_jugador (Some j') g)) /\
    Game.resultado self' = Some victoria /\
    Game.animando self' = false /\
    Jugador.oro j' = Jugador.oro j + Enemigo.oro (Enemigo.recompensa e) /\
    Jugador.inventario j' = Jugador.inventario j /\
    Personaje.vivo (Jugador.base j') = true /\
    let b := Jugador.base j in
    let acumulada :=
      Personaje.experiencia b + Enemigo.experiencia (Enemigo.recompensa e) in
    if acumulada >=? Personaje.nivel b * 100
    then Personaje.nivel (Jugador.base j') = Personaje.nivel b + 1 /\
         Personaje.hp_max (Jugador.base j') = Personaje.hp_max b + 10 /\
         Personaje.hp (Jugador.base j') = Personaje.hp_max b + 10 /\
         Personaje.atk (Jugador.base j') = Personaje.atk b + 2 /\
         Personaje.defensa (Jugador.base j') = Personaje.defensa b + 1 /\
         Personaje.experiencia (Jugador.base j') = 0
    else Personaje.nivel (Jugador.base j') = Personaje.nivel b /\
         Personaje.hp_max (Jugador.base j') = Personaje.hp_max b /\
         Personaje.hp (Jugador.base j') = Personaje.hp b /\
         Personaje.atk (Jugador.base j') = Personaje.atk b /\
         Personaje.defensa (Jugador.base j') = Personaje.defensa b /\
         Personaje.experiencia (Jugador.base j') = acumulada.
Proof.
  cbv zeta. unfold CombateState.update. rewrite Hself. cbn [mbind option_bind].
  rewrite Hanim, (timer_update_expira _ _ Hact Hexp), Hj.
  cbn [mbind option_bind]. rewrite Hjv, Hr. cbn [mbind option_bind negb].
  rewrite He. cbn [mbind option_bind]. rewrite Hev. cbn [negb].
  eexists _, _. split; [reflexivity|].
  cbn. rewrite Hjv.
  destruct (_ >=? _); cbn; rewrite ?Hjv; repeat split; reflexivity.
Qed.

Lemma victoria_recompensa_y_un_nivel_testigo :
  exists (g' : Game.t) (j' : Jugador.t),
    CombateState.update (entorno 1600 (1 # 2) (0, 0)) 0 combate_ganado
    = Some g' /\
    Game.jugador g' = Some j' /\
    Personaje.nivel (Jugador.base j') = 2 /\
    Personaje.hp_max (Jugador.base j') = 130 /\
    Personaje.hp (Jugador.base j') = 130 /\
    Personaje.experiencia (Jugador.base j') = 0 /\
    Jugador.oro j' = 120.
Proof.
  edestruct (victoria_recompensa_y_un_nivel
               (entorno 1600 (1 # 2) (0, 0)) 0 combate_ganado)
    as (self' & j' & Hu & _ & _ & Horo & _ & _ & Hnivel);
    [reflexivity | reflexivity | reflexivity | vm_compute; discriminate
    | reflexivity | reflexivity | reflexivity | reflexivity | reflexivity |].
  cbn in Hnivel. destruct Hnivel as (Hn & Hm & Hh & _ & _ & Hx).
  eexists _, j'. split; [exact Hu|].
  split; [reflexivity|]. repeat split; assumption.
Defined.

(** C8, as stated, fails on the order of the first two tests: with both
    fighters dead when the delay ends (the enemy's hp is 0), the combat is
    lost and no reward is granted. *)
Lemma derrota_antes_que_victoria :
  (Game.objetos combate_ambos_muertos !! 0%nat
   = Some (Enemigo.con_base lobo_muerto (lobo_salvaje 100 100)) /\
   Personaje.hp lobo_muerto = 0 /\ Personaje.vivo lobo_muerto = false) /\
  (Game.resultado
   <$> (CombateState.update (entorno 1600 (1 # 2) (0, 0)) 0
          combate_ambos_muertos ≫= Game.combate))
  = Some (Some derrota) /\
  (CombateState.update (entorno 1600 (1 # 2) (0, 0)) 0 combate_ambos_muertos
   ≫= Game.jugador) = Some guerrero_muerto.
Proof. vm_compute. repeat split; reflexivity. Qed.

(** C8, amended.  When the animation delay expires the resolver tests, in
    this order: the player's alive flag (dead: Defeat); the enemy's alive
    flag (dead: Victory, with the reward); whether the delay followed the
    player's turn (then it is the enemy's turn: its attack on the player is
    computed at once, the message produced and the delay started again);
    otherwise the turn returns to the player. *)
Theorem resolucion_al_expirar
    (env : Entorno) (dt : Q) (g : Game.t) (self : Game.CombateState)
    (j : Jugador.t) (r : nat) (e : Enemigo.t)
    (Hself : Game.combate g = Some self)
    (Hanim : Game.animando self = true)
    (Hact : Timer.active (Game.animation_timer self) = true)
    (Hexp : (Timer.duration (Game.animation_timer self)
             <= inject_Z (get_ticks env 0
                          - Timer.start_time (Game.animation_timer self))
                / 1000)%Q)
    (Hj : Game.jugador g = Some j)
    (Hr : Game.enemigo_actual g = Some r)
    (He : Game.objetos g !! r = Some e) :
  exists (g' : Game.t) (self' : Game.CombateState),
    CombateState.update env dt g = Some g' /\
    Game.combate g' = Some self' /\
    Game.current_state g' = Game.current_state g /\
    Game.enemigo_actual g' = Game.enemigo_actual g /\
    Game.objetos g' = Game.objetos g /\
    match Personaje.vivo (Jugador.base j), Personaje.vivo (Enemigo.base e),
          Game.turno_jugador self with
    | false, _, _ =>
        Game.resultado self' = Some derrota /\
        Game.animando self' = false /\
        Game.turno_jugador self' = Game.turno_jugador self /\
        Game.jugador g' = Some j
    | true, false, _ =>
        Game.resultado self' = Some victoria /\
        Game.animando self' = false /\
        Game.turno_jugador self' = Game.turno_jugador self /\
        exists j', Game.jugador g' = Some j' /\
          Jugador.oro j' = Jugador.oro j + Enemigo.oro (Enemigo.recompensa e)
    | true, true, true =>
        let ataque :=
          Enemigo.atacar (random_random env) e (Jugador.base j) in
        Game.resultado self' = Game.resultado self /\
        Game.turno_jugador self' = false /\
        Game.animando self' = true /\
        Timer.active (Game.animation_timer self') = true /\
        Timer.start_time (Game.animation_timer self') = get_ticks env 1 /\
        Game.mensaje self'
        = Personaje.nombre (Enemigo.base e) +:+ " ataca causando "
          +:+ Py.str ataque.1.1 +:+ " de daño!" /\
        Game.jugador g' = Some (Jugador.con_base ataque.1.2 j) /\
        Game.salida g' = Game.salida g ++ ataque.2
    | true, true, false =>
        Game.resultado self' = Game.resultado self /\
        Game.turno_jugador self' = true /\
        Game.animando self' = false /\
        Game.jugador g' = Some j
    end.
Proof.
  unfold CombateState.update. rewrite Hself. cbn [mbind option_bind].
  rewrite Hanim, (timer_update_expira _ _ Hact Hexp), Hj.
  cbn [mbind option_bind].
  destruct (Personaje.vivo (Jugador.base j)) eqn:Hjv; cbn [negb].
  - rewrite Hr. cbn [mbind option_bind]. rewrite He. cbn [mbind option_bind].
    destruct (Personaje.vivo (Enemigo.base e)) eqn:Hev; cbn [negb].
    + cbn [Game.turno_jugador CombateState.con_animando
             CombateState.con_animation_timer].
      destruct (Game.turno_jugador self) eqn:Ht; cbn [andb].
      * unfold CombateState._turno_enemigo. cbn. rewrite Hr.
        cbn [mbind option_bind]. rewrite He. cbn [mbind option_bind].
        rewrite Hj. cbn [mbind option_bind].
        destruct (Enemigo.atacar (random_random env) e (Jugador.base j))
          as [[dano b] lineas].
        eexists _, _. split; [reflexivity|]. split; [reflexivity|].
        cbn. repeat split; first [reflexivity | congruence].
      * eexists _, _. split; [reflexivity|]. split; [reflexivity|].
        cbn. repeat split; first [reflexivity | congruence].
    + eexists _, _. split; [reflexivity|]. split; [reflexivity|].
      cbn. repeat split; try first [reflexivity | congruence].
      eexists. split; [reflexivity|]. destruct (_ >=? _); reflexivity.
  - eexists _, _. split; [reflexivity|]. split; [reflexivity|].
    cbn. repeat split; first [reflexivity | congruence].
Qed.

Lemma resolucion_al_expirar_testigo :
  exists (g' : Game.t) (self' : Game.CombateState),
    CombateState.update (entorno 1600 (1 # 2) (0, 0)) 0 combate_en_curso
    = Some g' /\
    Game.combate g' = Some self' /\
    Game.turno_jugador self' = false /\
    Game.animando self' = true /\
    Game.mensaje self' = "Lobo Salvaje ataca causando 5 de daño!" /\
    Game.jugador g' = Some (herido 10 guerrero).
Proof.
  edestruct (resolucion_al_expirar
               (entorno 1600 (1 # 2) (0, 0)) 0 combate_en_curso)
    as (g' & self' & Hu & Hc & _ & _ & _ & Hcaso);
    [reflexivity | reflexivity | reflexivity | vm_compute; discriminate
    | reflexivity | reflexivity | reflexivity |].
  destruct Hcaso as (_ & Ht & Ha & _ & _ & Hm & Hjug & _).
  exists g', self'. repeat split; assumption.
Defined.

(** ** Combat as it is played: the two fighters are never both dead *)

Lemma fase_coherente_uno_vivo (self : Game.CombateState) (j : Jugador.t)
    (e : Enemigo.t) :
  fase_coherente self j e ->
  Personaje.vivo (Jugador.base j) || Personaje.vivo (Enemigo.base e) = true.
Proof.
  unfold fase_coherente.
  destruct (Game.resultado self) as [[|]|], (Game.animando self),
    (Game.turno_jugador self); intros Hf; apply orb_true_iff; tauto.
Qed.

Lemma jugando_enter_current_state (env : Entorno) (g : Game.t) :
  Game.current_state (Game.JugandoState_enter env g) = Game.current_state g.
Proof.
  unfold Game.JugandoState_enter.
  destruct (Game.jugando g) as [self|] eqn:E.
  - rewrite E. reflexivity.
  - destruct (Game._generar_enemigos env (Game.objetos g, []))
      as [objs refs]. reflexivity.
Qed.

Lemma combate_coherente_paso `{Py.Str} (g g' : Game.t) :
  combate_coherente g -> paso_combate g g' -> combate_coherente g'.
Proof.
  intros Hinv Hpaso.
  destruct Hpaso as [env event g' Hst Hev|env dt g' Hst Hup];
    destruct (Hinv Hst) as (self & j & r & e & Hs & Hj & Hr & He & Hf);
    unfold fase_coherente in Hf.
  - (* an event *)
    unfold CombateState.handle_event in Hev. rewrite Hs in Hev.
    cbn [mbind option_bind] in Hev.
    destruct (Game.resultado self) as [res|] eqn:Hres.
    + destruct event as [button|]; [|injection Hev as <-; exact Hinv].
      unfold Game.change_state in Hev. rewrite Hst in Hev.
      intros Hst'. exfalso.
      destruct res; injection Hev as <-; cbn in Hst';
        rewrite ?jugando_enter_current_state in Hst'; discriminate Hst'.
    + destruct (Game.animando self) eqn:Han;
        [rewrite orb_true_r in Hev; injection Hev as <-; exact Hinv|].
      destruct Hf as (Ht & Hjv & Hev').
      rewrite Ht in Hev. cbn [negb orb] in Hev.
      destruct (Button.is_clicked event (Game.attack_button self)).
      * rewrite Hj in Hev. cbn [mbind option_bind] in Hev.
        rewrite Hr in Hev. cbn [mbind option_bind] in Hev.
        rewrite He in Hev. cbn [mbind option_bind] in Hev.
        destruct (Jugador.atacar (random_random env) j (Enemigo.base e))
          as [[dano b] lineas].
        injection Hev as <-. intros _.
        eexists _, j, r, (Enemigo.con_base b e).
        split; [reflexivity|]. split; [exact Hj|]. split; [exact Hr|].
        split; [cbn; apply list_lookup_insert_eq;
                eapply lookup_lt_Some; exact He|].
        unfold fase_coherente. cbn. rewrite Hres, Ht. exact Hjv.
      * destruct (Button.is_clicked event (Game.item_button self));
          [|injection Hev as <-; exact Hinv].
        rewrite Hj in Hev. cbn [mbind option_bind] in Hev.
        destruct (Jugador.inventario j) as [|o inv] eqn:Einv.
        -- injection Hev as <-. intros _. exists
             (CombateState.con_mensaje "¡No tienes objetos!" self), j, r, e.
           repeat split; try assumption.
           unfold fase_coherente. cbn. rewrite Hres, Han. tauto.
        -- destruct (CombateState.primer_consumible (o :: inv)) as [obj|];
             [|injection Hev as <-; exact Hinv].
           destruct (Objeto.usar obj (Jugador.base j)) as [u b] eqn:Hu.
           injection Hev as <-. intros _.
           eexists _, _, r, e. split; [reflexivity|]. split; [reflexivity|].
           split; [exact Hr|]. split; [exact He|].
           unfold fase_coherente. cbn. rewrite Hres, Ht.
           assert (Hb : b = (Objeto.usar obj (Jugador.base j)).2)
             by (rewrite Hu; reflexivity).
           rewrite Hb. unfold Objeto.usar.
           destruct (String.eqb _ _); [|exact Hjv].
           destruct (_ || _); exact Hjv.
  - (* a tick *)
    unfold CombateState.update in Hup. rewrite Hs in Hup.
    cbn [mbind option_bind] in Hup.
    destruct (Game.animando self) eqn:Han.
    + destruct (Timer.update (get_ticks env 0) (Game.animation_timer self))
        as [fin tm].
      destruct fin.
      * rewrite Hj in Hup. cbn [mbind option_bind] in Hup.
        destruct (Game.resultado self) as [res|] eqn:Hres;
          [destruct res; destruct Hf; discriminate|].
        destruct (Personaje.vivo (Jugador.base j)) eqn:Hjv; cbn [negb] in Hup.
        -- rewrite Hr in Hup. cbn [mbind option_bind] in Hup.
           rewrite He in Hup. cbn [mbind option_bind] in Hup.
           destruct (Personaje.vivo (Enemigo.base e)) eqn:Hev;
             cbn [negb] in Hup.
           ++ cbn [Game.turno_jugador CombateState.con_animando
                     CombateState.con_animation_timer] in Hup.
              destruct (Game.turno_jugador self) eqn:Ht; cbn [andb] in Hup.
              ** unfold CombateState._turno_enemigo in Hup. cbn in Hup.
                 rewrite Hr in Hup. cbn [mbind option_bind] in Hup.
                 rewrite He in Hup. cbn [mbind option_bind] in Hup.
                 rewrite Hj in Hup. cbn [mbind option_bind] in Hup.
                 destruct (Enemigo.atacar (random_random env) e
                             (Jugador.base j)) as [[dano b] lineas].
                 injection Hup as <-. intros _.
                 eexists _, _, r, e. split; [reflexivity|].
                 split; [reflexivity|]. split; [exact Hr|].
                 split; [exact He|].
                 unfold fase_coherente. cbn. rewrite Hres. exact Hev.
              ** injection Hup as <-. intros _.
                 eexists _, j, r, e. split; [reflexivity|].
                 repeat split; try assumption.
                 unfold fase_coherente. cbn. rewrite Hres. tauto.
           ++ injection Hup as <-. intros _.
              eexists _, _, r, e. split; [reflexivity|].
              split; [reflexivity|]. split; [exact Hr|]. split; [exact He|].
              unfold fase_coherente. cbn. split; [reflexivity|].
              destruct (_ >=? _); cbn; exact Hjv.
        -- injection Hup as <-. intros _.
           destruct (Game.turno_jugador self) eqn:Ht; [discriminate Hf|].
           eexists _, j, r, e. split; [reflexivity|].
           repeat split; try assumption.
      * injection Hup as <-. intros _.
        eexists _, j, r, e. split; [reflexivity|].
        repeat split; try assumption.
        unfold fase_coherente. cbn. rewrite Han.
        destruct (Game.resultado self) as [[|]|]; exact Hf.
    + destruct (Game.turno_jugador self && _);
        [|injection Hup as <-; exact Hinv].
      injection Hup as <-. intros _.
      eexists _, j, r, e. split; [reflexivity|].
      repeat split; try assumption.
      unfold fase_coherente. cbn. rewrite Han. exact Hf.
Qed.

(** A combat entered with both fighters alive never reaches a state in
    which both are dead, whatever events and ticks follow: the order of
    the first two tests of the resolver cannot be observed in play. *)
Lemma nunca_ambos_muertos `{Py.Str} (g0 g : Game.t) (self0 : Game.CombateState)
    (j0 : Jugador.t) (r0 : nat) (e0 : Enemigo.t) :
  Game.combate g0 = Some self0 ->
  Game.resultado self0 = None ->
  Game.animando self0 = false ->
  Game.turno_jugador self0 = true ->
  Game.jugador g0 = Some j0 ->
  Game.enemigo_actual g0 = Some r0 ->
  Game.objetos g0 !! r0 = Some e0 ->
  Personaje.vivo (Jugador.base j0) = true ->
  Personaje.vivo (Enemigo.base e0) = true ->
  rtc paso_combate g0 g ->
  Game.current_state g = Some COMBATE ->
  exists j r e,
    Game.jugador g = Some j /\ Game.enemigo_actual g = Some r /\
    Game.objetos g !! r = Some e /\
    Personaje.vivo (Jugador.base j) || Personaje.vivo (Enemigo.base e) = true.
Proof.
  intros Hs Hres Han Ht Hj Hr He Hjv Hev Hpasos.
  assert (Hinv0 : combate_coherente g0).
  { intros _. exists self0, j0, r0, e0. repeat split; try assumption.
    unfold fase_coherente. rewrite Hres, Han. tauto. }
  assert (Hinv : combate_coherente g).
  { clear -Hinv0 Hpasos. induction Hpasos as [g|g g1 g2 Hp _ IH];
      [exact Hinv0|]. apply IH. eapply combate_coherente_paso; eauto. }
  intros Hst.
  destruct (Hinv Hst) as (self & j & r & e & _ & Hj' & Hr' & He' & Hf).
  exists j, r, e. repeat split; try assumption.
  eapply fase_coherente_uno_vivo. exact Hf.
Qed.

(** With at most one fighter dead, testing the enemy first or the player
    first gives the same result when the delay expires. *)
Lemma orden_indiferente_con_uno_vivo
    (env : Entorno) (dt : Q) (g : Game.t) (self : Game.CombateState)
    (j : Jugador.t) (r : nat) (e : Enemigo.t) :
  Game.combate g = Some self ->
  Game.animando self = true ->
  Timer.active (Game.animation_timer self) = true ->
  (Timer.duration (Game.animation_timer self)
   <= inject_Z (get_ticks env 0
                - Timer.start_time (Game.animation_timer self)) / 1000)%Q ->
  Game.jugador g = Some j ->
  Game.enemigo_actual g = Some r ->
  Game.objetos g !! r = Some e ->
  Personaje.vivo (Jugador.base j) || Personaje.vivo (Enemigo.base e) = true ->
  exists g' self',
    CombateState.update env dt g = Some g' /\
    Game.combate g' = Some self' /\
    Game.resultado self'
    = if negb (Personaje.vivo (Enemigo.base e)) then Some victoria
      else if negb (Personaje.vivo (Jugador.base j)) then Some derrota
      else Game.resultado self.
Proof.
  intros Hself Hanim Hact Hexp Hj Hr He Hvivos.
  unfold CombateState.update. rewrite Hself. cbn [mbind option_bind].
  rewrite Hanim, (timer_update_expira _ _ Hact Hexp), Hj.
  cbn [mbind option_bind].
  destruct (Personaje.vivo (Jugador.base j)) eqn:Hjv; cbn [negb].
  - rewrite Hr. cbn [mbind option_bind]. rewrite He. cbn [mbind option_bind].
    destruct (Personaje.vivo (Enemigo.base e)) eqn:Hev; cbn [negb].
    + cbn [Game.turno_jugador CombateState.con_animando
             CombateState.con_animation_timer].
      destruct (Game.turno_jugador self) eqn:Ht; cbn [andb].
      * unfold CombateState._turno_enemigo. cbn. rewrite Hr.
        cbn [mbind option_bind]. rewrite He. cbn [mbind option_bind].
        rewrite Hj. cbn [mbind option_bind].
        destruct (Enemigo.atacar (random_random env) e (Jugador.base j))
          as [[dano b] lineas].
        eexists _, _. split; [reflexivity|]. split; reflexivity.
      * eexists _, _. split; [reflexivity|]. split; reflexivity.
    + eexists _, _. split; [reflexivity|]. split; reflexivity.
  - cbn [orb] in Hvivos. rewrite Hvivos. cbn [negb].
    eexists _, _. split; [reflexivity|]. split; reflexivity.
Qed.

(** ** Using an item in combat *)

(** C7, as stated, fails when the inventory holds items but no consumable:
    with a sword as only belonging (zero consumables), selecting Use-Item
    changes nothing at all, so no message is produced either. *)
Lemma sin_consumibles_sin_mensaje :
  CombateState.primer_consumible [espada] = None /\
  CombateState.handle_event (H := Py.lower_latin1)
    (entorno 2000 (1 # 2) raton_en_objeto) (MOUSEBUTTONDOWN 1)
    turno_con_espada
  = Some turno_con_espada /\
  Game.mensaje <$> Game.combate turno_con_espada = Some "".
Proof. vm_compute. repeat split; reflexivity. Qed.

(** C7, amended.  If Use-Item is selected during the player's turn and the
    inventory holds no consumable, the combat stays in the player's turn,
    no item is removed, player and enemy are unchanged and no animation
    delay is started; the message "¡No tienes objetos!" is produced when
    the inventory is empty, and no message when it holds other items. *)
Theorem usar_objeto_sin_consumibles `{Py.Str}
    (env : Entorno) (event : Event) (g : Game.t) (self : Game.CombateState)
    (j : Jugador.t)
    (Hself : Game.combate g = Some self)
    (Hres : Game.resultado self = None)
    (Hturno : Game.turno_jugador self = true)
    (Hanim : Game.animando self = false)
    (Hatk : Button.is_clicked event (Game.attack_button self) = false)
    (Hitem : Button.is_clicked event (Game.item_button self) = true)
    (Hj : Game.jugador g = Some j)
    (Hcons : CombateState.primer_consumible (Jugador.inventario j) = None) :
  exists (g' : Game.t) (self' : Game.CombateState),
    CombateState.handle_event env event g = Some g' /\
    Game.combate g' = Some self' /\
    Game.mensaje self'
    = match Jugador.inventario j with
      | [] => "¡No tienes objetos!"
      | _ :: _ => Game.mensaje self
      end /\
    Game.turno_jugador self' = true /\
    Game.resultado self' = None /\
    Game.animando self' = false /\
    Game.animation_timer self' = Game.animation_timer self /\
    Game.jugador g' = Some j /\
    Game.objetos g' = Game.objetos g /\
    Game.enemigo_actual g' = Game.enemigo_actual g /\
    Game.current_state g' = Game.current_state g /\
    Game.salida g' = Game.salida g.
Proof.
  unfold CombateState.handle_event. rewrite Hself. cbn [mbind option_bind].
  rewrite Hres, Hturno, Hanim, Hatk, Hitem. cbn [negb orb].
  rewrite Hj. cbn [mbind option_bind].
  destruct (Jugador.inventario j) as [|o inv] eqn:Einv.
  - eexists _, _. split; [reflexivity|]. split; [reflexivity|].
    cbn. repeat split; first [reflexivity | congruence].
  - rewrite Hcons. exists g, self. split; [reflexivity|].
    repeat split; first [reflexivity | congruence].
Qed.

Lemma usar_objeto_sin_consumibles_testigo :
  exists (g' : Game.t) (self' : Game.CombateState),
    CombateState.handle_event (H := Py.lower_latin1)
      (entorno 2000 (1 # 2) raton_en_objeto) (MOUSEBUTTONDOWN 1)
      turno_sin_objetos
    = Some g' /\
    Game.combate g' = Some self' /\
    Game.mensaje self' = "¡No tienes objetos!" /\
    Game.turno_jugador self' = true /\
    Game.animando self' = false /\
    Game.jugador g' = Some guerrero.
Proof.
  edestruct (usar_objeto_sin_consumibles (H := Py.lower_latin1)
               (entorno 2000 (1 # 2) raton_en_objeto) (MOUSEBUTTONDOWN 1)
               turno_sin_objetos)
    as (g' & self' & Hu & Hc & Hm & Ht & _ & Ha & _ & Hjug & _);
    [reflexivity | reflexivity | reflexivity | reflexivity | reflexivity
    | reflexivity | reflexivity | reflexivity |].
  exists g', self'. repeat split; assumption.
Defined.

Lemma primer_consumible_primero (pre post : list Objeto.t) (obj : Objeto.t) :
  Forall (fun o => Objeto.tipo o <> "consumible") pre ->
  Objeto.tipo obj = "consumible" ->
  CombateState.primer_consumible (pre ++ obj :: post) = Some obj /\
  Py.remove obj (pre ++ obj :: post) = pre ++ post.
Proof.
  intros Hpre Hobj. induction Hpre as [|o pre Ho Hpre IH].
  - cbn. rewrite Hobj. cbn. rewrite decide_True by reflexivity.
    split; reflexivity.
  - destruct IH as [IH1 IH2].
    cbn [app CombateState.primer_consumible Py.remove].
    apply String.eqb_neq in Ho. rewrite Ho, IH1.
    rewrite decide_False; [rewrite IH2; split; reflexivity|].
    intros ->. apply String.eqb_neq in Ho. contradiction.
Qed.

(** C10. When Use-Item is selected during the player's turn and the
    inventory holds a consumable, the first consumable in insertion order
    is removed and the animation delay is started whether or not its effect
    applied: one whose name lacks a healing marker is consumed all the
    same, heals nothing, and the message still reports HP + its
    modifier. *)
Theorem usar_objeto_consume_el_primero `{Py.Str}
    (env : Entorno) (event : Event) (g : Game.t) (self : Game.CombateState)
    (j : Jugador.t) (pre post : list Objeto.t) (obj : Objeto.t)
    (Hself : Game.combate g = Some self)
    (Hres : Game.resultado self = None)
    (Hturno : Game.turno_jugador self = true)
    (Hanim : Game.animando self = false)
    (Hatk : Button.is_clicked event (Game.attack_button self) = false)
    (Hitem : Button.is_clicked event (Game.item_button self) = true)
    (Hj : Game.jugador g = Some j)
    (Hinv : Jugador.inventario j = pre ++ obj :: post)
    (Hpre : Forall (fun o => Objeto.tipo o <> "consumible") pre)
    (Hobj : Objeto.tipo obj = "consumible") :
  exists (self' : Game.CombateState) (j' : Jugador.t),
    CombateState.handle_event env event g
    = Some (Game.con_combate (Some self') (Game.con_jugador (Some j') g)) /\
    Jugador.inventario j' = pre ++ post /\
    Jugador.base j' = (Objeto.usar obj (Jugador.base j)).2 /\
    ((Objeto.usar obj (Jugador.base j)).1 = false ->
       Jugador.base j' = Jugador.base j) /\
    Jugador.oro j' = Jugador.oro j /\
    Game.mensaje self'
    = "Usas " +:+ Objeto.nombre obj +:+ ". HP +"
      +:+ Py.str (Objeto.modificador obj) /\
    Game.animando self' = true /\
    Game.animation_timer self'
    = Timer.start (get_ticks env 0) (Game.animation_timer self) /\
    Timer.active (Game.animation_timer self') = true /\
    Timer.start_time (Game.animation_timer self') = get_ticks env 0 /\
    Timer.duration (Game.animation_timer self')
    = Timer.duration (Game.animation_timer self) /\
    (forall t,
        (Timer.update t (Game.animation_timer self')).1 = true <->
        (Timer.duration (Game.animation_timer self)
         <= inject_Z (t - get_ticks env 0) / 1000)%Q) /\
    Game.turno_jugador self' = true /\
    Game.resultado self' = None.
Proof.
  destruct (primer_consumible_primero pre post obj Hpre Hobj) as [Hp Hrm].
  unfold CombateState.handle_event. rewrite Hself. cbn [mbind option_bind].
  rewrite Hres, Hturno, Hanim, Hatk, Hitem. cbn [negb orb].
  rewrite Hj. cbn [mbind option_bind].
  rewrite Hinv, Hp.
  assert (Hu : (Objeto.usar obj (Jugador.base j)).1 = false ->
               (Objeto.usar obj (Jugador.base j)).2 = Jugador.base j).
  { unfold Objeto.usar. destruct (String.eqb _ _); [|reflexivity].
    destruct (_ || _); [discriminate|reflexivity]. }
  destruct (Objeto.usar obj (Jugador.base j)) as [u b].
  destruct (pre ++ obj :: post) as [|o inv] eqn:El;
    [destruct pre; discriminate El|].
  clear El. cbn [Jugador.inventario Jugador.con_base].
  rewrite Hinv, Hrm.
  eexists _, _. split; [reflexivity|].
  cbn [Jugador.inventario Jugador.base Jugador.oro Jugador.con_inventario
         Jugador.con_base Game.mensaje Game.animando Game.animation_timer
         Game.turno_jugador Game.resultado CombateState.con_mensaje
         CombateState.con_animando CombateState.con_animation_timer
         Timer.active Timer.start_time Timer.duration Timer.start snd].
  split; [reflexivity|]. split; [reflexivity|]. split; [exact Hu|].
  split; [reflexivity|]. split; [reflexivity|]. split; [reflexivity|].
  split; [reflexivity|]. split; [reflexivity|]. split; [reflexivity|].
  split; [reflexivity|]. split; [|split; assumption].
  intros t. unfold Timer.update, Timer.start, Py.ge.
  cbn [Timer.active Timer.start_time Timer.duration negb].
  destruct (Qle_bool _ _) eqn:E; cbn [fst].
  - apply Qle_bool_iff in E. tauto.
  - split; [discriminate|]. intros Hle. apply Qle_bool_iff in Hle.
    congruence.
Qed.

Lemma usar_objeto_consume_el_primero_testigo :
  exists (g' : Game.t) (self' : Game.CombateState) (j' : Jugador.t),
    CombateState.handle_event (H := Py.lower_latin1)
      (entorno 2000 (1 # 2) raton_en_objeto) (MOUSEBUTTONDOWN 1)
      turno_con_antidoto
    = Some g' /\
    Game.combate g' = Some self' /\
    Game.jugador g' = Some j' /\
    Jugador.inventario j' = [espada; pocion] /\
    Personaje.hp (Jugador.base j') = 90 /\
    Game.mensaje self' = "Usas Antídoto. HP +15" /\
    Game.animando self' = true /\
    Timer.active (Game.animation_timer self') = true /\
    Timer.start_time (Game.animation_timer self') = 2000.
Proof.
  edestruct (usar_objeto_consume_el_primero (H := Py.lower_latin1)
               (entorno 2000 (1 # 2) raton_en_objeto) (MOUSEBUTTONDOWN 1)
               turno_con_antidoto)
    with (pre := [espada]) (post := [pocion]) (obj := antidoto)
    as (self' & j' & Hu & Hi & _ & Hb & _ & Hm & Ha & _ & Hact & Hst & _);
    [reflexivity | reflexivity | reflexivity | reflexivity | reflexivity
    | reflexivity | reflexivity | reflexivity
    | repeat constructor; discriminate | reflexivity |].
  eexists _, self', j'. split; [exact Hu|].
  split; [reflexivity|]. split; [reflexivity|].
  split; [exact Hi|]. split; [rewrite Hb; reflexivity|].
  split; [exact Hm|]. split; [exact Ha|]. split; [exact Hact|exact Hst].
Defined.

(** ** The encounter trigger *)

Lemma remove_en_medio {A} `{EqDecision A} (x : A) (antes despues : list A) :
  x ∉ antes -> Py.remove x (antes ++ x :: despues) = antes ++ despues.
Proof.
  induction antes as [|y antes IH]; intros Hx; cbn [app Py.remove].
  - rewrite decide_True by reflexivity. reflexivity.
  - apply not_elem_of_cons in Hx as [Hxy Hx].
    rewrite decide_False by exact Hxy. rewrite IH by exact Hx. reflexivity.
Qed.

(** Walks through a computation that returned [Some]: every step that
    could have raised did not. *)
Ltac seguir H :=
  repeat match type of H with
         | (?o ≫= _) = Some _ =>
             let E := fresh "E" in
             destruct o eqn:E; cbn [mbind option_bind] in H;
             [seguir E | discriminate H]
         | (if ?c then _ else _) = Some _ =>
             let E := fresh "E" in
             destruct c eqn:E; try discriminate H
         | Some _ = Some ?t => is_var t; injection H as <-
         end.

(** The inherited update touches the flash timer and the box only. *)
Lemma personaje_update_campos (dt : Float.t) (p p' : Personaje.t) :
  Personaje.update dt p = Some p' ->
  Personaje.nombre p' = Personaje.nombre p /\
  Personaje.hp p' = Personaje.hp p /\
  Personaje.hp_max p' = Personaje.hp_max p /\
  Personaje.atk p' = Personaje.atk p /\
  Personaje.defensa p' = Personaje.defensa p /\
  Personaje.nivel p' = Personaje.nivel p /\
  Personaje.experiencia p' = Personaje.experiencia p /\
  Personaje.vivo p' = Personaje.vivo p /\
  Personaje.x p' = Personaje.x p /\
  Personaje.y p' = Personaje.y p.
Proof.
  unfold Personaje.update. intros H.
  destruct (Num.gt_0 (Personaje.hit_flash_timer p)); seguir H;
    repeat split; reflexivity.
Qed.

Lemma enemigo_update_mismo (dt : Float.t) (az : Enemigo.Azar)
    (e e' : Enemigo.t) :
  Enemigo.update dt az e = Some e' -> mismo_combatiente e e'.
Proof.
  unfold Enemigo.update. intros H.
  destruct (Personaje.update dt (Enemigo.base e)) as [b1|] eqn:Hb;
    [|discriminate H].
  destruct (personaje_update_campos _ _ _ Hb)
    as (Hn & Hhp & Hmx & Hat & Hdf & _ & _ & Hv & _).
  cbn [mbind option_bind] in H.
  unfold mismo_combatiente.
  rewrite <- Hn, <- Hhp, <- Hmx, <- Hat, <- Hdf, <- Hv.
  seguir H; try destruct (Num.le_0 _); repeat split; reflexivity.
Qed.

Lemma enemigo_update_vivo (dt : Float.t) (az : Enemigo.Azar)
    (e e' : Enemigo.t) :
  Enemigo.update dt az e = Some e' ->
  Personaje.vivo (Enemigo.base e') = Personaje.vivo (Enemigo.base e).
Proof.
  intros H. destruct (enemigo_update_mismo _ _ _ _ H)
    as (_ & _ & _ & _ & _ & Hv & _). symmetry. exact Hv.
Qed.

Lemma avanzar_nil (env : Entorno) (dt : Float.t) (o : option Enemigo.t)
    (q : nat) :
  avanzar env dt [] q <$> o = o.
Proof. destruct o; reflexivity. Qed.

Lemma avanzar_mismo (env : Entorno) (dt : Float.t) (vistos : list nat)
    (q : nat) (e : Enemigo.t) :
  mismo_combatiente e (avanzar env dt vistos q e).
Proof.
  unfold avanzar.
  destruct (_ && _); [|unfold mismo_combatiente; repeat split; reflexivity].
  destruct (Enemigo.update dt (wander env q) e) as [e'|] eqn:E.
  - exact (enemigo_update_mismo _ _ _ _ E).
  - unfold mismo_combatiente. repeat split; reflexivity.
Qed.

(** What [pasa] and [solapa] say of a live enemy. *)
Lemma pasa_vivo (env : Entorno) (dt : Float.t) (j : Jugador.t) (q : nat)
    (e : Enemigo.t) :
  Personaje.vivo (Enemigo.base e) = true ->
  pasa env dt j q e = true ->
  exists e', Enemigo.update dt (wander env q) e = Some e' /\
             Rect.colliderect (Personaje.rect (Jugador.base j))
                              (Personaje.rect (Enemigo.base e')) = false.
Proof.
  unfold pasa. intros -> H. cbn [negb orb] in H.
  destruct (Enemigo.update dt (wander env q) e) as [e'|]; [|discriminate H].
  exists e'. split; [reflexivity|].
  destruct (Rect.colliderect _ _); [discriminate H|reflexivity].
Qed.

Lemma solapa_vivo (env : Entorno) (dt : Float.t) (j : Jugador.t) (q : nat)
    (e : Enemigo.t) :
  solapa env dt j q e = true ->
  Personaje.vivo (Enemigo.base e) = true /\
  exists e', Enemigo.update dt (wander env q) e = Some e' /\
             Rect.colliderect (Personaje.rect (Jugador.base j))
                              (Personaje.rect (Enemigo.base e')) = true.
Proof.
  unfold solapa. intros H. apply andb_true_iff in H as [Hv H].
  split; [exact Hv|].
  destruct (Enemigo.update dt (wander env q) e) as [e'|]; [|discriminate H].
  exists e'. split; [reflexivity|exact H].
Qed.

Lemma bucle_prefijo (env : Entorno) (dt : Float.t) (j : Jugador.t)
    (pre : list nat) :
  forall (g : Game.t) (kept resto : list nat) (ks : Game.Keys),
    Game.jugador g = Some j ->
    Game.jugando g
    = Some {| Game.enemigos := kept ++ pre ++ resto; Game.keys := ks |} ->
    NoDup (kept ++ pre ++ resto) ->
    Forall (fun q => exists e, Game.objetos g !! q = Some e /\
                               pasa env dt j q e = true) pre ->
    exists g1,
      JugandoState.bucle env dt (pre ++ resto) g
      = JugandoState.bucle env dt resto g1 /\
      Game.jugando g1
      = Some {| Game.enemigos :=
                  kept ++ List.filter (vivo_en (Game.objetos g)) pre ++ resto;
                Game.keys := ks |} /\
      (forall q, Game.objetos g1 !! q
                 = avanzar env dt pre q <$> Game.objetos g !! q) /\
      Game.jugador g1 = Some j /\
      Game.current_state g1 = Game.current_state g /\
      Game.enemigo_actual g1 = Game.enemigo_actual g /\
      Game.combate g1 = Game.combate g /\
      Game.salida g1 = Game.salida g.
Proof.
  induction pre as [|q0 pre IH]; intros g kept resto ks Hj Hself Hnd Hpre.
  - exists g. cbn [app List.filter]. split; [reflexivity|].
    split; [exact Hself|]. split; [intros q; symmetry; apply avanzar_nil|].
    repeat split; first [reflexivity | assumption].
  - apply Forall_cons in Hpre as [(e0 & He0 & Hs0) Hpre].
    assert (Hq0k : q0 ∉ kept).
    { apply NoDup_app in Hnd as (_ & Hd & _). intros Hin.
      apply (Hd _ Hin). apply elem_of_app. left. apply elem_of_cons. tauto. }
    assert (Hq0p : q0 ∉ pre).
    { apply NoDup_app in Hnd as (_ & _ & Hnd).
      cbn [app] in Hnd. apply NoDup_cons in Hnd as [Hn _].
      intros Hin. apply Hn. apply elem_of_app. tauto. }
    cbn [app JugandoState.bucle]. rewrite He0. cbn [mbind option_bind].
    destruct (Personaje.vivo (Enemigo.base e0)) eqn:Hv0; cbn [negb].
    + (* a live enemy that does not overlap: updated and kept *)
      destruct (pasa_vivo env dt j q0 e0 Hv0 Hs0) as (e0' & Hup & Hcol).
      rewrite Hup. cbn [mbind option_bind].
      cbn [Game.jugador Game.con_objetos]. rewrite Hj.
      cbn [mbind option_bind]. rewrite Hcol.
      set (g0 := Game.con_objetos _ g).
      destruct (IH g0 (kept ++ [q0]) resto ks) as (g1 & Hb & Hr & Ho & Hrest).
      * exact Hj.
      * cbn. rewrite Hself. rewrite <- app_assoc. reflexivity.
      * rewrite <- app_assoc. exact Hnd.
      * apply Forall_forall. intros q Hq.
        rewrite Forall_forall in Hpre. destruct (Hpre q Hq) as (e & He & Hs).
        exists e. split; [|exact Hs]. cbn.
        rewrite list_lookup_insert_ne; [exact He|]. intros ->. contradiction.
      * exists g1. split; [exact Hb|]. split; [|split; [|exact Hrest]].
        -- rewrite Hr. rewrite <- app_assoc. cbn [app List.filter].
           unfold vivo_en at 2. rewrite He0, Hv0. cbn [app].
           rewrite (List.filter_ext_in (vivo_en (Game.objetos g0))
                      (vivo_en (Game.objetos g)) pre); [reflexivity|].
           intros q Hq. unfold vivo_en. cbn.
           rewrite list_lookup_insert_ne; [reflexivity|].
           intros ->. apply Hq0p. apply list_elem_of_In. exact Hq.
        -- intros q. rewrite Ho. cbn.
           destruct (decide (q = q0)) as [->|Hne].
           ++ rewrite list_lookup_insert_eq by (eapply lookup_lt_Some; eauto).
              rewrite He0. cbn. unfold avanzar.
              rewrite (enemigo_update_vivo _ _ _ _ Hup), Hv0.
              rewrite (bool_decide_eq_false_2 _ Hq0p).
              rewrite bool_decide_eq_true_2 by (apply elem_of_cons; tauto).
              cbn [andb]. rewrite Hup. reflexivity.
           ++ rewrite list_lookup_insert_ne by congruence.
              destruct (Game.objetos g !! q) as [e|]; [|reflexivity]. cbn.
              unfold avanzar. f_equal.
              rewrite (bool_decide_ext (q ∈ q0 :: pre) (q ∈ pre));
                [reflexivity|]. rewrite elem_of_cons. tauto.
    + (* a dead enemy: removed from the roster *)
      set (g0 := JugandoState.quitar q0 g).
      assert (Hself0 : Game.jugando g0
                = Some {| Game.enemigos := kept ++ pre ++ resto;
                          Game.keys := ks |}).
      { unfold g0, JugandoState.quitar. rewrite Hself. cbn.
        rewrite remove_en_medio by exact Hq0k. reflexivity. }
      assert (Hobj0 : Game.objetos g0 = Game.objetos g).
      { unfold g0, JugandoState.quitar. rewrite Hself. reflexivity. }
      destruct (IH g0 kept resto ks) as (g1 & Hb & Hr & Ho & Hrest).
      * unfold g0, JugandoState.quitar. rewrite Hself. exact Hj.
      * exact Hself0.
      * apply NoDup_app in Hnd as (Hk & Hd & Hnd).
        cbn [app] in Hnd. apply NoDup_cons in Hnd as [_ Hnd].
        apply NoDup_app. split; [exact Hk|]. split; [|exact Hnd].
        intros q Hq Hin. apply (Hd q Hq). apply elem_of_cons. tauto.
      * rewrite Hobj0. exact Hpre.
      * exists g1. split; [exact Hb|]. split; [|split].
        -- rewrite Hr, Hobj0. cbn [List.filter]. unfold vivo_en at 2.
           rewrite He0, Hv0. reflexivity.
        -- intros q. rewrite Ho, Hobj0.
           destruct (Game.objetos g !! q) as [e|] eqn:Eq; [|reflexivity].
           cbn. unfold avanzar. f_equal.
           destruct (decide (q = q0)) as [->|Hne].
           ++ assert (e = e0) as -> by congruence. rewrite Hv0.
              rewrite !andb_false_r. reflexivity.
           ++ rewrite (bool_decide_ext (q ∈ q0 :: pre) (q ∈ pre));
                [reflexivity|]. rewrite elem_of_cons. tauto.
        -- unfold g0, JugandoState.quitar in Hrest. rewrite Hself in Hrest.
           exact Hrest.
Qed.

Lemma update_es_bucle (env : Entorno) (dt : Float.t) (g : Game.t)
    (self : Game.JugandoState) (j : Jugador.t) :
  Game.jugador g = Some j ->
  Game.jugando g = Some self ->
  JugandoState.update env dt g
  = j' ← jugador_tras_mover dt (Game.keys self) j;
    JugandoState.bucle env dt (Game.enemigos self)
      (Game.con_jugador (Some j') g).
Proof.
  intros Hj Hself. unfold JugandoState.update, jugador_tras_mover.
  rewrite Hj, Hself. cbn [mbind option_bind].
  destruct (if _ && _ then _ else _) as [d|]; [|reflexivity].
  cbn [mbind option_bind].
  destruct (Jugador.mover _ _ _ _) as [j1|]; [|reflexivity].
  cbn [mbind option_bind].
  destruct (Jugador.update dt j1) as [j2|]; reflexivity.
Qed.

(** The scan up to and including the first overlap. *)
Lemma bucle_encuentro (env : Entorno) (dt : Float.t) (j : Jugador.t)
    (g : Game.t) (pre post : list nat) (r : nat) (e : Enemigo.t)
    (ks : Game.Keys) :
  Game.current_state g = Some JUGANDO ->
  Game.jugador g = Some j ->
  Game.jugando g
  = Some {| Game.enemigos := pre ++ r :: post; Game.keys := ks |} ->
  NoDup (pre ++ r :: post) ->
  Forall (fun q => exists e, Game.objetos g !! q = Some e /\
                             pasa env dt j q e = true) pre ->
  Game.objetos g !! r = Some e ->
  solapa env dt j r e = true ->
  exists g',
    JugandoState.bucle env dt (pre ++ r :: post) g = Some g' /\
    Game.enemigo_actual g' = Some r /\
    Game.current_state g' = Some COMBATE /\
    Game.combate g' = Game.combate (Game.CombateState_enter g) /\
    Game.jugando g'
    = Some {| Game.enemigos :=
                List.filter (vivo_en (Game.objetos g)) pre ++ r :: post;
              Game.keys := ks |} /\
    (forall q, Game.objetos g' !! q
               = avanzar env dt (pre ++ [r]) q <$> Game.objetos g !! q) /\
    Game.jugador g' = Some j /\
    Game.salida g' = Game.salida g.
Proof.
  intros Hstate Hj Hself Hnd Hpre He Hsol.
  destruct (bucle_prefijo env dt j pre g [] (r :: post) ks)
    as (g1 & Hb & Hr & Ho & Hj1 & Hc1 & Ha1 & Hk1 & Hs1);
    [exact Hj | exact Hself | exact Hnd | exact Hpre |].
  assert (Hrpre : r ∉ pre).
  { apply NoDup_app in Hnd as (_ & Hd & _). intros Hin.
    apply (Hd _ Hin). apply elem_of_cons. tauto. }
  destruct (solapa_vivo _ _ _ _ _ Hsol) as (Hv & e' & Hup & Hcol).
  assert (Hr1 : Game.objetos g1 !! r = Some e).
  { rewrite Ho, He. cbn. unfold avanzar.
    rewrite (bool_decide_eq_false_2 _ Hrpre). reflexivity. }
  rewrite Hb. cbn [JugandoState.bucle]. rewrite Hr1.
  cbn [mbind option_bind]. rewrite Hv. cbn [negb].
  rewrite Hup. cbn [mbind option_bind].
  cbn [Game.jugador Game.con_objetos]. rewrite Hj1.
  cbn [mbind option_bind]. rewrite Hcol.
  unfold Game.change_state.
  cbn [Game.current_state Game.con_enemigo_actual Game.con_objetos].
  rewrite Hc1, Hstate. eexists. split; [reflexivity|]. cbn.
  repeat split; try reflexivity; try assumption.
  intros q. destruct (decide (q = r)) as [-> | Hne].
  - rewrite list_lookup_insert_eq by (eapply lookup_lt_Some; eauto).
    rewrite He. cbn. unfold avanzar. rewrite Hv.
    rewrite bool_decide_eq_true_2
      by (apply elem_of_app; right; apply list_elem_of_singleton;
          reflexivity).
    cbn [andb]. rewrite Hup. reflexivity.
  - rewrite list_lookup_insert_ne by congruence. rewrite Ho.
    destruct (Game.objetos g !! q) as [eq|]; [|reflexivity]. cbn.
    unfold avanzar. f_equal.
    rewrite (bool_decide_ext (q ∈ pre ++ [r]) (q ∈ pre)); [reflexivity|].
    rewrite elem_of_app, list_elem_of_singleton. tauto.
Qed.

(** Positions are floats and the box follows them by truncation: five
    ticks of 16 ms at 300 px/s take the player from x = 640 to the float
    just below 664, and the box to 663. *)
Lemma cinco_ticks_a_la_derecha :
  exists g' j',
    ticks 5 (entorno 0 0 (0, 0)) un_tick hacia_la_derecha = Some g' /\
    Game.jugador g' = Some j' /\
    Personaje.x (Jugador.base j')
    = SpecFloat.S754_finite false 5840605766746110 (-43) /\
    Rect.x (Personaje.rect (Jugador.base j')) = 663 /\
    Rect.y (Personaje.rect (Jugador.base j')) = 360.
Proof.
  eexists _, _. split; [vm_compute; reflexivity|].
  repeat split; reflexivity.
Qed.

(** The box update raises beyond the range of a box, and on a position
    that is no number. *)
Lemma personaje_update_fuera_de_rango (dt : Float.t) (p : Personaje.t) :
  Personaje.update dt
    (Personaje.con_posicion (Float.of_Z (2 ^ 31)) (Personaje.y p) p) = None /\
  Personaje.update dt
    (Personaje.con_posicion SpecFloat.S754_nan (Personaje.y p) p) = None.
Proof.
  unfold Personaje.update. split.
  - destruct (Num.gt_0 _); [destruct (Num.sub _ _)|]; reflexivity.
  - destruct (Num.gt_0 _); [destruct (Num.sub _ _)|]; reflexivity.
Qed.

(** C9, as stated, fails on two points.  The removal of dead enemies stops
    at the encounter: with a bandit that overlaps the player first in the
    roster and a dead wolf after it, the tick enters combat and the dead
    wolf is still in the roster.  And the first of two enemies does not
    stay unchanged when the second is met: its own update has moved it,
    here from x = 100 to the float next to 100.8. *)
Lemma encuentro_deja_muertos_y_mueve :
  (exists g' lobo',
     JugandoState.update (entorno 5000 (1 # 2) (0, 0)) un_tick
       bandido_y_lobo_caido = Some g' /\
     Game.current_state g' = Some COMBATE /\
     Game.enemigo_actual g' = Some 0%nat /\
     Game.enemigos <$> Game.jugando g' = Some [0%nat; 1%nat] /\
     Game.objetos g' !! 1%nat = Some lobo' /\
     Personaje.vivo (Enemigo.base lobo') = false) /\
  (exists g' lobo',
     JugandoState.update (entorno 5000 (1 # 2) (0, 0)) un_tick dos_enemigos
     = Some g' /\
     Game.enemigo_actual g' = Some 1%nat /\
     Game.objetos g' !! 0%nat = Some lobo' /\
     lobo' <> lobo_salvaje 100 100 /\
     Personaje.x (Enemigo.base lobo')
     = Float.add (Float.of_Z 100) (Float.mul (Float.of_Z 50) un_tick)).
Proof.
  split.
  - eexists _, _. split; [vm_compute; reflexivity|].
    repeat split; reflexivity.
  - eexists _, _. split; [vm_compute; reflexivity|].
    split; [reflexivity|]. split; [reflexivity|].
    split; [|vm_compute; reflexivity].
    vm_compute. intros H. discriminate H.
Qed.

(** C9, amended.  One exploration tick, once the player has moved, scans
    the roster in order.  Each dead enemy met is removed from the roster
    and each live one gets its update; the first live enemy whose box then
    overlaps the player's becomes the current enemy and the game changes
    to combat, which ends the scan: the enemies after it are neither
    updated nor removed in that tick, dead ones included, and those before
    it that are alive stay in the roster, moved by their update but with
    their combat attributes unchanged.  Without an overlap every dead
    enemy is removed and the game stays in exploration.  All of this for a
    tick in which the updates of the player and of the enemies the scan
    goes past do not raise. *)
Theorem encuentro_en_orden_de_lista
    (env : Entorno) (dt : Float.t) (g : Game.t) (self : Game.JugandoState)
    (j j' : Jugador.t)
    (Hstate : Game.current_state g = Some JUGANDO)
    (Hj : Game.jugador g = Some j)
    (Hself : Game.jugando g = Some self)
    (Hnd : NoDup (Game.enemigos self))
    (Hmov : jugador_tras_mover dt (Game.keys self) j = Some j') :
  (forall (pre post : list nat) (r : nat) (e : Enemigo.t),
      Game.enemigos self = pre ++ r :: post ->
      Forall (fun q => exists eq,
                  Game.objetos g !! q = Some eq /\
                  pasa env dt j' q eq = true) pre ->
      Game.objetos g !! r = Some e ->
      solapa env dt j' r e = true ->
      exists g',
        JugandoState.update env dt g = Some g' /\
        Game.enemigo_actual g' = Some r /\
        Game.current_state g' = Some COMBATE /\
        Game.combate g' = Game.combate (Game.CombateState_enter g) /\
        Game.enemigos <$> Game.jugando g'
        = Some (List.filter (vivo_en (Game.objetos g)) pre ++ r :: post) /\
        (forall q, Game.objetos g' !! q
                   = avanzar env dt (pre ++ [r]) q <$> Game.objetos g !! q) /\
        (forall q, q ∈ post -> Game.objetos g' !! q = Game.objetos g !! q) /\
        (forall q eq, Game.objetos g !! q = Some eq ->
                      exists eq', Game.objetos g' !! q = Some eq' /\
                                  mismo_combatiente eq eq') /\
        Game.jugador g' = Some j') /\
  (Forall (fun q => exists eq,
               Game.objetos g !! q = Some eq /\
               pasa env dt j' q eq = true) (Game.enemigos self) ->
   exists g',
     JugandoState.update env dt g = Some g' /\
     Game.enemigo_actual g' = Game.enemigo_actual g /\
     Game.current_state g' = Some JUGANDO /\
     Game.combate g' = Game.combate g /\
     Game.enemigos <$> Game.jugando g'
     = Some (List.filter (vivo_en (Game.objetos g)) (Game.enemigos self)) /\
     (forall q, Game.objetos g' !! q
                = avanzar env dt (Game.enemigos self) q
                  <$> Game.objetos g !! q) /\
     Game.jugador g' = Some j').
Proof.
  rewrite (update_es_bucle env dt g self j Hj Hself), Hmov.
  cbn [mbind option_bind].
  set (gm := Game.con_jugador (Some j') g).
  destruct self as [roster ks]. cbn [Game.enemigos Game.keys] in *.
  split.
  - intros pre post r e Hroster Hpre He Hsol. subst roster.
    destruct (bucle_encuentro env dt j' gm pre post r e ks)
      as (g' & Hb & Hea & Hcs & Hcm & Hjg & Ho & Hj1 & Hs1);
      [exact Hstate | reflexivity | exact Hself | exact Hnd | exact Hpre
      | exact He | exact Hsol |].
    exists g'. split; [exact Hb|]. split; [exact Hea|].
    split; [exact Hcs|]. split; [exact Hcm|].
    split; [rewrite Hjg; reflexivity|]. split; [exact Ho|].
    split; [|split; [|exact Hj1]].
    + intros q Hq. rewrite Ho. cbn [Game.objetos Game.con_jugador gm].
      destruct (Game.objetos g !! q) as [eq|]; [|reflexivity]. cbn.
      unfold avanzar. rewrite bool_decide_eq_false_2; [reflexivity|].
      intros Hin. apply NoDup_app in Hnd as (_ & Hd & Hnd).
      apply elem_of_app in Hin as [Hin|Hin].
      * apply (Hd q Hin). apply elem_of_cons. right. exact Hq.
      * apply list_elem_of_singleton in Hin. subst q.
        apply NoDup_cons in Hnd as [Hn _]. contradiction.
    + intros q eq Hq. rewrite Ho. cbn [Game.objetos Game.con_jugador gm].
      rewrite Hq. cbn. eexists. split; [reflexivity|]. apply avanzar_mismo.
  - intros Hall.
    destruct (bucle_prefijo env dt j' roster gm [] [] ks)
      as (g1 & Hb & Hr & Ho & Hj1 & Hc1 & Ha1 & Hk1 & Hs1);
      [reflexivity | cbn; rewrite app_nil_r; exact Hself
      | cbn; rewrite app_nil_r; exact Hnd | exact Hall |].
    rewrite app_nil_r in Hb, Hr. cbn [app] in Hr.
    exists g1. split; [exact Hb|]. rewrite Hr.
    repeat split; try assumption.
    rewrite Hc1. exact Hstate.
Qed.

Lemma encuentro_en_orden_de_lista_testigo :
  exists g',
    JugandoState.update (entorno 5000 (1 # 2) (0, 0)) un_tick dos_enemigos
    = Some g' /\
    Game.enemigo_actual g' = Some 1%nat /\
    Game.current_state g' = Some COMBATE /\
    Game.enemigos <$> Game.jugando g' = Some [0%nat; 1%nat] /\
    (exists lobo', Game.objetos g' !! 0%nat = Some lobo' /\
                   mismo_combatiente (lobo_salvaje 100 100) lobo').
Proof.
  destruct (encuentro_en_orden_de_lista
              (entorno 5000 (1 # 2) (0, 0)) un_tick dos_enemigos
              {| Game.enemigos := [0%nat; 1%nat];
                 Game.keys := {| Game.up := false; Game.down := false;
                                 Game.left := false; Game.right := false |} |}
              guerrero guerrero eq_refl eq_refl eq_refl
              ltac:(apply NoDup_cons; split;
                      [rewrite list_elem_of_singleton; discriminate
                      |apply NoDup_singleton])
              ltac:(vm_compute; reflexivity))
    as [Hcaso _].
  destruct (Hcaso [0%nat] [] 1%nat (bandido 660 380))
    as (g' & Hu & Ha & Hc & _ & Hr & _ & _ & Hm & _).
  - reflexivity.
  - constructor; [|constructor]. eexists. split; [reflexivity|].
    vm_compute. reflexivity.
  - reflexivity.
  - vm_compute. reflexivity.
  - exists g'. repeat split; try assumption. apply Hm. reflexivity.
Defined.
(** * Further properties *)

(** ** Hits and healing *)

Lemma golpes_hp_cota (ds : list Z) (p : Personaje.t) :
  0 <= Personaje.hp p ->
  0 <= Personaje.hp (golpes ds p)
    <= Z.max 0 (Personaje.hp p - Z.of_nat (List.length ds)).
Proof.
  revert p. induction ds as [|d ds IH]; intros p Hp.
  - cbn. lia.
  - cbn [golpes fold_left List.length].
    change (fold_left _ ds ?q) with (golpes ds q).
    pose proof (recibir_dano_hp d p) as Hh.
    specialize (IH (Personaje.recibir_dano d p).1.2 ltac:(lia)). lia.
Qed.

Lemma golpes_vivo (ds : list Z) (p : Personaje.t) :
  Personaje.vivo (golpes ds p) = true -> Personaje.vivo p = true.
Proof.
  revert p. induction ds as [|d ds IH]; intros p; [tauto|].
  cbn [golpes fold_left]. change (fold_left _ ds ?q) with (golpes ds q).
  intros Hv. apply IH in Hv. rewrite recibir_dano_vivo in Hv.
  apply andb_true_iff in Hv. tauto.
Qed.

Lemma golpes_vivo_hp (ds : list Z) (p : Personaje.t) :
  ds <> [] -> Personaje.vivo (golpes ds p) = true ->
  Personaje.hp (golpes ds p) <> 0.
Proof.
  revert p. induction ds as [|d ds IH]; intros p Hne; [contradiction|].
  cbn [golpes fold_left]. change (fold_left _ ds ?q) with (golpes ds q).
  destruct ds as [|d' ds].
  - cbn. rewrite recibir_dano_vivo. intros Hv.
    apply andb_true_iff in Hv as [_ Hv]. apply negb_true_iff in Hv.
    apply Z.eqb_neq in Hv. exact Hv.
  - apply IH. discriminate.
Qed.

(** X1. Every hit removes at least one point: after [n] hits of any
    strength an entity that had [hp >= 0] has at most [max(0, hp - n)]
    left, so as many hits as it has points (and at least one) leave it
    with hp 0 and dead, whatever its defense. *)
Theorem tantos_golpes_como_puntos_matan (ds : list Z) (p : Personaje.t)
    (Hhp : 0 <= Personaje.hp p)
    (Hn : Z.max 1 (Personaje.hp p) <= Z.of_nat (List.length ds)) :
  Personaje.hp (golpes ds p) = 0 /\ Personaje.vivo (golpes ds p) = false.
Proof.
  pose proof (golpes_hp_cota ds p Hhp) as Hc.
  assert (H0 : Personaje.hp (golpes ds p) = 0) by lia.
  split; [exact H0|].
  destruct (Personaje.vivo (golpes ds p)) eqn:Hv; [|reflexivity].
  exfalso. apply (golpes_vivo_hp ds p); [|exact Hv|exact H0].
  intros ->. cbn in Hn. lia.
Qed.

Lemma tantos_golpes_como_puntos_matan_testigo :
  Personaje.hp (golpes (repeat 0 40) (Enemigo.base (lobo_salvaje 100 100)))
  = 0 /\
  Personaje.vivo (golpes (repeat 0 40) (Enemigo.base (lobo_salvaje 100 100)))
  = false.
Proof.
  apply (tantos_golpes_como_puntos_matan
           (repeat 0 40) (Enemigo.base (lobo_salvaje 100 100)));
    vm_compute; discriminate.
Defined.

(** X2. Healing is capped and composes: [curarse] never leaves hp above
    hp_max; healing by [a] and then by a non-negative [b] is healing by
    [a + b]; and healing an entity at full health by a non-negative amount
    changes nothing. *)
Theorem curarse_compone (a b : Z) (p : Personaje.t) (Hb : 0 <= b) :
  Personaje.hp (Personaje.curarse a p) <= Personaje.hp_max p /\
  Personaje.curarse b (Personaje.curarse a p) = Personaje.curarse (a + b) p /\
  (Personaje.hp p = Personaje.hp_max p -> Personaje.curarse b p = p).
Proof.
  split; [cbn; lia|]. split.
  - unfold Personaje.curarse, Personaje.con_hp. cbn. f_equal. lia.
  - intros Hfull. destruct p. unfold Personaje.curarse, Personaje.con_hp.
    cbn in *. f_equal. lia.
Qed.

Lemma curarse_compone_testigo :
  Personaje.curarse 20 (Personaje.curarse 20 (Jugador.base (herido 35 guerrero)))
  = Personaje.curarse 40 (Jugador.base (herido 35 guerrero)).
Proof.
  apply (curarse_compone 20 20 (Jugador.base (herido 35 guerrero))). lia.
Defined.


(** ** The critical marker of the attack message *)




(** ** The timer *)

(** X5. A timer fires once: after [start] at tick [t0], [update] at tick
    [t] answers true exactly when [(t - t0) / 1000] has reached the
    duration (500 ms for the combat delay of 0.5); having fired, it
    is inactive and answers false at every later tick until started again;
    until it fires it is left as it was; and a timer never started never
    fires. *)
Theorem timer_dispara_una_vez (tm : Timer.t) (t0 t t' : Z) :
  ((Timer.update t (Timer.start t0 tm)).1 = true <->
     (Timer.duration tm <= inject_Z (t - t0) / 1000)%Q) /\
  ((Timer.update t (Timer.start t0 tm)).1 = true ->
     Timer.active (Timer.update t (Timer.start t0 tm)).2 = false /\
     Timer.update t' (Timer.update t (Timer.start t0 tm)).2
     = (false, (Timer.update t (Timer.start t0 tm)).2)) /\
  ((Timer.update t (Timer.start t0 tm)).1 = false ->
     (Timer.update t (Timer.start t0 tm)).2 = Timer.start t0 tm) /\
  ((Timer.update t (Timer.start t0 (Timer.init (5 # 10)))).1 = true <->
     500 <= t - t0) /\
  Timer.update t (Timer.init (Timer.duration tm))
  = (false, Timer.init (Timer.duration tm)).
Proof.
  unfold Timer.update, Timer.start, Timer.init, Py.ge.
  cbn [Timer.active Timer.duration Timer.start_time negb].
  split; [|split; [|split; [|split]]].
  - destruct (Qle_bool _ _) eqn:E; cbn [fst].
    + apply Qle_bool_iff in E. tauto.
    + split; [discriminate|]. intros Hq. apply Qle_bool_iff in Hq. congruence.
  - destruct (Qle_bool _ _); cbn; [split; reflexivity|discriminate].
  - destruct (Qle_bool _ _); cbn; [discriminate|reflexivity].
  - unfold Qle_bool. cbn. change (Z.pos (1 * 1000)) with 1000.
    destruct (Z.leb_spec (5 * 1000) ((t - t0) * 1 * 10)); cbn [fst];
      split; try discriminate; try reflexivity; lia.
  - reflexivity.
Qed.

(** ** Changing state *)

Lemma jugando_enter_marco (env : Entorno) (g : Game.t) :
  Game.current_state (Game.JugandoState_enter env g) = Game.current_state g /\
  Game.enemigo_actual (Game.JugandoState_enter env g)
  = Game.enemigo_actual g /\
  Game.jugador (Game.JugandoState_enter env g) = Game.jugador g /\
  Game.combate (Game.JugandoState_enter env g) = Game.combate g /\
  Game.salida (Game.JugandoState_enter env g) = Game.salida g.
Proof.
  unfold Game.JugandoState_enter.
  destruct (Game.jugando g) as [self|] eqn:E.
  - rewrite E. repeat split; reflexivity.
  - destruct (Game._generar_enemigos env (Game.objetos g, []))
      as [objs refs]. repeat split; reflexivity.
Qed.

(** X6. Leaving combat always clears the current enemy: from combat,
    [change_state] to any state that exists ends in that state with
    [enemigo_actual] empty, and keeps the player and what was printed;
    [change_state] to VICTORIA, for which no state object is registered,
    fails from every state. *)
Theorem salir_de_combate_limpia_enemigo (env : Entorno)
    (new_state : GameState) (g : Game.t)
    (Hst : Game.current_state g = Some COMBATE) :
  (forall g0, Game.change_state env VICTORIA g0 = None) /\
  (new_state <> VICTORIA ->
   exists g',
     Game.change_state env new_state g = Some g' /\
     Game.current_state g' = Some new_state /\
     Game.enemigo_actual g' = None /\
     Game.jugador g' = Game.jugador g /\
     Game.salida g' = Game.salida g).
Proof.
  split; [reflexivity|]. intros Hnew.
  unfold Game.change_state. rewrite Hst.
  destruct new_state; try contradiction; eexists; (split; [reflexivity|]);
    cbn [Game.enter Game.exit]; try (repeat split; reflexivity).
  destruct (jugando_enter_marco env
              (Game.con_current_state (Some JUGANDO)
                 (Game.CombateState_exit g)))
    as (-> & -> & -> & _ & ->).
  repeat split; reflexivity.
Qed.

Lemma salir_de_combate_limpia_enemigo_testigo :
  exists g',
    Game.change_state (entorno 0 (1 # 2) (0, 0)) GAME_OVER
      combate_ambos_muertos = Some g' /\
    Game.current_state g' = Some GAME_OVER /\
    Game.enemigo_actual g' = None.
Proof.
  destruct (salir_de_combate_limpia_enemigo (entorno 0 (1 # 2) (0, 0))
              GAME_OVER combate_ambos_muertos eq_refl) as [_ Hc].
  destruct (Hc ltac:(discriminate)) as (g' & Hg & Hs & He & _).
  exists g'. repeat split; assumption.
Defined.

(** ** Entering exploration *)

Lemma generar_uno_plantilla (env : Entorno) (i : nat)
    (acc : list Enemigo.t * list nat) :
  Game.generar_uno env i acc
  = (acc.1 ++ [plantilla (generar env i).1.1 (generar env i).1.2
                         (generar env i).2],
     acc.2 ++ [List.length acc.1]).
Proof.
  unfold Game.generar_uno, plantilla.
  destruct (generar env i) as [[idx x0] y0]. cbn [fst snd].
  pose proof (Nat.mod_upper_bound idx 2 ltac:(lia)) as Hm.
  destruct (idx mod 2)%nat as [|[|n]]; [reflexivity|reflexivity|lia].
Qed.

Lemma plantilla_sana (idx : nat) (x y : Z) :
  let e := plantilla idx x y in
  Personaje.vivo (Enemigo.base e) = true /\
  invariante (Enemigo.base e) /\
  Personaje.hp (Enemigo.base e) = Personaje.hp_max (Enemigo.base e) /\
  Personaje.rect (Enemigo.base e) = Rect.mk x y 50 50 /\
  ((Personaje.nombre (Enemigo.base e), Personaje.hp (Enemigo.base e),
    Personaje.atk (Enemigo.base e), Personaje.defensa (Enemigo.base e),
    Enemigo.recompensa e)
   = ("Lobo Salvaje", 40, 10, 2,
      {| Enemigo.oro := 20; Enemigo.experiencia := 50 |}) \/
   (Personaje.nombre (Enemigo.base e), Personaje.hp (Enemigo.base e),
    Personaje.atk (Enemigo.base e), Personaje.defensa (Enemigo.base e),
    Enemigo.recompensa e)
   = ("Bandido", 60, 15, 5,
      {| Enemigo.oro := 40; Enemigo.experiencia := 80 |})).
Proof.
  unfold plantilla, invariante.
  destruct (_ =? _)%nat; cbn; repeat split; try reflexivity; try lia;
    tauto.
Qed.

(** X7. The roster is generated once.  The first time exploration is
    entered five enemies are appended to the store, each a live wolf or
    bandit at full health with its template's stats, and the roster is
    their five fresh references in order, all distinct; entering again
    keeps the roster and the store as they are.  Every entry releases the
    four movement keys. *)
Theorem roster_generado_una_vez (env : Entorno) (g : Game.t) :
  let g' := Game.JugandoState_enter env g in
  let sueltas := {| Game.up := false; Game.down := false;
                    Game.left := false; Game.right := false |} in
  (Game.jugando g = None ->
     Game.objetos g' = Game.objetos g ++ generados env /\
     Game.jugando g'
     = Some {| Game.enemigos := seq (List.length (Game.objetos g)) 5;
               Game.keys := sueltas |} /\
     NoDup (seq (List.length (Game.objetos g)) 5) /\
     Forall (fun q => exists e, Game.objetos g' !! q = Some e /\
                                Personaje.vivo (Enemigo.base e) = true /\
                                invariante (Enemigo.base e))
            (seq (List.length (Game.objetos g)) 5)) /\
  (forall self, Game.jugando g = Some self ->
     Game.objetos g' = Game.objetos g /\
     Game.jugando g'
     = Some {| Game.enemigos := Game.enemigos self;
               Game.keys := sueltas |}).
Proof.
  cbv zeta. unfold Game.JugandoState_enter. split.
  - intros Hn. rewrite Hn. unfold Game._generar_enemigos.
    cbn [seq fold_left]. rewrite !generar_uno_plantilla. cbn [fst snd].
    rewrite !length_app. cbn [List.length app].
    set (n := List.length (Game.objetos g)).
    replace (n + 1)%nat with (S n) by lia.
    replace (S n + 1)%nat with (S (S n)) by lia.
    replace (S (S n) + 1)%nat with (S (S (S n))) by lia.
    replace (S (S (S n)) + 1)%nat with (S (S (S (S n)))) by lia.
    cbn. rewrite <- !app_assoc. cbn [app].
    split; [reflexivity|]. split; [reflexivity|].
    split; [exact (NoDup_seq n 5)|].
    apply Forall_forall. intros q Hq.
    change (q ∈ seq n 5) in Hq. apply elem_of_seq in Hq.
    assert (Hk : exists k, (k < 5)%nat /\ q = (n + k)%nat).
    { exists (q - n)%nat. lia. }
    destruct Hk as (k & Hk & ->).
    rewrite lookup_app_r by (fold n; lia).
    fold n. replace (n + k - n)%nat with k by lia.
    destruct k as [|[|[|[|[|k]]]]]; try lia; cbn;
      eexists; (split; [reflexivity|]);
      split; apply plantilla_sana.
  - intros self Hs. rewrite Hs. cbn. rewrite Hs. split; reflexivity.
Qed.

(** ** An exploration tick, whatever the roster *)

Lemma primer_solape (P : nat -> bool) (l : list nat) :
  Forall (fun q => P q = false) l \/
  exists pre r post,
    l = pre ++ r :: post /\ Forall (fun q => P q = false) pre /\ P r = true.
Proof.
  induction l as [|q l IH]; [left; constructor|].
  destruct (P q) eqn:Hq.
  - right. exists [], q, l. repeat split; [constructor|exact Hq].
  - destruct IH as [IH|(pre & r & post & -> & Hpre & Hr)].
    + left. constructor; assumption.
    + right. exists (q :: pre), r, post.
      repeat split; [constructor; assumption|exact Hr].
Qed.

Lemma jugador_tras_mover_mismo (dt : Float.t) (k : Game.Keys)
    (j j' : Jugador.t) :
  jugador_tras_mover dt k j = Some j' -> mismo_heroe j j'.
Proof.
  unfold jugador_tras_mover, Jugador.update, Jugador.mover. intros H.
  destruct (if _ && _ then _ else _) as [d|]; [|discriminate H].
  cbn [mbind option_bind] in H.
  seguir H.
  match goal with
  | Hp : Personaje.update _ _ = Some _ |- _ =>
      destruct (personaje_update_campos _ _ _ Hp)
        as (Hn & Hhp & Hmx & Hat & Hdf & Hnv & Hex & Hv & _)
  end.
  unfold mismo_heroe. cbn. rewrite Hn, Hhp, Hmx, Hat, Hdf, Hnv, Hex, Hv.
  repeat split; reflexivity.
Qed.

Lemma almacen_avanzado (env : Entorno) (dt : Float.t) (vistos : list nat)
    (objs objs' : list Enemigo.t) :
  (forall q, objs' !! q = avanzar env dt vistos q <$> objs !! q) ->
  List.length objs' = List.length objs /\
  (forall q e, objs !! q = Some e ->
     exists e', objs' !! q = Some e' /\ mismo_combatiente e e') /\
  (forall q, vivo_en objs' q = vivo_en objs q).
Proof.
  intros Hp. split; [|split].
  - destruct (Nat.lt_trichotomy (List.length objs') (List.length objs))
      as [Hlt|[Heq|Hgt]]; [exfalso|exact Heq|exfalso].
    + destruct (lookup_lt_is_Some_2 objs _ Hlt) as [e He].
      pose proof (Hp (List.length objs')) as Hq. rewrite He in Hq.
      rewrite lookup_ge_None_2 in Hq by lia. discriminate Hq.
    + destruct (lookup_lt_is_Some_2 objs' _ Hgt) as [e He].
      pose proof (Hp (List.length objs)) as Hq. rewrite He in Hq.
      rewrite (lookup_ge_None_2 objs) in Hq by lia. discriminate Hq.
  - intros q e He. rewrite Hp, He. cbn. eexists. split; [reflexivity|].
    apply avanzar_mismo.
  - intros q. unfold vivo_en. rewrite Hp.
    destruct (objs !! q) as [e|]; [|reflexivity]. cbn.
    destruct (avanzar_mismo env dt vistos q e) as (_ & _ & _ & _ & _ & <- & _).
    reflexivity.
Qed.

Lemma nodup_filtrado (f : nat -> bool) (pre resto : list nat) :
  NoDup (pre ++ resto) -> NoDup (List.filter f pre ++ resto).
Proof.
  intros Hnd. apply NoDup_app in Hnd as (Hp & Hd & Hr).
  apply NoDup_app. split; [|split; [|exact Hr]].
  - apply NoDup_ListNoDup, List.NoDup_filter, NoDup_ListNoDup. exact Hp.
  - intros q Hq. apply Hd. apply list_elem_of_In in Hq.
    apply List.filter_In in Hq as [Hq _]. apply list_elem_of_In. exact Hq.
Qed.

(** An enemy whose update does not raise and that is not met is passed. *)
Lemma sin_solape_pasa (env : Entorno) (dt : Float.t) (j : Jugador.t)
    (q : nat) (e : Enemigo.t) :
  (Personaje.vivo (Enemigo.base e) = true ->
   is_Some (Enemigo.update dt (wander env q) e)) ->
  solapa env dt j q e = false -> pasa env dt j q e = true.
Proof.
  unfold solapa, pasa. intros Hup Hs.
  destruct (Personaje.vivo (Enemigo.base e)); [|reflexivity].
  destruct (Hup eq_refl) as [e' He']. rewrite He' in Hs |- *.
  cbn [andb negb orb] in *. rewrite Hs. reflexivity.
Qed.

(** X8. An exploration tick fails only where a position update raises,
    and keeps the game well formed.  On a state whose roster holds distinct
    references into the store, and for a tick in which the updates of the
    player and of the live enemies of the roster do not raise, it returns
    a state where: the store has the same size and every enemy its old
    combat attributes; the player has the old attributes, gold and
    belongings; nothing is printed; the roster is a duplicate-free part of
    the old one, still within the store.  Either the game stays in
    exploration, with the current enemy and the combat attributes
    untouched and no dead enemy left in the roster, or it is in combat with
    a current enemy that is in the roster, alive, overlapping the player,
    and with the combat reset to the player's turn. *)
Theorem tick_de_exploracion (env : Entorno) (dt : Float.t) (g : Game.t)
    (Hexp : explorable g) (Hsin : sin_excepcion env dt g) :
  exists g' j j' self self',
    JugandoState.update env dt g = Some g' /\
    Game.jugador g = Some j /\ Game.jugador g' = Some j' /\
    mismo_heroe j j' /\
    Game.jugando g = Some self /\ Game.jugando g' = Some self' /\
    Game.keys self' = Game.keys self /\
    NoDup (Game.enemigos self') /\
    (forall q, q ∈ Game.enemigos self' ->
               q ∈ Game.enemigos self /\ is_Some (Game.objetos g' !! q)) /\
    List.length (Game.objetos g') = List.length (Game.objetos g) /\
    (forall q e, Game.objetos g !! q = Some e ->
       exists e', Game.objetos g' !! q = Some e' /\ mismo_combatiente e e') /\
    Game.salida g' = Game.salida g /\
    ((Game.current_state g' = Some JUGANDO /\
      Game.enemigo_actual g' = Game.enemigo_actual g /\
      Game.combate g' = Game.combate g /\
      Forall (fun q => vivo_en (Game.objetos g') q = true)
             (Game.enemigos self')) \/
     (Game.current_state g' = Some COMBATE /\
      exists r e cs,
        Game.enemigo_actual g' = Some r /\ r ∈ Game.enemigos self' /\
        Game.objetos g' !! r = Some e /\
        Personaje.vivo (Enemigo.base e) = true /\
        Rect.colliderect (Personaje.rect (Jugador.base j'))
                         (Personaje.rect (Enemigo.base e)) = true /\
        Game.combate g' = Some cs /\ Game.resultado cs = None /\
        Game.turno_jugador cs = true /\ Game.animando cs = false)).
Proof.
  destruct Hexp as (Hst & j & self & Hj & Hself & Hnd & Hval).
  destruct (Hsin j self Hj Hself) as [[j' Hmov] Hups].
  rewrite (update_es_bucle env dt g self j Hj Hself), Hmov.
  cbn [mbind option_bind].
  set (gm := Game.con_jugador (Some j') g).
  destruct self as [roster ks]. cbn [Game.enemigos Game.keys] in *.
  assert (Hconv : forall l, Forall (fun q => q ∈ roster) l ->
            Forall (fun q => solapa_en env dt j' (Game.objetos g) q = false) l ->
            Forall (fun q => exists e, Game.objetos gm !! q = Some e /\
                                       pasa env dt j' q e = true) l).
  { intros l Hin Hs. apply Forall_forall. intros q Hq.
    rewrite Forall_forall in Hin, Hs, Hval, Hups.
    destruct (Hval q (Hin q Hq)) as [e He].
    exists e. split; [exact He|]. specialize (Hs q Hq).
    unfold solapa_en in Hs. rewrite He in Hs.
    apply sin_solape_pasa; [|exact Hs].
    intros Hv. exact (Hups q (Hin q Hq) e He Hv). }
  destruct (primer_solape (solapa_en env dt j' (Game.objetos g)) roster)
    as [Hall|(pre & r & post & -> & Hpre & Hr)].
  - (* no overlap: the whole roster is scanned *)
    destruct (bucle_prefijo env dt j' roster gm [] [] ks)
      as (g1 & Hb & Hr & Ho & Hj1 & Hc1 & Ha1 & Hk1 & Hs1);
      [reflexivity | cbn; rewrite app_nil_r; exact Hself
      | cbn; rewrite app_nil_r; exact Hnd
      | apply Hconv; [apply Forall_forall; auto|assumption] |].
    rewrite app_nil_r in Hb, Hr. cbn [app] in Hr.
    destruct (almacen_avanzado env dt roster _ _ Ho) as (Hlen & Hmis & Hviv).
    eexists g1, j, j', {| Game.enemigos := roster; Game.keys := ks |}, _.
    split; [exact Hb|]. split; [exact Hj|]. split; [exact Hj1|].
    split; [exact (jugador_tras_mover_mismo _ _ _ _ Hmov)|].
    split; [exact Hself|].
    split; [exact Hr|]. cbn [Game.enemigos Game.keys].
    split; [reflexivity|].
    split; [apply NoDup_ListNoDup, List.NoDup_filter, NoDup_ListNoDup;
            exact Hnd|].
    split.
    { intros q Hq. apply list_elem_of_In, List.filter_In in Hq as [Hq _].
      apply list_elem_of_In in Hq. split; [exact Hq|].
      rewrite Forall_forall in Hval. destruct (Hval q Hq) as [e He].
      destruct (Hmis q e He) as (e' & He' & _). eexists. exact He'. }
    split; [exact Hlen|]. split; [exact Hmis|]. split; [exact Hs1|].
    left. split; [rewrite Hc1; exact Hst|]. split; [exact Ha1|].
    split; [exact Hk1|].
    apply Forall_forall. intros q Hq.
    apply list_elem_of_In, List.filter_In in Hq as [_ Hq].
    rewrite Hviv. exact Hq.
  - (* the first overlap *)
    assert (Her : exists e, Game.objetos g !! r = Some e /\
                            solapa env dt j' r e = true).
    { unfold solapa_en in Hr.
      destruct (Game.objetos g !! r) as [e|]; [|discriminate Hr].
      exists e. split; [reflexivity|exact Hr]. }
    destruct Her as (e & He & Hsol).
    destruct (bucle_encuentro env dt j' gm pre post r e ks)
      as (g' & Hb & Hea & Hcs & Hcm & Hjg & Ho & Hj1 & Hs1);
      [exact Hst | reflexivity | exact Hself | exact Hnd
      | apply Hconv; [|assumption] | exact He | exact Hsol |].
    { apply Forall_forall. intros q Hq. apply elem_of_app. left. exact Hq. }
    destruct (almacen_avanzado env dt (pre ++ [r]) _ _ Ho)
      as (Hlen & Hmis & Hviv).
    destruct (solapa_vivo _ _ _ _ _ Hsol) as (Hv & e' & Hup & Hcol).
    eexists g', j, j', {| Game.enemigos := pre ++ r :: post;
                         Game.keys := ks |}, _.
    split; [exact Hb|]. split; [exact Hj|]. split; [exact Hj1|].
    split; [exact (jugador_tras_mover_mismo _ _ _ _ Hmov)|].
    split; [exact Hself|].
    split; [exact Hjg|]. cbn [Game.enemigos Game.keys].
    split; [reflexivity|].
    split; [apply nodup_filtrado; exact Hnd|].
    split.
    { intros q Hq.
      assert (Hin : q ∈ pre ++ r :: post).
      { apply elem_of_app in Hq as [Hq|Hq]; apply elem_of_app;
          [left|right; exact Hq].
        apply list_elem_of_In, List.filter_In in Hq as [Hq _].
        apply list_elem_of_In. exact Hq. }
      split; [exact Hin|].
      rewrite Forall_forall in Hval. destruct (Hval q Hin) as [eq Heq].
      destruct (Hmis q eq Heq) as (e'' & He'' & _). eexists. exact He''. }
    split; [exact Hlen|]. split; [exact Hmis|]. split; [exact Hs1|].
    right. split; [exact Hcs|].
    eexists r, e', _.
    split; [exact Hea|].
    split; [apply elem_of_app; right; apply elem_of_cons; tauto|].
    split.
    { rewrite Ho. cbn. rewrite He. cbn. unfold avanzar. rewrite Hv.
      rewrite bool_decide_eq_true_2
        by (apply elem_of_app; right; apply list_elem_of_singleton;
            reflexivity).
      cbn [andb]. rewrite Hup. reflexivity. }
    split; [rewrite (enemigo_update_vivo _ _ _ _ Hup); exact Hv|].
    split; [exact Hcol|].
    split; [rewrite Hcm; reflexivity|]. repeat split; reflexivity.
Qed.

Lemma tick_de_exploracion_testigo :
  exists g',
    JugandoState.update (entorno 5000 (1 # 2) (0, 0)) un_tick dos_enemigos
    = Some g' /\
    List.length (Game.objetos g') = 2%nat /\
    Game.salida g' = [].
Proof.
  assert (He : explorable dos_enemigos).
  { split; [reflexivity|]. eexists _, _. split; [reflexivity|].
    split; [reflexivity|]. split.
    - exact (NoDup_seq 0 2).
    - repeat constructor; eexists; reflexivity. }
  assert (Hs : sin_excepcion (entorno 5000 (1 # 2) (0, 0)) un_tick
                 dos_enemigos).
  { intros j self Hj Hself. injection Hj as <-. injection Hself as <-.
    split; [eexists; vm_compute; reflexivity|].
    apply Forall_forall. intros q Hq e Hobj _.
    change (q ∈ seq 0 2) in Hq. apply elem_of_seq in Hq.
    destruct q as [|[|q]]; [| |lia];
      injection Hobj as <-; eexists; vm_compute; reflexivity. }
  destruct (tick_de_exploracion (entorno 5000 (1 # 2) (0, 0)) un_tick
              dos_enemigos He Hs)
    as (g' & j & j' & self & self' & Hu & _ & _ & _ & _ & _ & _ & _ & _
        & Hl & _ & Hsal & _).
  exists g'. split; [exact Hu|]. split; [exact Hl|exact Hsal].
Defined.

(** ** Combat from start to finish *)




(** X10. A result is acknowledged by a press of any mouse button, and by
    nothing else.  After a victory the game is back in exploration with
    the current enemy cleared, the movement keys released, and the player,
    the store, the roster and what was printed as they were; after a defeat
    it is in GAME_OVER with the current enemy cleared.  Any other event
    leaves the game as it is. *)
Theorem reconocer_resultado `{Py.Str}
    (env : Entorno) (g : Game.t) (self : Game.CombateState)
    (res : Resultado) (js : Game.JugandoState)
    (Hst : Game.current_state g = Some COMBATE)
    (Hself : Game.combate g = Some self)
    (Hres : Game.resultado self = Some res)
    (Hjs : Game.jugando g = Some js) :
  (forall button,
      CombateState.handle_event env (MOUSEBUTTONDOWN button) g
      = Some
          match res with
          | victoria =>
              Game.con_jugando
                (Some {| Game.enemigos := Game.enemigos js;
                         Game.keys := {| Game.up := false;
                                         Game.down := false;
                                         Game.left := false;
                                         Game.right := false |} |})
                (Game.con_current_state (Some JUGANDO)
                   (Game.con_enemigo_actual None g))
          | derrota =>
              Game.con_current_state (Some GAME_OVER)
                (Game.con_enemigo_actual None g)
          end) /\
  CombateState.handle_event env OTRO_EVENTO g = Some g.
Proof.
  unfold CombateState.handle_event. rewrite Hself.
  cbn [mbind option_bind]. rewrite Hres. split; [|reflexivity].
  intros button. unfold Game.change_state. rewrite Hst.
  destruct res; [|reflexivity].
  cbn [Game.enter Game.exit]. unfold Game.JugandoState_enter.
  cbn. rewrite Hjs. cbn. rewrite Hjs. reflexivity.
Qed.

Lemma reconocer_resultado_testigo :
  exists g1 g2,
    CombateState.update (entorno 1600 (1 # 2) (0, 0)) 0 combate_ganado
    = Some g1 /\
    CombateState.handle_event (H := Py.lower_latin1)
      (entorno 3000 (1 # 2) (0, 0)) (MOUSEBUTTONDOWN 3) g1 = Some g2 /\
    Game.current_state g2 = Some JUGANDO /\
    Game.enemigo_actual g2 = None.
Proof.
  eexists _, _. split; [vm_compute; reflexivity|].
  split.
  - eapply (reconocer_resultado (H := Py.lower_latin1)); reflexivity.
  - split; reflexivity.
Defined.



(** ** The timer's progress *)

Lemma cociente_y_uno (e d : Q) :
  (0 < d)%Q ->
  ((e / d <= 1)%Q <-> (e <= d)%Q) /\ ((1 <= e / d)%Q <-> (d <= e)%Q).
Proof.
  intros Hd.
  assert (Hne : ~ (d == 0)%Q) by (intros E; rewrite E in Hd; inversion Hd).
  split; split; intros H.
  - apply (Qmult_le_compat_r _ _ d) in H; [|apply Qlt_le_weak; exact Hd].
    rewrite Qmult_1_l in H.
    unfold Qdiv in H. rewrite <- Qmult_assoc, (Qmult_comm (/ d)), Qmult_inv_r in H
      by exact Hne.
    rewrite Qmult_1_r in H. exact H.
  - apply Qle_shift_div_r; [exact Hd|]. rewrite Qmult_1_l. exact H.
  - apply (Qmult_le_compat_r _ _ d) in H; [|apply Qlt_le_weak; exact Hd].
    rewrite Qmult_1_l in H.
    unfold Qdiv in H. rewrite <- Qmult_assoc, (Qmult_comm (/ d)), Qmult_inv_r in H
      by exact Hne.
    rewrite Qmult_1_r in H. exact H.
  - apply Qle_shift_div_l; [exact Hd|]. rewrite Qmult_1_l. exact H.
Qed.

(** X12. While a timer of positive duration runs, [get_progress] answers
    a share between 0 and 1, and the share is 1 exactly at the times at
    which [update] reports the timer finished. *)
Theorem progreso_del_timer (tm : Timer.t) (ahora : Z)
    (Hact : Timer.active tm = true)
    (Hd : (0 < Timer.duration tm)%Q)
    (Hnow : Timer.start_time tm <= ahora) :
  exists p,
    Timer.get_progress ahora tm = Some p /\
    (0 <= p)%Q /\ (p <= 1)%Q /\
    ((p == 1)%Q <-> fst (Timer.update ahora tm) = true).
Proof.
  unfold Timer.get_progress, Timer.update. rewrite Hact. cbn [negb].
  set (e := (inject_Z (ahora - Timer.start_time tm) / 1000)%Q).
  assert (He : (0 <= e)%Q).
  { unfold e. apply Qle_shift_div_l; [reflexivity|].
    rewrite Qmult_0_l. change 0%Q with (inject_Z 0).
    rewrite <- Zle_Qle. lia. }
  destruct (cociente_y_uno e _ Hd) as [Hle Hge].
  assert (Hz : Qeq_bool (Timer.duration tm) 0 = false).
  { destruct (Qeq_bool (Timer.duration tm) 0) eqn:E; [|reflexivity].
    apply Qeq_bool_iff in E. rewrite E in Hd. inversion Hd. }
  rewrite Hz. unfold Py.lt, Py.ge.
  destruct (Qle_bool (e / Timer.duration tm) 1) eqn:E1; cbn [negb].
  - apply Qle_bool_iff in E1.
    exists (e / Timer.duration tm)%Q. split; [reflexivity|].
    split; [apply Qle_shift_div_l; [exact Hd|rewrite Qmult_0_l; exact He]|].
    split; [exact E1|].
    split.
    + intros Heq.
      assert (H1 : (1 <= e / Timer.duration tm)%Q) by (rewrite Heq; apply Qle_refl).
      apply Hge in H1. apply Qle_bool_iff in H1. rewrite H1. reflexivity.
    + destruct (Qle_bool (Timer.duration tm) e) eqn:E2; [|discriminate].
      intros _. apply Qle_bool_iff in E2. apply Hge in E2.
      apply Qle_antisym; assumption.
  - exists 1%Q. split; [reflexivity|].
    split; [discriminate|]. split; [apply Qle_refl|].
    split; [|reflexivity]. intros _.
    assert (H1 : (1 <= e / Timer.duration tm)%Q).
    { destruct (Qlt_le_dec (e / Timer.duration tm) 1) as [L|L]; [|exact L].
      apply Qlt_le_weak in L. apply Qle_bool_iff in L. congruence. }
    apply Hge in H1. apply Qle_bool_iff in H1. rewrite H1. reflexivity.
Qed.

Lemma progreso_del_timer_testigo :
  exists p,
    Timer.get_progress 250 (Timer.start 0 (Timer.init (5 # 10))) = Some p /\
    (0 <= p)%Q /\ (p <= 1)%Q /\
    ((p == 1)%Q <->
     fst (Timer.update 250 (Timer.start 0 (Timer.init (5 # 10)))) = true).
Proof.
  apply (progreso_del_timer (Timer.start 0 (Timer.init (5 # 10))) 250).
  - reflexivity.
  - reflexivity.
  - vm_compute; discriminate.
Defined.

(** ** Keyboard and menus over exploration *)

(** X13. The flag of a direction records the last key event of that
    direction, not whether a key is held: with one key of a direction
    held, pressing and releasing its other key (or the same one) leaves
    the flag cleared; the flags of the other directions and the rest of
    the game are untouched throughout. *)
Theorem tecla_ultimo_evento (env : Entorno) (g : Game.t)
    (self : Game.JugandoState) (k k' : Tecla) (u u' : Texto.t)
    (d : Direccion)
    (Hj : Game.jugando g = Some self)
    (Hk : direccion_de k = Some d)
    (Hk' : direccion_de k' = Some d) :
  exists g1 g2 ks,
    JugandoState.handle_event env (KEYDOWN k u) g = Some g1 /\
    JugandoState.handle_event env (KEYDOWN k' u') g1 = Some g2 /\
    (exists s2, Game.jugando g2 = Some s2 /\ pulsada d (Game.keys s2) = true) /\
    JugandoState.handle_event env (KEYUP k') g2
    = Some (Game.con_jugando
              (Some {| Game.enemigos := Game.enemigos self;
                       Game.keys := ks |}) g) /\
    pulsada d ks = false /\
    forall d', d' <> d -> pulsada d' ks = pulsada d' (Game.keys self).
Proof.
  destruct g as [cs j ea objs jg cb out]. cbn in Hj. subst jg.
  destruct self as [en [ku kd kl kr]].
  destruct k; try discriminate Hk; cbn in Hk; injection Hk as <-;
    destruct k'; try discriminate Hk';
    (eexists _, _, _;
     split; [reflexivity|]; split; [reflexivity|];
     split; [eexists; split; reflexivity|];
     split; [reflexivity|]; split; [reflexivity|];
     intros [] Hd; try reflexivity; contradiction Hd; reflexivity).
Qed.

Lemma tecla_ultimo_evento_testigo :
  exists g1 g2 ks,
    JugandoState.handle_event (entorno 0 0 (0, 0)) (KEYDOWN K_w ["w"])
      dos_enemigos
    = Some g1 /\
    JugandoState.handle_event (entorno 0 0 (0, 0)) (KEYDOWN K_UP []) g1
    = Some g2 /\
    (exists s2, Game.jugando g2 = Some s2 /\
                pulsada Arriba (Game.keys s2) = true) /\
    JugandoState.handle_event (entorno 0 0 (0, 0)) (KEYUP K_UP) g2
    = Some (Game.con_jugando
              (Some {| Game.enemigos := [0; 1]%nat;
                       Game.keys := ks |}) dos_enemigos) /\
    pulsada Arriba ks = false /\
    forall d', d' <> Arriba ->
      pulsada d' ks
      = pulsada d' {| Game.up := false; Game.down := false;
                      Game.left := false; Game.right := false |}.
Proof.
  apply (tecla_ultimo_evento (entorno 0 0 (0, 0)) dos_enemigos
           {| Game.enemigos := [0; 1]%nat;
              Game.keys := {| Game.up := false; Game.down := false;
                              Game.left := false; Game.right := false |} |}
           K_w K_UP ["w"] [] Arriba); reflexivity.
Defined.

(** X14. Opening the pause menu (ESC) or the inventory (I) from
    exploration and coming back (ESC in either, or a click on Continuar
    in the pause menu) returns to exploration with the player, the
    roster, the enemies and the output as they were, and with every
    movement flag cleared; no enemy is generated on the way back. *)
Theorem menus_ida_y_vuelta (env env' : Entorno) (g : Game.t)
    (self : Game.JugandoState) (p : PausaState.t) (event : Evento)
    (u : Texto.t)
    (Hst : Game.current_state g = Some JUGANDO)
    (Hj : Game.jugando g = Some self)
    (Hev : reanuda p event = true) :
  (exists g1,
     JugandoState.handle_event env (KEYDOWN K_ESCAPE u) g = Some g1 /\
     Game.current_state g1 = Some PAUSA /\
     PausaState.handle_event env' p event g1 = Some (teclas_sueltas g)) /\
  (exists g1,
     JugandoState.handle_event env (KEYDOWN K_i u) g = Some g1 /\
     Game.current_state g1 = Some INVENTARIO /\
     InventarioState.handle_event env' (KEYDOWN K_ESCAPE u) g1
     = Some (teclas_sueltas g)).
Proof.
  destruct g as [cs j ea objs jg cb out]. cbn in Hst, Hj. subst cs jg.
  unfold teclas_sueltas. cbn [Game.jugando].
  split.
  - eexists. split; [reflexivity|]. split; [reflexivity|].
    unfold PausaState.handle_event.
    destruct (is_clicked event (PausaState.continuar p)) eqn:Hc.
    + destruct event as [key|key|e]; try discriminate Hc. reflexivity.
    + unfold reanuda in Hev.
      destruct event as [key|key|e]; cbn in Hc, Hev |- *.
      * destruct key; try discriminate Hev. reflexivity.
      * discriminate Hev.
      * congruence.
  - eexists. split; [reflexivity|]. split; reflexivity.
Qed.

Lemma menus_ida_y_vuelta_testigo :
  (exists g1,
     JugandoState.handle_event (entorno 0 0 (0, 0)) (KEYDOWN K_ESCAPE [])
       dos_enemigos = Some g1 /\
     Game.current_state g1 = Some PAUSA /\
     PausaState.handle_event (entorno 0 0 (0, 0))
       (PausaState.update (500, 310) PausaState.enter)
       (NO_TECLA (MOUSEBUTTONDOWN 1)) g1
     = Some (teclas_sueltas dos_enemigos)) /\
  (exists g1,
     JugandoState.handle_event (entorno 0 0 (0, 0)) (KEYDOWN K_i [])
       dos_enemigos = Some g1 /\
     Game.current_state g1 = Some INVENTARIO /\
     InventarioState.handle_event (entorno 0 0 (0, 0)) (KEYDOWN K_ESCAPE [])
       g1
     = Some (teclas_sueltas dos_enemigos)).
Proof.
  apply (menus_ida_y_vuelta (entorno 0 0 (0, 0)) (entorno 0 0 (0, 0))
           dos_enemigos
           {| Game.enemigos := [0; 1]%nat;
              Game.keys := {| Game.up := false; Game.down := false;
                              Game.left := false; Game.right := false |} |}
           (PausaState.update (500, 310) PausaState.enter)
           (NO_TECLA (MOUSEBUTTONDOWN 1)) []); reflexivity.
Defined.

(** ** Missions *)

Lemma en_cero_lookup (d : Mision.Dict Z) (o : string) :
  Mision.en_cero d !! o
  = if bool_decide (o ∈ map fst d) then Some 0 else None.
Proof.
  unfold Mision.en_cero. induction d as [|[k v] d IH]; cbn.
  - rewrite lookup_empty. reflexivity.
  - destruct (decide (k = o)) as [->|Hne].
    + rewrite lookup_insert_eq.
      rewrite bool_decide_eq_true_2 by (left). reflexivity.
    + rewrite lookup_insert_ne by exact Hne. rewrite IH.
      destruct (bool_decide (o ∈ map fst d)) eqn:E.
      * apply bool_decide_eq_true_1 in E.
        rewrite bool_decide_eq_true_2 by (right; exact E). reflexivity.
      * apply bool_decide_eq_false_1 in E.
        rewrite bool_decide_eq_false_2; [reflexivity|].
        intros [H|H]%elem_of_cons; [congruence|contradiction].
Qed.

Lemma init_en_curso (n d : string) (reqs : Mision.Dict (Mision.Dict Z))
    (rec : Mision.Dict Z) :
  en_curso reqs (fun _ _ => 0) (Mision.init n d reqs rec).
Proof.
  split; [reflexivity|]. split.
  - intros t. cbn.
    destruct (decide (t = "objetos")) as [->|H1].
    { rewrite lookup_insert_eq. split; [right; reflexivity|eauto]. }
    rewrite lookup_insert_ne by congruence.
    destruct (decide (t = "enemigos")) as [->|H2].
    { rewrite lookup_insert_eq. split; [left; reflexivity|eauto]. }
    rewrite lookup_insert_ne by congruence. rewrite lookup_empty.
    split; [intros [? ?]; discriminate|intros [?|?]; contradiction].
  - intros t o. unfold buscar, es_objetivo. cbn.
    destruct (decide (t = "objetos")) as [->|H1].
    { rewrite lookup_insert_eq. cbn. apply en_cero_lookup. }
    rewrite lookup_insert_ne by congruence.
    destruct (decide (t = "enemigos")) as [->|H2].
    { rewrite lookup_insert_eq. cbn. apply en_cero_lookup. }
    rewrite lookup_insert_ne by congruence. rewrite lookup_empty. cbn.
    destruct (String.eqb_spec t "enemigos"); [contradiction|].
    destruct (String.eqb_spec t "objetos"); [contradiction|]. reflexivity.
Qed.

Lemma veces_nil (t o : string) : veces t o [] = 0.
Proof. reflexivity. Qed.

Lemma veces_cons (t o : string) (ev : string * string)
    (eventos : list (string * string)) :
  veces t o (ev :: eventos)
  = (if decide (ev = (t, o)) then 1 else 0) + veces t o eventos.
Proof.
  unfold veces. destruct (decide (ev = (t, o))) as [E|E].
  - rewrite filter_cons_True by exact E. cbn [List.length]. lia.
  - rewrite filter_cons_False by exact E. lia.
Qed.

Lemma veces_no_negativo (t o : string) (eventos : list (string * string)) :
  0 <= veces t o eventos.
Proof. unfold veces. lia. Qed.

Lemma revisar_req_cumplida (prog : option (gmap string Z))
    (req : Mision.Dict Z) :
  Mision.revisar_req prog req = Mision.Cumplida <->
  forall o c, (o, c) ∈ req ->
    exists p, prog = Some p /\ c <= default 0 (p !! o).
Proof.
  induction req as [|[o c] req IH]; cbn.
  - split; [intros _ o c H; inversion H|reflexivity].
  - destruct prog as [p|].
    + destruct (Z.ltb_spec (default 0 (p !! o)) c) as [L|L].
      * split; [discriminate|]. intros H.
        destruct (H o c) as (p' & E & Hc); [left|].
        injection E as <-. lia.
      * rewrite IH. split.
        -- intros H o' c' [E|Hin]%elem_of_cons.
           ++ injection E as -> ->. exists p. split; [reflexivity|lia].
           ++ apply H. exact Hin.
        -- intros H o' c' Hin. apply H. right. exact Hin.
    + split; [discriminate|]. intros H.
      destruct (H o c) as (p' & E & _); [left|discriminate E].
Qed.

Lemma revisar_cumplida (prog : gmap string (gmap string Z))
    (reqs : Mision.Dict (Mision.Dict Z)) :
  Mision.revisar prog reqs = Mision.Cumplida <->
  forall t req o c, (t, req) ∈ reqs -> (o, c) ∈ req ->
    exists p, prog !! t = Some p /\ c <= default 0 (p !! o).
Proof.
  induction reqs as [|[t req] reqs IH]; cbn.
  - split; [intros _ t req o c H; inversion H|reflexivity].
  - destruct (Mision.revisar_req (prog !! t) req) eqn:E.
    + pose proof (proj1 (revisar_req_cumplida _ _) E) as E'.
      rewrite IH. split.
      * intros H t' req' o c [Heq|Hin]%elem_of_cons Ho.
        -- injection Heq as -> ->. apply E'. exact Ho.
        -- apply (H t' req'); assumption.
      * intros H t' req' o c Hin Ho. apply (H t' req'); [right|]; assumption.
    + split; [discriminate|]. intros H.
      assert (Mision.revisar_req (prog !! t) req = Mision.Cumplida) as E'.
      { apply revisar_req_cumplida. intros o c Ho.
        apply (H t req); [left|exact Ho]. }
      congruence.
    + split; [discriminate|]. intros H.
      assert (Mision.revisar_req (prog !! t) req = Mision.Cumplida) as E'.
      { apply revisar_req_cumplida. intros o c Ho.
        apply (H t req); [left|exact Ho]. }
      congruence.
Qed.

(** An event that is about no entry of the progress changes nothing. *)
Lemma actualizar_ajeno (t o : string) (m : Mision.t) :
  buscar m t o = None ->
  Mision.actualizar_progreso t o m = Mision.Normal m.
Proof.
  unfold buscar, Mision.actualizar_progreso.
  destruct (Mision.progreso m !! t) as [p|]; [|reflexivity]. cbn.
  intros ->. reflexivity.
Qed.

(** An event about an entry of the progress adds one to it and then looks
    at the requirements. *)
Lemma actualizar_propio (t o : string) (m : Mision.t) (n : Z) :
  buscar m t o = Some n ->
  exists p,
    Mision.progreso m !! t = Some p /\ p !! o = Some n /\
    Mision.actualizar_progreso t o m
    = Mision._verificar_completada
        (Mision.con_progreso
           (<[t := <[o := n + 1]> p]> (Mision.progreso m)) m).
Proof.
  unfold buscar, Mision.actualizar_progreso.
  destruct (Mision.progreso m !! t) as [p|]; [|discriminate]. cbn.
  intros E. exists p. rewrite E. auto.
Qed.

Lemma verificar_estado (m : Mision.t) :
  Mision.requisitos (Mision.estado (Mision._verificar_completada m))
  = Mision.requisitos m /\
  Mision.progreso (Mision.estado (Mision._verificar_completada m))
  = Mision.progreso m /\
  Mision.completada (Mision.estado (Mision._verificar_completada m))
  = match Mision.revisar (Mision.progreso m) (Mision.requisitos m) with
    | Mision.Cumplida => true
    | _ => Mision.completada m
    end.
Proof.
  unfold Mision._verificar_completada.
  destruct (Mision.revisar (Mision.progreso m) (Mision.requisitos m));
    cbn; auto.
Qed.

Lemma en_curso_paso (reqs : Mision.Dict (Mision.Dict Z))
    (c : string -> string -> Z) (m : Mision.t) (ev : string * string) :
  en_curso reqs c m ->
  en_curso reqs (fun t o => c t o + veces t o [ev])
    (Mision.estado (Mision.actualizar_progreso ev.1 ev.2 m)).
Proof.
  destruct ev as [t o]. cbn [fst snd]. intros (Hr & Hk & Hb).
  destruct (buscar m t o) as [n|] eqn:E.
  - destruct (actualizar_propio _ _ _ _ E) as (p & Hp & Ho & ->).
    destruct (verificar_estado
                (Mision.con_progreso
                   (<[t := <[o := n + 1]> p]> (Mision.progreso m)) m))
      as (R1 & R2 & _).
    cbn in R1, R2.
    split; [congruence|]. split.
    + intros t'. rewrite R2, <- Hk.
      destruct (decide (t = t')) as [<-|Hne].
      * rewrite lookup_insert_eq, Hp. split; eauto.
      * rewrite lookup_insert_ne by exact Hne. reflexivity.
    + intros t' o'. unfold buscar. rewrite R2.
      rewrite veces_cons, veces_nil, Z.add_0_r.
      destruct (decide (t = t')) as [<-|Hne].
      * rewrite lookup_insert_eq. cbn.
        destruct (decide (o = o')) as [<-|Hno].
        -- rewrite lookup_insert_eq.
           rewrite decide_True by reflexivity.
           rewrite Hb in E.
           destruct (es_objetivo reqs t o); [|discriminate].
           injection E as <-. reflexivity.
        -- rewrite lookup_insert_ne by exact Hno.
           rewrite decide_False by congruence.
           specialize (Hb t o'). unfold buscar in Hb. rewrite Hp in Hb.
           cbn in Hb. rewrite Hb, Z.add_0_r. reflexivity.
      * rewrite lookup_insert_ne by exact Hne.
        rewrite decide_False by congruence.
        specialize (Hb t' o'). unfold buscar in Hb. rewrite Hb, Z.add_0_r.
        reflexivity.
  - rewrite (actualizar_ajeno _ _ _ E). cbn.
    split; [exact Hr|]. split; [exact Hk|].
    intros t' o'. rewrite Hb, veces_cons, veces_nil.
    destruct (decide ((t, o) = (t', o'))) as [Heq|Hne].
    + injection Heq as <- <-. rewrite Hb in E.
      destruct (es_objetivo reqs t o); [discriminate|reflexivity].
    + rewrite Z.add_0_r. reflexivity.
Qed.

Lemma veces_app (t o : string) (a b : list (string * string)) :
  veces t o (a ++ b) = veces t o a + veces t o b.
Proof.
  unfold veces. rewrite filter_app, length_app. lia.
Qed.

Lemma en_curso_ext (reqs : Mision.Dict (Mision.Dict Z))
    (c c' : string -> string -> Z) (m : Mision.t) :
  (forall t o, c t o = c' t o) -> en_curso reqs c m -> en_curso reqs c' m.
Proof.
  intros Hc (Hr & Hk & Hb). split; [exact Hr|]. split; [exact Hk|].
  intros t o. rewrite Hb, Hc. reflexivity.
Qed.

Lemma registrar_en_curso (reqs : Mision.Dict (Mision.Dict Z))
    (eventos : list (string * string)) (c : string -> string -> Z)
    (m : Mision.t) :
  en_curso reqs c m ->
  en_curso reqs (fun t o => c t o + veces t o eventos) (registrar eventos m).
Proof.
  revert c m. induction eventos as [|ev eventos IH]; intros c m H.
  - cbn. eapply en_curso_ext; [|exact H]. intros t o. cbn beta.
    rewrite veces_nil. lia.
  -
    unfold registrar. cbn [fold_left]. fold (registrar eventos).
    pose proof (IH _ _ (en_curso_paso _ _ _ ev H)) as H'.
    eapply en_curso_ext; [|exact H'].
    intros t o. cbn beta.
    change (ev :: eventos) with ([ev] ++ eventos).
    rewrite veces_app. lia.
Qed.

(** X15. The progress of a mission counts the events recorded: for an
    objective its requirements name under one of the two kinds, the entry
    is the number of events about it; there is no entry for anything
    else, however often it is reported. *)
Theorem progreso_cuenta_eventos (n d : string)
    (reqs : Mision.Dict (Mision.Dict Z)) (rec : Mision.Dict Z)
    (eventos : list (string * string)) (tipo objetivo : string) :
  buscar (registrar eventos (Mision.init n d reqs rec)) tipo objetivo
  = if es_objetivo reqs tipo objetivo
    then Some (veces tipo objetivo eventos)
    else None.
Proof.
  destruct (registrar_en_curso reqs eventos _ _ (init_en_curso n d reqs rec))
    as (_ & _ & Hb).
  rewrite Hb. reflexivity.
Qed.

Lemma get_unico {A} (d : Mision.Dict A) (k : string) (v : A) :
  NoDup (map fst d) -> (k, v) ∈ d -> Mision.get k d = Some v.
Proof.
  induction d as [|[k' v'] d IH]; cbn; intros Hnd Hin.
  - inversion Hin.
  - apply NoDup_cons in Hnd as [Hnot Hnd].
    apply elem_of_cons in Hin as [Heq|Hin].
    + injection Heq as <- <-. rewrite String.eqb_refl. reflexivity.
    + destruct (String.eqb_spec k k') as [->|Hne].
      * exfalso. apply Hnot.
        apply list_elem_of_In. apply list_elem_of_In in Hin.
        exact (in_map fst _ _ Hin).
      * apply IH; assumption.
Qed.

Lemma registrar_app (a b : list (string * string)) (m : Mision.t) :
  registrar (a ++ b) m = registrar b (registrar a m).
Proof. unfold registrar. apply fold_left_app. Qed.

Lemma paso_completada (ev : string * string) (m : Mision.t) :
  Mision.completada m = true ->
  Mision.completada
    (Mision.estado (Mision.actualizar_progreso ev.1 ev.2 m)) = true.
Proof.
  intros Hc. destruct (buscar m ev.1 ev.2) as [n|] eqn:E.
  - destruct (actualizar_propio _ _ _ _ E) as (p & _ & _ & ->).
    destruct (verificar_estado
                (Mision.con_progreso
                   (<[ev.1 := <[ev.2 := n + 1]> p]> (Mision.progreso m)) m))
      as (_ & _ & ->).
    cbn. rewrite Hc.
    destruct (Mision.revisar _ _); reflexivity.
  - rewrite (actualizar_ajeno _ _ _ E). exact Hc.
Qed.

Lemma registrar_completada (eventos : list (string * string))
    (m : Mision.t) :
  Mision.completada m = true ->
  Mision.completada (registrar eventos m) = true.
Proof.
  revert m. induction eventos as [|ev eventos IH]; intros m Hc; [exact Hc|].
  unfold registrar. cbn [fold_left]. fold (registrar eventos).
  apply IH, paso_completada, Hc.
Qed.

(** What the progress holds for an objective, read with [get(objetivo, 0)]
    as the check of the requirements does. *)
Lemma en_curso_default (reqs : Mision.Dict (Mision.Dict Z))
    (c : string -> string -> Z) (m : Mision.t) (t o : string)
    (p : gmap string Z) :
  en_curso reqs c m ->
  Mision.progreso m !! t = Some p ->
  default 0 (p !! o) = if es_objetivo reqs t o then c t o else 0.
Proof.
  intros (_ & _ & Hb) Hp. specialize (Hb t o). unfold buscar in Hb.
  rewrite Hp in Hb. cbn in Hb. rewrite Hb.
  destruct (es_objetivo reqs t o); reflexivity.
Qed.

Lemma registrar_ajenos (reqs : Mision.Dict (Mision.Dict Z))
    (c : string -> string -> Z) (eventos : list (string * string))
    (m : Mision.t) :
  en_curso reqs c m ->
  Forall (fun ev => es_objetivo reqs ev.1 ev.2 = false) eventos ->
  registrar eventos m = m.
Proof.
  intros Hm. induction 1 as [|ev eventos Hev _ IH]; [reflexivity|].
  unfold registrar. cbn [fold_left]. fold (registrar eventos).
  destruct Hm as (Hr & Hk & Hb).
  rewrite actualizar_ajeno; [exact IH|].
  rewrite Hb, Hev. reflexivity.
Qed.

(** A mission is marked completed only when an event has just filled its
    requirements. *)
Lemma completada_justificada (reqs : Mision.Dict (Mision.Dict Z))
    (eventos : list (string * string)) (c : string -> string -> Z)
    (m : Mision.t) :
  en_curso reqs c m ->
  (forall t o, 0 <= c t o) ->
  (Mision.completada m = true ->
   forall t req o cantidad, (t, req) ∈ reqs -> (o, cantidad) ∈ req ->
     (t = "enemigos" \/ t = "objetos") /\ cantidad <= c t o) ->
  Mision.completada (registrar eventos m) = true ->
  forall t req o cantidad, (t, req) ∈ reqs -> (o, cantidad) ∈ req ->
    (t = "enemigos" \/ t = "objetos")
    /\ cantidad <= c t o + veces t o eventos.
Proof.
  revert c m. induction eventos as [|ev eventos IH]; intros c m Hm Hc Hj Hfin.
  - intros t req o cantidad Ht Ho.
    destruct (Hj Hfin t req o cantidad Ht Ho) as [Hk Hle].
    split; [exact Hk|]. rewrite veces_nil. lia.
  - unfold registrar in Hfin. cbn [fold_left] in Hfin.
    fold (registrar eventos) in Hfin.
    pose proof (en_curso_paso _ _ _ ev Hm) as Hm'.
    assert (Hc' : forall t o, 0 <= c t o + veces t o [ev]).
    { intros t o. pose proof (Hc t o). pose proof (veces_no_negativo t o [ev]).
      lia. }
    intros t req o cantidad Ht Ho.
    change (ev :: eventos) with ([ev] ++ eventos). rewrite veces_app.
    rewrite Z.add_assoc.
    refine (IH _ _ Hm' Hc' _ Hfin t req o cantidad Ht Ho).
    clear t req o cantidad Ht Ho.
    intros Hcomp t req o cantidad Ht Ho.
    destruct (buscar m ev.1 ev.2) as [n|] eqn:E.
    + destruct (actualizar_propio _ _ _ _ E) as (p & _ & _ & Hact).
      destruct (verificar_estado
                  (Mision.con_progreso
                     (<[ev.1 := <[ev.2 := n + 1]> p]> (Mision.progreso m)) m))
        as (R1 & R2 & R3).
      rewrite <- Hact in R1, R2, R3.
      rewrite R3 in Hcomp.
      destruct (Mision.revisar _ _) eqn:Hrev.
      * cbn in Hrev.
        pose proof (proj1 (revisar_cumplida _ _) Hrev t req o cantidad) as Hx.
        destruct Hm as (Hr & _ & _). rewrite Hr in Hx.
        destruct (Hx Ht Ho) as (q & Hq & Hle).
        assert (Hq' : Mision.progreso
                        (Mision.estado
                           (Mision.actualizar_progreso ev.1 ev.2 m)) !! t
                      = Some q) by (rewrite R2; exact Hq).
        destruct Hm' as (Hr' & Hk' & Hb').
        split; [apply Hk'; eauto|].
        rewrite (en_curso_default reqs _ _ t o q
                   (conj Hr' (conj Hk' Hb')) Hq') in Hle.
        destruct (es_objetivo reqs t o); [exact Hle|].
        pose proof (Hc' t o). lia.
      * cbn in Hcomp. destruct (Hj Hcomp t req o cantidad Ht Ho) as [Hk Hle].
        split; [exact Hk|]. pose proof (veces_no_negativo t o [ev]). lia.
      * cbn in Hcomp. destruct (Hj Hcomp t req o cantidad Ht Ho) as [Hk Hle].
        split; [exact Hk|]. pose proof (veces_no_negativo t o [ev]). lia.
    + rewrite (actualizar_ajeno _ _ _ E) in Hcomp. cbn in Hcomp.
      destruct (Hj Hcomp t req o cantidad Ht Ho) as [Hk Hle].
      split; [exact Hk|]. pose proof (veces_no_negativo t o [ev]). lia.
Qed.

(** X16. A mission is only ever marked completed for cause: if it is
    completed after a run of events, then every amount its requirements
    ask for has been reached by the events of the run, every requirement
    is of one of the two kinds the progress is kept for, and at least one
    event of the run was about an objective of the mission (so a mission
    that asks for nothing is never completed). *)
Theorem completada_implica_requisitos (n d : string)
    (reqs : Mision.Dict (Mision.Dict Z)) (rec : Mision.Dict Z)
    (eventos : list (string * string))
    (Hfin : Mision.completada (registrar eventos (Mision.init n d reqs rec))
            = true) :
  (forall t req o cantidad, (t, req) ∈ reqs -> (o, cantidad) ∈ req ->
     (t = "enemigos" \/ t = "objetos") /\ cantidad <= veces t o eventos) /\
  Exists (fun ev => es_objetivo reqs ev.1 ev.2 = true) eventos.
Proof.
  split.
  - intros t req o cantidad Ht Ho.
    pose proof (completada_justificada reqs eventos (fun _ _ => 0) _
                  (init_en_curso n d reqs rec)) as H.
    cbn beta in H. apply (H ltac:(intros; lia)) with (req := req);
      try assumption.
    cbn. discriminate.
  - destruct (decide (Exists (fun ev => es_objetivo reqs ev.1 ev.2 = true)
                        eventos)) as [Hex|Hno]; [exact Hex|].
    exfalso. apply Forall_Exists_neg in Hno.
    rewrite (registrar_ajenos reqs _ eventos _ (init_en_curso n d reqs rec))
      in Hfin; [discriminate Hfin|].
    eapply Forall_impl; [exact Hno|].
    intros ev Hev. cbn beta in Hev. destruct (es_objetivo reqs ev.1 ev.2);
      [contradiction Hev; reflexivity|reflexivity].
Qed.

Lemma completada_implica_requisitos_testigo :
  (forall t req o cantidad,
     (t, req) ∈ [ ("enemigos", [("Lobo Salvaje", 3)]);
                  ("objetos", [("Poción", 1)]) ] ->
     (o, cantidad) ∈ req ->
     (t = "enemigos" \/ t = "objetos")
     /\ cantidad
        <= veces t o [ ("enemigos", "Lobo Salvaje"); ("enemigos", "Bandido");
                       ("enemigos", "Lobo Salvaje"); ("objetos", "Poción");
                       ("enemigos", "Lobo Salvaje") ]) /\
  Exists (fun ev =>
            es_objetivo [ ("enemigos", [("Lobo Salvaje", 3)]);
                          ("objetos", [("Poción", 1)]) ] ev.1 ev.2 = true)
    [ ("enemigos", "Lobo Salvaje"); ("enemigos", "Bandido");
      ("enemigos", "Lobo Salvaje"); ("objetos", "Poción");
      ("enemigos", "Lobo Salvaje") ].
Proof.
  apply (completada_implica_requisitos
           "Caza de lobos" "Mata tres lobos y consigue una poción"
           [ ("enemigos", [("Lobo Salvaje", 3)]);
             ("objetos", [("Poción", 1)]) ]
           [ ("oro", 100) ]).
  vm_compute. reflexivity.
Defined.

(** X17. A mission whose requirements are kept under the two kinds of the
    progress is marked completed by the event that fills them: once an
    event about one of its objectives leaves every required amount
    reached, the mission is completed, and it stays completed whatever
    is recorded afterwards. *)
Theorem mision_se_completa (n d : string)
    (reqs : Mision.Dict (Mision.Dict Z)) (rec : Mision.Dict Z)
    (previos despues : list (string * string)) (tipo objetivo : string)
    (Hnd : NoDup (map fst reqs))
    (Hk : forall t req, (t, req) ∈ reqs -> t = "enemigos" \/ t = "objetos")
    (Hobj : es_objetivo reqs tipo objetivo = true)
    (Hreq : forall t req o cantidad, (t, req) ∈ reqs -> (o, cantidad) ∈ req ->
              cantidad <= veces t o (previos ++ [(tipo, objetivo)])) :
  Mision.completada
    (registrar (previos ++ [(tipo, objetivo)] ++ despues)
       (Mision.init n d reqs rec)) = true.
Proof.
  rewrite app_assoc, registrar_app. apply registrar_completada.
  rewrite registrar_app.
  pose proof (registrar_en_curso reqs previos _ _
                (init_en_curso n d reqs rec)) as Hm.
  set (m := registrar previos (Mision.init n d reqs rec)) in *.
  pose proof (en_curso_paso _ _ _ (tipo, objetivo) Hm) as Hm'.
  unfold registrar. cbn [fold_left fst snd] in *.
  destruct Hm as (Hr & Hkeys & Hb).
  assert (E : buscar m tipo objetivo = Some (0 + veces tipo objetivo previos))
    by (rewrite Hb, Hobj; reflexivity).
  destruct (actualizar_propio _ _ _ _ E) as (p & _ & _ & Hact).
  destruct (verificar_estado
              (Mision.con_progreso
                 (<[tipo := <[objetivo := 0 + veces tipo objetivo previos + 1]>
                              p]> (Mision.progreso m)) m))
    as (R1 & R2 & R3).
  rewrite <- Hact in R1, R2, R3. rewrite R3.
  assert (Hrev : Mision.revisar
                   (Mision.progreso
                      (Mision.estado
                         (Mision.actualizar_progreso tipo objetivo m)))
                   reqs = Mision.Cumplida).
  { apply revisar_cumplida. intros t req o cantidad Ht Ho.
    destruct Hm' as (Hr' & Hk' & Hb').
    destruct (proj2 (Hk' t) (Hk t req Ht)) as [q Hq].
    exists q. split; [exact Hq|].
    rewrite (en_curso_default reqs _ _ t o q
               (conj Hr' (conj Hk' Hb')) Hq).
    assert (Hes : es_objetivo reqs t o = true).
    { unfold es_objetivo. rewrite (get_unico reqs t req Hnd Ht). cbn.
      rewrite bool_decide_eq_true_2.
      - destruct (Hk t req Ht) as [-> | ->]; reflexivity.
      - apply list_elem_of_In. apply list_elem_of_In in Ho.
        exact (in_map fst _ _ Ho). }
    rewrite Hes. specialize (Hreq t req o cantidad Ht Ho).
    rewrite veces_app in Hreq. lia. }
  rewrite R2 in Hrev. cbn [Mision.requisitos Mision.con_progreso].
  rewrite Hr.
  match goal with |- match ?x with _ => _ end = _ =>
    replace x with Mision.Cumplida by (symmetry; exact Hrev) end.
  reflexivity.
Qed.

Lemma mision_se_completa_testigo :
  Mision.completada
    (registrar
       ([ ("enemigos", "Lobo Salvaje"); ("objetos", "Poción");
          ("enemigos", "Lobo Salvaje") ]
        ++ [("enemigos", "Lobo Salvaje")] ++ [("enemigos", "Bandido")])
       (Mision.init "Caza de lobos" "Mata tres lobos y consigue una poción"
          [ ("enemigos", [("Lobo Salvaje", 3)]);
            ("objetos", [("Poción", 1)]) ]
          [ ("oro", 100) ])) = true.
Proof.
  apply (mision_se_completa
           "Caza de lobos" "Mata tres lobos y consigue una poción"
           [ ("enemigos", [("Lobo Salvaje", 3)]);
             ("objetos", [("Poción", 1)]) ]
           [ ("oro", 100) ]
           [ ("enemigos", "Lobo Salvaje"); ("objetos", "Poción");
             ("enemigos", "Lobo Salvaje") ]
           [ ("enemigos", "Bandido") ]
           "enemigos" "Lobo Salvaje").
  - cbn. apply NoDup_cons. split.
    + intros H. apply list_elem_of_singleton in H. discriminate H.
    + apply NoDup_singleton.
  - intros t req H.
    apply elem_of_cons in H as [H|H]; [injection H as -> _; left; reflexivity|].
    apply list_elem_of_singleton in H. injection H as -> _. right; reflexivity.
  - vm_compute. reflexivity.
  - intros t req o cantidad Ht Ho.
    apply elem_of_cons in Ht as [Ht|Ht].
    + injection Ht as -> ->. apply list_elem_of_singleton in Ho.
      injection Ho as -> ->. vm_compute. discriminate.
    + apply list_elem_of_singleton in Ht. injection Ht as -> ->.
      apply list_elem_of_singleton in Ho.
      injection Ho as -> ->. vm_compute. discriminate.
Defined.

(** X18. Events about anything that is no objective of the mission can be
    left out of a run without any difference to the mission it leaves:
    a report of an unknown kind, or of a target the requirements do not
    name, is ignored wherever it comes. *)
Theorem eventos_ajenos_no_cuentan (n d : string)
    (reqs : Mision.Dict (Mision.Dict Z)) (rec : Mision.Dict Z)
    (eventos : list (string * string)) :
  registrar eventos (Mision.init n d reqs rec)
  = registrar
      (List.filter (fun ev => es_objetivo reqs ev.1 ev.2) eventos)
      (Mision.init n d reqs rec).
Proof.
  pose proof (init_en_curso n d reqs rec) as Hm.
  revert Hm. generalize (Mision.init n d reqs rec) as m.
  generalize (fun _ _ : string => 0) as c.
  induction eventos as [|ev eventos IH]; intros c m Hm; [reflexivity|].
  cbn [List.filter].
  destruct (es_objetivo reqs ev.1 ev.2) eqn:E.
  - unfold registrar. cbn [fold_left]. fold (registrar eventos).
    fold (registrar (List.filter (fun ev => es_objetivo reqs ev.1 ev.2)
                       eventos)).
    apply (IH _ _ (en_curso_paso _ _ _ ev Hm)).
  - unfold registrar at 1. cbn [fold_left]. fold (registrar eventos).
    destruct Hm as (Hr & Hk & Hb).
    rewrite actualizar_ajeno by (rewrite Hb, E; reflexivity).
    apply (IH c). split; [exact Hr|]. split; assumption.
Qed.

Lemma revisar_req_pendiente (prog : option (gmap string Z))
    (req : Mision.Dict Z) :
  Mision.revisar_req prog req = Mision.Pendiente ->
  exists o c p, (o, c) ∈ req /\ prog = Some p /\ default 0 (p !! o) < c.
Proof.
  induction req as [|[o c] req IH]; cbn; [discriminate|].
  destruct prog as [p|]; [|discriminate].
  destruct (Z.ltb_spec (default 0 (p !! o)) c) as [L|L].
  - intros _. exists o, c, p. split; [left|]. split; [reflexivity|exact L].
  - intros H. destruct (IH H) as (o' & c' & p' & Hin & Hp & Hlt).
    exists o', c', p'. split; [right; exact Hin|]. split; assumption.
Qed.

Lemma revisar_pendiente (prog : gmap string (gmap string Z))
    (reqs : Mision.Dict (Mision.Dict Z)) :
  Mision.revisar prog reqs = Mision.Pendiente ->
  exists t req o c p,
    (t, req) ∈ reqs /\ (o, c) ∈ req /\ prog !! t = Some p
    /\ default 0 (p !! o) < c.
Proof.
  induction reqs as [|[t req] reqs IH]; cbn; [discriminate|].
  destruct (Mision.revisar_req (prog !! t) req) eqn:E.
  - intros H. destruct (IH H) as (t' & req' & o & c & p & Ht & Ho & Hp & Hlt).
    exists t', req', o, c, p. split; [right; exact Ht|]. auto.
  - intros _. destruct (revisar_req_pendiente _ _ E) as (o & c & p & Ho & Hp & Hlt).
    exists t, req, o, c, p. split; [left|]. auto.
  - discriminate.
Qed.

(** X19. A requirement filed under a kind other than the two of the
    progress makes the mission fail instead of completing: the event
    that fills every requirement of the two known kinds is counted and
    then raises [KeyError], and the mission is left not completed. *)
Theorem requisito_de_otro_tipo_falla (n d : string)
    (reqs : Mision.Dict (Mision.Dict Z)) (rec : Mision.Dict Z)
    (previos : list (string * string)) (tipo objetivo : string)
    (t0 : string) (req0 : Mision.Dict Z) (o0 : string) (c0 : Z)
    (Hnd : NoDup (map fst reqs))
    (Hobj : es_objetivo reqs tipo objetivo = true)
    (Ht0 : (t0, req0) ∈ reqs)
    (Hotro : t0 <> "enemigos" /\ t0 <> "objetos")
    (Ho0 : (o0, c0) ∈ req0)
    (Hreq : forall t req o cantidad, (t, req) ∈ reqs ->
              t = "enemigos" \/ t = "objetos" -> (o, cantidad) ∈ req ->
              cantidad <= veces t o (previos ++ [(tipo, objetivo)])) :
  exists m,
    Mision.actualizar_progreso tipo objetivo
      (registrar previos (Mision.init n d reqs rec)) = Mision.KeyError m /\
    Mision.completada m = false /\
    buscar m tipo objetivo = Some (veces tipo objetivo previos + 1).
Proof.
  pose proof (registrar_en_curso reqs previos _ _
                (init_en_curso n d reqs rec)) as Hm.
  assert (Hno : Mision.completada
                  (registrar previos (Mision.init n d reqs rec)) = false).
  { destruct (Mision.completada _) eqn:Hc; [|reflexivity]. exfalso.
    pose proof (completada_justificada reqs previos (fun _ _ => 0) _
                  (init_en_curso n d reqs rec)) as H.
    cbn beta in H.
    destruct (H ltac:(intros; lia) ltac:(cbn; discriminate) Hc
                t0 req0 o0 c0 Ht0 Ho0) as [[E|E] _];
      destruct Hotro; contradiction. }
  set (m := registrar previos (Mision.init n d reqs rec)) in *.
  pose proof (en_curso_paso _ _ _ (tipo, objetivo) Hm) as Hm'.
  cbn [fst snd] in Hm'.
  pose proof Hm as (Hr & Hkeys & Hb).
  assert (E : buscar m tipo objetivo = Some (0 + veces tipo objetivo previos))
    by (rewrite Hb, Hobj; reflexivity).
  destruct (actualizar_propio _ _ _ _ E) as (p & _ & _ & Hact).
  destruct (verificar_estado
              (Mision.con_progreso
                 (<[tipo := <[objetivo := 0 + veces tipo objetivo previos + 1]>
                              p]> (Mision.progreso m)) m))
    as (R1 & R2 & R3).
  rewrite <- Hact in R1, R2, R3.
  pose proof Hm' as (Hr' & Hk' & Hb').
  assert (Hrev : Mision.revisar
                   (Mision.progreso
                      (Mision.estado
                         (Mision.actualizar_progreso tipo objetivo m)))
                   reqs = Mision.Clave_ausente).
  { destruct (Mision.revisar _ reqs) eqn:Hv; [| |reflexivity]; exfalso.
    - destruct (proj1 (revisar_cumplida _ _) Hv t0 req0 o0 c0 Ht0 Ho0)
        as (q & Hq & _).
      destruct (proj1 (Hk' t0) (ex_intro _ q Hq)); destruct Hotro;
        contradiction.
    - destruct (revisar_pendiente _ _ Hv)
        as (t & req & o & c & q & Ht & Ho & Hq & Hlt).
      pose proof (proj1 (Hk' t) (ex_intro _ q Hq)) as Hkn.
      rewrite (en_curso_default reqs _ _ t o q Hm' Hq) in Hlt.
      assert (Hes : es_objetivo reqs t o = true).
      { unfold es_objetivo. rewrite (get_unico reqs t req Hnd Ht). cbn.
        rewrite bool_decide_eq_true_2.
        - destruct Hkn as [-> | ->]; reflexivity.
        - apply list_elem_of_In. apply list_elem_of_In in Ho.
          exact (in_map fst _ _ Ho). }
      rewrite Hes in Hlt. specialize (Hreq t req o c Ht Hkn Ho).
      rewrite veces_app in Hreq. lia. }
  rewrite R2 in Hrev.
  cbn [Mision.progreso Mision.con_progreso] in Hrev.
  exists (Mision.estado (Mision.actualizar_progreso tipo objetivo m)).
  split; [|split].
  - rewrite Hact. unfold Mision._verificar_completada.
    cbn [Mision.requisitos Mision.progreso Mision.con_progreso].
    rewrite Hr, Hrev. reflexivity.
  - rewrite R3. cbn [Mision.requisitos Mision.progreso Mision.con_progreso
                      Mision.completada].
    rewrite Hr, Hrev. exact Hno.
  - rewrite Hb', Hobj, veces_cons, veces_nil.
    rewrite decide_True by reflexivity. f_equal; lia.
Qed.

Lemma requisito_de_otro_tipo_falla_testigo :
  exists m,
    Mision.actualizar_progreso "enemigos" "Lobo Salvaje"
      (registrar [("enemigos", "Lobo Salvaje")]
         (Mision.init "Caza y charla" "Mata dos lobos y habla con el herrero"
            [ ("enemigos", [("Lobo Salvaje", 2)]);
              ("npcs", [("Herrero", 1)]) ]
            [ ("oro", 50) ])) = Mision.KeyError m /\
    Mision.completada m = false /\
    buscar m "enemigos" "Lobo Salvaje"
    = Some (veces "enemigos" "Lobo Salvaje" [("enemigos", "Lobo Salvaje")]
            + 1).
Proof.
  apply (requisito_de_otro_tipo_falla
           "Caza y charla" "Mata dos lobos y habla con el herrero"
           [ ("enemigos", [("Lobo Salvaje", 2)]);
             ("npcs", [("Herrero", 1)]) ]
           [ ("oro", 50) ]
           [ ("enemigos", "Lobo Salvaje") ]
           "enemigos" "Lobo Salvaje" "npcs" [("Herrero", 1)] "Herrero" 1).
  - cbn. apply NoDup_cons. split.
    + intros H. apply list_elem_of_singleton in H. discriminate H.
    + apply NoDup_singleton.
  - vm_compute. reflexivity.
  - right. left.
  - split; discriminate.
  - left.
  - intros t req o cantidad Ht Hkn Ho.
    apply elem_of_cons in Ht as [Ht|Ht].
    + injection Ht as -> ->. apply list_elem_of_singleton in Ho.
      injection Ho as -> ->. vm_compute. discriminate.
    + apply list_elem_of_singleton in Ht. injection Ht as -> ->.
      destruct Hkn as [Hkn|Hkn]; discriminate Hkn.
Defined.

(** ** The creation screen *)

Section Creacion.
Variable isprintable : Texto.t -> bool.

Lemma seleccionar_sin_clic (event : Evento) (i : nat)
    (botones : list Button.t) (sel : option string) :
  Forall (fun b => is_clicked event b = false) botones ->
  CreacionPersonajeState.seleccionar event i botones sel = Some sel.
Proof.
  intros H. revert i. induction H as [|b botones Hb _ IH]; intros i;
    [reflexivity|].
  cbn. rewrite Hb. apply IH.
Qed.

(** What [handle_event] does to the screen: the text input, then the
    selection. *)
Lemma handle_event_pantalla (env : Entorno) (event : Evento)
    (self self' : CreacionPersonajeState.t) (g g' : Game.t) :
  CreacionPersonajeState.handle_event isprintable env event self g
  = Some (self', g') ->
  exists sel,
    self' = CreacionPersonajeState.con_clase_seleccionada sel
              (CreacionPersonajeState.escribir isprintable event self).
Proof.
  unfold CreacionPersonajeState.handle_event.
  destruct (CreacionPersonajeState.seleccionar _ _ _ _) as [sel|];
    [|discriminate].
  cbn [mbind option_bind].
  intros H. exists sel.
  destruct (is_clicked _ _); [|congruence].
  destruct (CreacionPersonajeState.completo _); [|congruence].
  destruct (Jugador.init _ _ _ _) as [j|]; [|discriminate].
  cbn [mbind option_bind] in H.
  destruct (Game.change_state _ _ _) as [g1|]; [|discriminate].
  cbn [mbind option_bind] in H. congruence.
Qed.

Lemma escribir_cota (event : Evento) (self : CreacionPersonajeState.t) :
  (List.length (texto_de event) <= 1)%nat ->
  (List.length (CreacionPersonajeState.nombre self) <= 15)%nat ->
  (List.length
     (CreacionPersonajeState.nombre
        (CreacionPersonajeState.escribir isprintable event self)) <= 15)%nat.
Proof.
  intros Hu Hn. unfold CreacionPersonajeState.escribir.
  destruct event as [key unicode|key|e]; [|exact Hn|exact Hn].
  cbn in Hu.
  destruct (CreacionPersonajeState.input_active self); [|exact Hn].
  assert (Hrm : (List.length
                   (removelast (CreacionPersonajeState.nombre self))
                 <= 15)%nat).
  { destruct (CreacionPersonajeState.nombre self) as [|c l] eqn:E;
      [cbn; lia|].
    rewrite <- E in *. 
    pose proof (app_removelast_last "" (l := CreacionPersonajeState.nombre self))
      as Hl.
    rewrite Hl in Hn by (rewrite E; discriminate).
    rewrite length_app in Hn. lia. }
  assert (Hotra :
    (List.length
       (CreacionPersonajeState.nombre
          (if (List.length (CreacionPersonajeState.nombre self) <? 15)%nat
              && isprintable unicode
           then CreacionPersonajeState.con_nombre
                  (CreacionPersonajeState.nombre self ++ unicode) self
           else self)) <= 15)%nat).
  { destruct (Nat.ltb_spec (List.length (CreacionPersonajeState.nombre self))
                15) as [L|L]; cbn [andb]; [|exact Hn].
    destruct (isprintable unicode); [|exact Hn].
    cbn. rewrite length_app. lia. }
  destruct key; try exact Hotra; [exact Hrm|exact Hn].
Qed.

(** X20. The name typed on the creation screen never grows beyond 15
    characters, whatever keys are pressed and buttons clicked, as long
    as every key press types at most one character. *)
Theorem nombre_acotado (env : Entorno) (eventos : list Evento)
    (g g' : Game.t) (self' : CreacionPersonajeState.t)
    (Hu : Forall (fun ev => (List.length (texto_de ev) <= 1)%nat) eventos)
    (Hrun : CreacionPersonajeState.atender isprintable env eventos
              CreacionPersonajeState.enter g = Some (self', g')) :
  (List.length (CreacionPersonajeState.nombre self') <= 15)%nat.
Proof.
  assert (H0 : (List.length
                  (CreacionPersonajeState.nombre CreacionPersonajeState.enter)
                <= 15)%nat) by (cbn; lia).
  revert Hrun H0. generalize CreacionPersonajeState.enter as self.
  revert g. induction Hu as [|ev eventos Hev _ IH]; intros g self Hrun H0.
  - cbn in Hrun. injection Hrun as <- _. exact H0.
  - cbn in Hrun.
    destruct (CreacionPersonajeState.handle_event isprintable env ev self g)
      as [[s1 g1]|] eqn:E; [|discriminate].
    cbn in Hrun. apply (IH _ _ Hrun).
    destruct (handle_event_pantalla _ _ _ _ _ _ E) as [sel ->].
    cbn [CreacionPersonajeState.nombre
           CreacionPersonajeState.con_clase_seleccionada].
    apply escribir_cota; assumption.
Qed.

Lemma atender_app (env : Entorno) (a b : list Evento)
    (self : CreacionPersonajeState.t) (g : Game.t) :
  CreacionPersonajeState.atender isprintable env (a ++ b) self g
  = '(self', g') ← CreacionPersonajeState.atender isprintable env a self g;
    CreacionPersonajeState.atender isprintable env b self' g'.
Proof.
  revert self g. induction a as [|ev a IH]; intros self g; [reflexivity|].
  cbn. destruct (CreacionPersonajeState.handle_event _ _ _ _ _)
    as [[s1 g1]|]; [|reflexivity].
  cbn. apply IH.
Qed.

Lemma atender_inactivo (env : Entorno) (eventos : list Evento)
    (self self' : CreacionPersonajeState.t) (g g' : Game.t) :
  CreacionPersonajeState.input_active self = false ->
  CreacionPersonajeState.atender isprintable env eventos self g
  = Some (self', g') ->
  CreacionPersonajeState.nombre self' = CreacionPersonajeState.nombre self /\
  CreacionPersonajeState.input_active self' = false.
Proof.
  revert self g. induction eventos as [|ev eventos IH]; intros self g Hin Hrun.
  - cbn in Hrun. injection Hrun as <- _. auto.
  - cbn in Hrun.
    destruct (CreacionPersonajeState.handle_event isprintable env ev self g)
      as [[s1 g1]|] eqn:E; [|discriminate].
    cbn in Hrun.
    destruct (handle_event_pantalla _ _ _ _ _ _ E) as [sel ->].
    assert (Hes : CreacionPersonajeState.escribir isprintable ev self = self).
    { unfold CreacionPersonajeState.escribir.
      destruct ev; try reflexivity. rewrite Hin. reflexivity. }
    rewrite Hes in Hrun.
    destruct (IH (CreacionPersonajeState.con_clase_seleccionada sel self)
                _ Hin Hrun) as [Hn Ha]. auto.
Qed.

(** X21. Enter closes the name for good: whatever is typed or deleted
    after the first press of the return key, the name stays the one that
    had been typed before it; nothing on the screen opens the input
    again. *)
Theorem intro_cierra_el_nombre (env : Entorno) (antes despues : list Evento)
    (u : Texto.t) (g g2 : Game.t) (s2 : CreacionPersonajeState.t)
    (Hrun : CreacionPersonajeState.atender isprintable env
              (antes ++ KEYDOWN K_RETURN u :: despues)
              CreacionPersonajeState.enter g = Some (s2, g2)) :
  exists s1 g1,
    CreacionPersonajeState.atender isprintable env antes
      CreacionPersonajeState.enter g = Some (s1, g1) /\
    CreacionPersonajeState.nombre s2 = CreacionPersonajeState.nombre s1 /\
    CreacionPersonajeState.input_active s2 = false.
Proof.
  rewrite atender_app in Hrun.
  destruct (CreacionPersonajeState.atender isprintable env antes
              CreacionPersonajeState.enter g) as [[s1 g1]|]; [|discriminate].
  cbn [mbind option_bind] in Hrun. exists s1, g1. split; [reflexivity|].
  cbn [CreacionPersonajeState.atender] in Hrun.
  destruct (CreacionPersonajeState.handle_event isprintable env
              (KEYDOWN K_RETURN u) s1 g1) as [[s1' g1']|] eqn:E;
    [|discriminate].
  cbn [mbind option_bind] in Hrun.
  destruct (handle_event_pantalla _ _ _ _ _ _ E) as [sel ->].
  assert (Hin : CreacionPersonajeState.input_active
                  (CreacionPersonajeState.con_clase_seleccionada sel
                     (CreacionPersonajeState.escribir isprintable
                        (KEYDOWN K_RETURN u) s1)) = false).
  { cbn. destruct (CreacionPersonajeState.input_active s1) eqn:Ha;
      [reflexivity|exact Ha]. }
  destruct (atender_inactivo _ _ _ _ _ _ Hin Hrun) as [Hn Ha].
  split; [|exact Ha]. rewrite Hn. cbn.
  destruct (CreacionPersonajeState.input_active s1); reflexivity.
Qed.

Lemma clic_es_hover (b : Button.t) :
  is_clicked clic b = Button.is_hovered b.
Proof. reflexivity. Qed.

Lemma confirmar_paso (env : Entorno) (self : CreacionPersonajeState.t)
    (g : Game.t) :
  Forall (fun b => Button.is_hovered b = false)
         (CreacionPersonajeState.class_buttons self) ->
  Button.is_hovered (CreacionPersonajeState.confirm_button self) = true ->
  CreacionPersonajeState.handle_event isprintable env clic self g
  = if CreacionPersonajeState.completo self then
      j ← Jugador.init (Texto.str (CreacionPersonajeState.nombre self))
            (default "" (CreacionPersonajeState.clase_seleccionada self))
            640 360;
      g' ← Game.change_state env JUGANDO
             (Game.con_jugador
                (Some (Jugador.con_inventario
                         (Jugador.inventario j ++ [pocion] ++ [pocion]) j))
                g);
      Some (self, g')
    else Some (self, g).
Proof.
  intros Hbot Hconf. unfold CreacionPersonajeState.handle_event.
  cbn [CreacionPersonajeState.escribir clic].
  rewrite seleccionar_sin_clic
    by (eapply Forall_impl; [exact Hbot|]; intros b Hb;
        rewrite clic_es_hover; exact Hb).
  cbn [mbind option_bind].
  assert (Hself : CreacionPersonajeState.con_clase_seleccionada
                    (CreacionPersonajeState.clase_seleccionada self) self
                  = self) by (destruct self; reflexivity).
  rewrite Hself.
  rewrite clic_es_hover, Hconf.
  destruct (CreacionPersonajeState.completo self); [|reflexivity].
  destruct (Jugador.init _ _ _ _) as [j|]; [|reflexivity].
  cbn [mbind option_bind fold_left seq Jugador.inventario
         Jugador.con_inventario].
  rewrite <- app_assoc. destruct j; reflexivity.
Qed.

Lemma confirmar_completo (env : Entorno)
    (self : CreacionPersonajeState.t) (g : Game.t) (clase : string)
    (stats : Z * Z * Z) :
  Game.current_state g <> Some COMBATE ->
  CreacionPersonajeState.nombre self <> [] ->
  CreacionPersonajeState.clase_seleccionada self = Some clase ->
  Jugador.buscar_clase clase Jugador.CLASES = Some stats ->
  Forall (fun b => Button.is_hovered b = false)
         (CreacionPersonajeState.class_buttons self) ->
  Button.is_hovered (CreacionPersonajeState.confirm_button self) = true ->
  CreacionPersonajeState.handle_event isprintable env clic self g
  = Some (self,
          Game.JugandoState_enter env
            (Game.con_current_state (Some JUGANDO)
               (Game.con_jugador
                  (Some (recien_creado (CreacionPersonajeState.nombre self)
                           clase stats)) g))).
Proof.
  intros Hst Hnom Hcl Hen Hbot Hconf.
  rewrite (confirmar_paso env self g Hbot Hconf).
  assert (Hne : clase <> "").
  { intros ->. cbn in Hen. discriminate Hen. }
  unfold CreacionPersonajeState.completo. rewrite Hcl.
  destruct (CreacionPersonajeState.nombre self) as [|c l] eqn:En;
    [contradiction Hnom; reflexivity|].
  destruct (String.eqb_spec clase ""); [contradiction|]. cbn [negb].
  change (default "" (Some clase)) with clase.
  unfold Jugador.init. rewrite Hen. destruct stats as [[hp0 atk0] def0].
  cbn [mbind option_bind]. unfold Game.change_state.
  cbn [Game.current_state Game.con_jugador].
  destruct (Game.current_state g) as [[]|]; try reflexivity.
  contradiction Hst; reflexivity.
Qed.

(** X22. Confirming a name and a class creates the player and starts the
    game: a click on Confirmar, with a name typed and one of the classes
    chosen, puts at the centre of the screen a player of that name and
    class with the class's hp, attack and defence, at full health, with
    100 gold and two potions, and enters exploration. *)
Theorem confirmar_crea_jugador (env : Entorno)
    (self : CreacionPersonajeState.t) (g : Game.t) (clase : string)
    (stats : Z * Z * Z)
    (Hst : Game.current_state g = Some CREACION_PERSONAJE)
    (Hnom : CreacionPersonajeState.nombre self <> [])
    (Hcl : CreacionPersonajeState.clase_seleccionada self = Some clase)
    (Hen : Jugador.buscar_clase clase Jugador.CLASES = Some stats)
    (Hbot : Forall (fun b => Button.is_hovered b = false)
                   (CreacionPersonajeState.class_buttons self))
    (Hconf : Button.is_hovered (CreacionPersonajeState.confirm_button self)
             = true) :
  CreacionPersonajeState.handle_event isprintable env clic self g
  = Some (self,
          Game.JugandoState_enter env
            (Game.con_current_state (Some JUGANDO)
               (Game.con_jugador
                  (Some (recien_creado (CreacionPersonajeState.nombre self)
                           clase stats)) g))).
Proof.
  apply confirmar_completo; try assumption. rewrite Hst. discriminate.
Qed.

(** X23. Without a name or without a class Confirmar does nothing: the
    click leaves the screen and the game as they are, and no player is
    created. *)
Theorem confirmar_incompleto (env : Entorno)
    (self : CreacionPersonajeState.t) (g : Game.t)
    (Hinc : CreacionPersonajeState.nombre self = []
            \/ CreacionPersonajeState.clase_seleccionada self = None)
    (Hbot : Forall (fun b => Button.is_hovered b = false)
                   (CreacionPersonajeState.class_buttons self))
    (Hconf : Button.is_hovered (CreacionPersonajeState.confirm_button self)
             = true) :
  CreacionPersonajeState.handle_event isprintable env clic self g
  = Some (self, g).
Proof.
  rewrite (confirmar_paso env self g Hbot Hconf).
  unfold CreacionPersonajeState.completo.
  destruct Hinc as [-> | ->]; [reflexivity|].
  destruct (CreacionPersonajeState.nombre self); reflexivity.
Qed.

(** X24. A new game started after a game over meets the enemies of the
    old one: from the game-over screen through the menu and the creation
    screen into exploration, a fresh player is created, but the store of
    enemies and the roster are those the lost game left, as they were. *)
Theorem nueva_partida_conserva_enemigos (env : Entorno) (g : Game.t)
    (s : Game.JugandoState) (boton : Button.t) (menu : MenuState.t)
    (self : CreacionPersonajeState.t) (clase : string) (stats : Z * Z * Z)
    (Hst : Game.current_state g = Some GAME_OVER)
    (Hj : Game.jugando g = Some s)
    (Hb : Button.is_hovered boton = true)
    (Hm : Button.is_hovered (MenuState.nuevo_juego menu) = true)
    (Hnom : CreacionPersonajeState.nombre self <> [])
    (Hcl : CreacionPersonajeState.clase_seleccionada self = Some clase)
    (Hen : Jugador.buscar_clase clase Jugador.CLASES = Some stats)
    (Hbot : Forall (fun b => Button.is_hovered b = false)
                   (CreacionPersonajeState.class_buttons self))
    (Hconf : Button.is_hovered (CreacionPersonajeState.confirm_button self)
             = true) :
  exists g1 g2 g3,
    GameOverState.handle_event env boton clic g = Some g1 /\
    MenuState.handle_event env menu clic g1 = Some (g2, true) /\
    CreacionPersonajeState.handle_event isprintable env clic self g2
    = Some (self, g3) /\
    Game.current_state g3 = Some JUGANDO /\
    Game.jugador g3
    = Some (recien_creado (CreacionPersonajeState.nombre self) clase stats) /\
    Game.objetos g3 = Game.objetos g /\
    Game.enemigos <$> Game.jugando g3 = Some (Game.enemigos s).
Proof.
  eexists _, _, _.
  split.
  { unfold GameOverState.handle_event. rewrite clic_es_hover, Hb.
    unfold Game.change_state. rewrite Hst. reflexivity. }
  split.
  { unfold MenuState.handle_event. rewrite clic_es_hover, Hm.
    reflexivity. }
  split.
  { apply (confirmar_completo env self _ clase stats); try assumption.
    cbn. discriminate. }
  destruct g as [cs j ea objs jg cb out]. cbn in Hst, Hj. subst cs jg.
  repeat split; reflexivity.
Qed.

End Creacion.

Lemma nombre_acotado_testigo :
  (List.length
     (CreacionPersonajeState.nombre
        (CreacionPersonajeState.con_nombre ["A"; "n"; "a"]
           CreacionPersonajeState.enter)) <= 15)%nat.
Proof.
  apply (nombre_acotado isprintable_ascii (entorno 0 0 (0, 0))
           [ KEYDOWN K_a ["A"]; KEYDOWN K_OTRA ["m"]; KEYDOWN K_BACKSPACE [];
             KEYDOWN K_OTRA ["n"]; KEYUP K_a; KEYDOWN K_a ["a"] ]
           en_creacion en_creacion).
  - repeat constructor.
  - reflexivity.
Defined.

Lemma intro_cierra_el_nombre_testigo :
  exists s1 g1,
    CreacionPersonajeState.atender isprintable_ascii (entorno 0 0 (0, 0))
      [ KEYDOWN K_a ["A"]; KEYDOWN K_OTRA ["n"] ]
      CreacionPersonajeState.enter en_creacion = Some (s1, g1) /\
    CreacionPersonajeState.nombre
      (CreacionPersonajeState.con_input_active false
         (CreacionPersonajeState.con_nombre ["A"; "n"]
            CreacionPersonajeState.enter))
    = CreacionPersonajeState.nombre s1 /\
    CreacionPersonajeState.input_active
      (CreacionPersonajeState.con_input_active false
         (CreacionPersonajeState.con_nombre ["A"; "n"]
            CreacionPersonajeState.enter)) = false.
Proof.
  apply (intro_cierra_el_nombre isprintable_ascii (entorno 0 0 (0, 0))
           [ KEYDOWN K_a ["A"]; KEYDOWN K_OTRA ["n"] ]
           [ KEYDOWN K_a ["a"]; KEYDOWN K_BACKSPACE [] ]
           [] en_creacion en_creacion).
  reflexivity.
Defined.

Lemma confirmar_crea_jugador_testigo :
  CreacionPersonajeState.handle_event isprintable_ascii
    (entorno 0 0 (0, 0)) clic ana_la_maga en_creacion
  = Some (ana_la_maga,
          Game.JugandoState_enter (entorno 0 0 (0, 0))
            (Game.con_current_state (Some JUGANDO)
               (Game.con_jugador
                  (Some (recien_creado
                           (CreacionPersonajeState.nombre ana_la_maga)
                           "Mago" (80, 20, 5))) en_creacion))).
Proof.
  apply (confirmar_crea_jugador isprintable_ascii (entorno 0 0 (0, 0))
           ana_la_maga en_creacion "Mago" (80, 20, 5)).
  - reflexivity.
  - discriminate.
  - reflexivity.
  - reflexivity.
  - repeat constructor.
  - reflexivity.
Defined.

Lemma confirmar_incompleto_testigo :
  CreacionPersonajeState.handle_event isprintable_ascii
    (entorno 0 0 (0, 0)) clic
    (CreacionPersonajeState.update (640, 645)
       (CreacionPersonajeState.con_nombre ["A"; "n"; "a"]
          CreacionPersonajeState.enter))
    en_creacion
  = Some (CreacionPersonajeState.update (640, 645)
            (CreacionPersonajeState.con_nombre ["A"; "n"; "a"]
               CreacionPersonajeState.enter),
          en_creacion).
Proof.
  apply (confirmar_incompleto isprintable_ascii (entorno 0 0 (0, 0))
           (CreacionPersonajeState.update (640, 645)
              (CreacionPersonajeState.con_nombre ["A"; "n"; "a"]
                 CreacionPersonajeState.enter))
           en_creacion).
  - right. reflexivity.
  - repeat constructor.
  - reflexivity.
Defined.

Lemma nueva_partida_conserva_enemigos_testigo :
  exists g1 g2 g3,
    GameOverState.handle_event (entorno 0 0 (0, 0))
      (GameOverState.update (640, 420) GameOverState.enter) clic
      tras_la_derrota = Some g1 /\
    MenuState.handle_event (entorno 0 0 (0, 0))
      (MenuState.update (640, 320) MenuState.enter) clic g1
    = Some (g2, true) /\
    CreacionPersonajeState.handle_event isprintable_ascii
      (entorno 0 0 (0, 0)) clic ana_la_maga g2 = Some (ana_la_maga, g3) /\
    Game.current_state g3 = Some JUGANDO /\
    Game.jugador g3
    = Some (recien_creado (CreacionPersonajeState.nombre ana_la_maga)
              "Mago" (80, 20, 5)) /\
    Game.objetos g3 = Game.objetos tras_la_derrota /\
    Game.enemigos <$> Game.jugando g3 = Some [0; 1]%nat.
Proof.
  apply (nueva_partida_conserva_enemigos isprintable_ascii
           (entorno 0 0 (0, 0)) tras_la_derrota
           {| Game.enemigos := [0; 1]%nat;
              Game.keys := {| Game.up := false; Game.down := false;
                              Game.left := false; Game.right := false |} |}
           (GameOverState.update (640, 420) GameOverState.enter)
           (MenuState.update (640, 320) MenuState.enter)
           ana_la_maga "Mago" (80, 20, 5)).
  - reflexivity.
  - reflexivity.
  - reflexivity.
  - reflexivity.
  - discriminate.
  - reflexivity.
  - reflexivity.
  - repeat constructor.
  - reflexivity.
Defined.
